(** * Stella cartridge schemes: Cartridge2K and CartridgeSB

    A shallow embedding of [Cart2K.cxx] and [CartSB.cxx]: the two cartridge
    classes become records, their member functions become functions on these
    records, and the objects they reach through pointers (the System page
    table, the devices behind the hot spots, the Serializer) are passed
    explicitly.  A result of [None] stands for a call that has no defined
    result in C++ (a null or dangling pointer is dereferenced, an array is
    indexed out of its bounds, or the call never returns). *)

From stdpp Require Import base numbers option list strings pretty.
From Stdlib Require Import ZArith Lia.

Local Open Scope Z_scope.

(** ** Machine integers and arrays *)

(** Conversion to an unsigned integer of 8, 16 and 32 bits. *)
Definition uInt8 (z : Z) : Z := z mod 256.
Definition uInt16 (z : Z) : Z := z mod 65536.
Definition uInt32 (z : Z) : Z := z mod 4294967296.

(** [a[i]] on a C array: defined only inside the array. *)
Definition array_get {A : Type} (a : list A) (i : Z) : option A :=
  if decide (0 <= i) then a !! Z.to_nat i else None.

(** [a[i] = x] on a C array: defined only inside the array. *)
Definition array_set {A : Type} (a : list A) (i : Z) (x : A) : option (list A) :=
  if decide (0 <= i < Z.of_nat (length a)) then Some (<[Z.to_nat i := x]> a) else None.

(** [memset(dst, v, n)] on a buffer that was allocated with [n] bytes. *)
Definition memset (v : Z) (n : Z) : list Z := replicate (Z.to_nat n) v.

(** [memcpy(dst, src, n)]: the first [n] bytes of [dst] are replaced by those
    of [src]; both buffers must hold [n] bytes. *)
Definition memcpy (dst src : list Z) (n : Z) : option (list Z) :=
  if decide (n <= Z.of_nat (length src) /\ n <= Z.of_nat (length dst))
  then Some (take (Z.to_nat n) src ++ drop (Z.to_nat n) dst)
  else None.

(** A bounded search used to settle facts about 16-bit addresses by
    evaluation: [check_range n z P] tests [P] on z, z+1, ..., z+n-1. *)
Fixpoint check_range (n : nat) (z : Z) (P : Z -> bool) : bool :=
  match n with
  | O => true
  | S n' => P z && check_range n' (z + 1) P
  end.

(** ** The Serializer *)

Module Serializer.

(** Modelled from the spec: Serializer.hxx is not among the sources.  The
    byte stream abstraction offers [putString], [getString], [putShort] and
    [getShort]; reading signals an error on malformed data.  The stream is
    kept as the sequence of values written to it; a read of the wrong kind,
    or at the end of the stream, throws ([None]). *)
Inductive Item : Type :=
| IString (s : string)
| IShort (n : Z).

Definition t : Type := list Item.

Definition putString (s : string) (out : t) : t := out ++ [IString s].

Definition putShort (n : Z) (out : t) : t := out ++ [IShort (uInt16 n)].

Definition getString (inp : t) : option (string * t) :=
  match inp with
  | IString s :: rest => Some (s, rest)
  | _ => None
  end.

Definition getShort (inp : t) : option (Z * t) :=
  match inp with
  | IShort n :: rest => Some (uInt16 n, rest)
  | _ => None
  end.

End Serializer.

(** ** The System page table *)

Module System.

(** Modelled from the spec: System.hxx is not among the sources.  Pages are
    64-byte granules, an address is turned into its page by a right shift. *)
Definition PAGE_SHIFT : Z := 6.
Definition PAGE_SIZE : Z := Z.shiftl 1 PAGE_SHIFT.
Definition PAGE_MASK : Z := PAGE_SIZE - 1.

(** The device a page descriptor names: no device (a null pointer), the
    cartridge under study ([this]), or one of the other devices of the
    console, told apart by a number. *)
Inductive DeviceRef : Type :=
| NullDevice
| ThisCart
| OtherDevice (id : nat).

Inductive PageAccessType : Type := PA_READ | PA_WRITE | PA_READWRITE.

(** Modelled from the spec: a Page Access Descriptor holds the owning
    device, the capability, a direct pointer into the backing store and the
    tracking pointer for code/data classification.  A pointer into the
    cartridge's buffers is kept as the index it points at, [None] is the
    null pointer. *)
Record PageAccess : Type := mkPageAccess {
  directPeekBase : option Z;
  codeAccessBase : option Z;
  device : DeviceRef;
  type : PageAccessType
}.

(** [PageAccess(device, type)] *)
Definition PageAccess_ctor (dev : DeviceRef) (ty : PageAccessType) : PageAccess :=
  {| directPeekBase := None; codeAccessBase := None; device := dev; type := ty |}.

(** [PageAccess()] *)
Definition PageAccess_default : PageAccess := PageAccess_ctor NullDevice PA_READ.

(** Modelled from the spec: the fixed-size table from page index to
    descriptor; [setPageAccess] always succeeds and overwrites the entry. *)
Record t : Type := mkSystem { myPageAccessTable : Z -> PageAccess }.

Definition getPageAccess (sys : t) (page : Z) : PageAccess :=
  myPageAccessTable sys page.

Definition setPageAccess (sys : t) (page : Z) (access : PageAccess) : t :=
  {| myPageAccessTable := fun p => if decide (p = page) then access
                                   else myPageAccessTable sys p |}.

(** [for(uInt32 address = start; address < limit; address += PAGE_SIZE) body]
    The fuel is the number of addresses left below [limit], which bounds the
    number of rounds. *)
Fixpoint page_loop (fuel : nat) (address limit : Z) (body : Z -> t -> t) (sys : t) : t :=
  match fuel with
  | O => sys
  | S fuel' =>
      if decide (address < limit)
      then page_loop fuel' (address + PAGE_SIZE) limit body (body address sys)
      else sys
  end.

Definition for_each_page (start limit : Z) (body : Z -> t -> t) (sys : t) : t :=
  page_loop (Z.to_nat (limit - start)) start limit body sys.

End System.

(** The devices of the console other than the cartridge (the TIA and the
    others behind the hot spots), as the interface [Device] gives them to the
    cartridge: a state, and [peek] and [poke] on the device of a given
    number. *)
Class Devices (Dev : Type) : Type := {
  dev_peek : nat -> Z -> Dev -> Z * Dev;
  dev_poke : nat -> Z -> Z -> Dev -> bool * Dev
}.

(** ** Cartridge2K *)

Module Cartridge2K.

(** Modelled from the spec: [name()] is declared in Cart2K.hxx, which is not
    among the sources; the identity tag names the concrete scheme. *)
Definition name : string := "Cartridge2K".

Record t : Type := mkCart {
  myImage : list Z;
  mySize : Z;
  myMask : Z;
  myBankChanged : bool;
  mySystem : option System.t
}.

(** [while(mySize < size) mySize <<= 1;] on a [uInt32]; [None] when the fuel
    runs out before the loop ends. *)
Fixpoint grow (fuel : nat) (mySize size : Z) : option Z :=
  match fuel with
  | O => None
  | S fuel' =>
      if decide (mySize < size)
      then grow fuel' (uInt32 (Z.shiftl mySize 1)) size
      else Some mySize
  end.

(** The constructor.  The flag [myBankChanged] comes from the base class
    [Cartridge], whose constructor is not among the sources; its value at
    construction is the argument [changed0]. *)
Definition ctor (changed0 : bool) (image : list Z) (size : Z) : option t :=
  let size := if decide (size > 2048) then 2048 else size in
  mySize ← grow 33 1 size;
  let mySize := if decide (mySize < 64) then 64 else mySize in
  let myImage := memset 0x02 mySize in
  myImage ← memcpy myImage image size;
  Some {| myImage := myImage;
          mySize := mySize;
          myMask := mySize - 1;
          myBankChanged := changed0;
          mySystem := None |}.

Definition reset (c : t) : t :=
  {| myImage := myImage c; mySize := mySize c; myMask := myMask c;
     myBankChanged := true; mySystem := mySystem c |}.

Definition install (c : t) (system : System.t) : t :=
  let access := System.PageAccess_ctor System.ThisCart System.PA_READ in
  let system' :=
    System.for_each_page 0x1000 0x2000
      (fun address sys =>
         System.setPageAccess sys (Z.shiftr address System.PAGE_SHIFT)
           {| System.directPeekBase := Some (Z.land address (myMask c));
              System.codeAccessBase := Some (Z.land address (myMask c));
              System.device := System.device access;
              System.type := System.type access |})
      system in
  {| myImage := myImage c; mySize := mySize c; myMask := myMask c;
     myBankChanged := myBankChanged c; mySystem := Some system' |}.

(** [peek] returns the byte read and the cartridge after the call. *)
Definition peek (c : t) (address : Z) : option (Z * t) :=
  v ← array_get (myImage c) (Z.land address (myMask c));
  Some (v, c).

Definition poke (c : t) (address value : Z) : bool * t := (false, c).

Definition patch (c : t) (address value : Z) : option (bool * t) :=
  img ← array_set (myImage c) (Z.land address (myMask c)) value;
  Some (true, {| myImage := img; mySize := mySize c; myMask := myMask c;
                 myBankChanged := true; mySystem := mySystem c |}).

(** [getImage(size)]: the buffer and, through the reference, its size. *)
Definition getImage (c : t) : list Z * Z := (myImage c, mySize c).

(** [save]: the result and the stream after the call.  Writing to the
    stream of the model never throws, so the handler of the exception is
    not entered. *)
Definition save (c : t) (out : Serializer.t) : bool * Serializer.t :=
  (true, Serializer.putString name out).

(** [load]: the result, the cartridge and the stream after the call, and the
    lines written to [cerr]. *)
Definition load (c : t) (inp : Serializer.t)
  : bool * t * Serializer.t * list string :=
  match Serializer.getString inp with
  | None => (false, c, inp, ["ERROR: Cartridge2K::load"%string])
  | Some (s, rest) =>
      if decide (s ≠ name) then (false, c, rest, [])
      else (true, c, rest, [])
  end.

End Cartridge2K.

(** ** CartridgeSB *)

Module CartridgeSB.

(** Modelled from the spec: [name()] is declared in CartSB.hxx, which is not
    among the sources; the identity tag names the concrete scheme. *)
Definition name : string := "CartridgeSB".

(** The members of [CartridgeSB], with those it inherits from [Cartridge]
    ([myStartBank], [myBankChanged], [myBankLocked]) and from [Device]
    ([mySystem]).  The pointer [mySystem] is kept as the System it points
    at, [None] being the null pointer. *)
Record t : Type := mkCart {
  myImage : list Z;
  mySize : Z;
  myCurrentBank : Z;
  myHotSpotPageAccess : list System.PageAccess;
  myStartBank : Z;
  myBankChanged : bool;
  myBankLocked : bool;
  mySystem : option System.t
}.

(** Modelled from the spec: [bankLocked], [lockBank] and [unlockBank] belong
    to the base class [Cartridge] (Cart.hxx, not among the sources).
    Bank-locked is a debug-only mode set and cleared from outside, so a new
    cartridge is not locked. *)
Definition bankLocked (c : t) : bool := myBankLocked c.

Definition set_locked (c : t) (b : bool) : t :=
  {| myImage := myImage c; mySize := mySize c; myCurrentBank := myCurrentBank c;
     myHotSpotPageAccess := myHotSpotPageAccess c; myStartBank := myStartBank c;
     myBankChanged := myBankChanged c; myBankLocked := b; mySystem := mySystem c |}.

Definition lockBank (c : t) : t := set_locked c true.
Definition unlockBank (c : t) : t := set_locked c false.

Definition getBank (c : t) : Z := myCurrentBank c.

Definition bankCount (c : t) : Z := uInt16 (Z.shiftr (mySize c) 12).

(** The constructor.  [changed0] is the value the constructor of the base
    class gives to [myBankChanged]; the new buffer of [make_unique] holds
    zeros.  [myStartBank] is declared in Cart.hxx; it is stored as computed,
    which for an image of at least one bank is what any unsigned width of
    16 bits or more holds. *)
Definition ctor (changed0 : bool) (image : list Z) (size : Z) : option t :=
  let mySize := size in
  let myImage := memset 0 mySize in
  myImage ← memcpy myImage image mySize;
  let c := {| myImage := myImage; mySize := mySize; myCurrentBank := 0;
              myHotSpotPageAccess := replicate 8 System.PageAccess_default;
              myStartBank := 0; myBankChanged := changed0;
              myBankLocked := false; mySystem := None |} in
  Some {| myImage := myImage; mySize := mySize; myCurrentBank := 0;
          myHotSpotPageAccess := replicate 8 System.PageAccess_default;
          myStartBank := bankCount c - 1; myBankChanged := changed0;
          myBankLocked := false; mySystem := None |}.

Definition bank (c : t) (bank : Z) : option (bool * t) :=
  if bankLocked c then Some (false, c)
  else
    let myCurrentBank := uInt16 bank in
    let offset := uInt32 (Z.shiftl myCurrentBank 12) in
    let access := System.PageAccess_ctor System.ThisCart System.PA_READ in
    system ← mySystem c;
    let system' :=
      System.for_each_page 0x1000 0x2000
        (fun address sys =>
           System.setPageAccess sys (Z.shiftr address System.PAGE_SHIFT)
             {| System.directPeekBase := Some (offset + Z.land address 0x0FFF);
                System.codeAccessBase := Some (offset + Z.land address 0x0FFF);
                System.device := System.device access;
                System.type := System.type access |})
        system in
    Some (true,
          {| myImage := myImage c; mySize := mySize c;
             myCurrentBank := myCurrentBank;
             myHotSpotPageAccess := myHotSpotPageAccess c;
             myStartBank := myStartBank c; myBankChanged := true;
             myBankLocked := myBankLocked c; mySystem := Some system' |}).

Definition reset (c : t) : option t :=
  '(_, c') ← bank c (myStartBank c);
  Some c'.

(** [myHotSpotPageAccess[0..7]], as [install] reads them from the System:
    the descriptors of the pages of 0x0800, 0x0900, ..., 0x0F00. *)
Definition hotspot_pages (system : System.t) : list System.PageAccess :=
  (fun a => System.getPageAccess system (Z.shiftr a System.PAGE_SHIFT))
    <$> [0x0800; 0x0900; 0x0A00; 0x0B00; 0x0C00; 0x0D00; 0x0E00; 0x0F00].

Definition install (c : t) (system : System.t) : option t :=
  let hot := hotspot_pages system in
  let access := System.PageAccess_ctor System.ThisCart System.PA_READ in
  let system' :=
    System.for_each_page 0x0800 0x0FFF
      (fun i sys => System.setPageAccess sys (Z.shiftr i System.PAGE_SHIFT) access)
      system in
  let c' := {| myImage := myImage c; mySize := mySize c;
               myCurrentBank := myCurrentBank c;
               myHotSpotPageAccess := hot;
               myStartBank := myStartBank c; myBankChanged := myBankChanged c;
               myBankLocked := myBankLocked c; mySystem := Some system' |} in
  '(_, c'') ← bank c' (myStartBank c');
  Some c''.

(** [address &= (0x17FF + (mySize >> 12))] on a [uInt16] address. *)
Definition mask_address (c : t) (address : Z) : Z :=
  uInt16 (Z.land address (uInt32 (0x17FF + Z.shiftr (mySize c) 12))).

(** [if((address & 0x1800) == 0x0800) bank(address & myStartBank);] *)
Definition switch_banks (c : t) (address : Z) : option t :=
  if decide (Z.land address 0x1800 = 0x0800)
  then '(_, c') ← bank c (Z.land address (myStartBank c)); Some c'
  else Some c.

(** The descriptor [myHotSpotPageAccess[hotspot]] and the device it names.
    A forward to the cartridge itself would enter [peek] or [poke] again
    with the same masked address and so never return; like a null device
    it gives no result. *)
Definition hotspot_device (c : t) (address : Z) : option nat :=
  let hotspot := Z.shiftr (Z.land address 0x0F00) 8 - 8 in
  access ← array_get (myHotSpotPageAccess c) hotspot;
  match System.device access with
  | System.OtherDevice id => Some id
  | _ => None
  end.

(** [peek]: the byte read, the cartridge and the other devices after the
    call. *)
Definition peek `{Devices Dev} (c : t) (address : Z) (d : Dev)
  : option (Z * t * Dev) :=
  let address := mask_address c address in
  c ← switch_banks c address;
  if decide (Z.land address 0x1000 = 0)
  then
    id ← hotspot_device c address;
    let '(v, d') := dev_peek id address d in
    Some (v, c, d')
  else Some (0, c, d).

Definition poke `{Devices Dev} (c : t) (address value : Z) (d : Dev)
  : option (bool * t * Dev) :=
  let address := mask_address c address in
  c ← switch_banks c address;
  if decide (Z.land address 0x1000 = 0)
  then
    id ← hotspot_device c address;
    let '(_, d') := dev_poke id address value d in
    Some (false, c, d')
  else Some (false, c, d).

Definition patch (c : t) (address value : Z) : option (bool * t) :=
  img ← array_set (myImage c)
          (Z.shiftl (myCurrentBank c) 12 + Z.land address 0x0FFF) value;
  Some (true,
        {| myImage := img; mySize := mySize c;
           myCurrentBank := myCurrentBank c;
           myHotSpotPageAccess := myHotSpotPageAccess c;
           myStartBank := myStartBank c; myBankChanged := true;
           myBankLocked := myBankLocked c; mySystem := mySystem c |}).

Definition getImage (c : t) : list Z * Z := (myImage c, mySize c).

(** [save]: the result and the stream after the call; as for Cartridge2K
    the writes do not throw. *)
Definition save (c : t) (out : Serializer.t) : bool * Serializer.t :=
  (true, Serializer.putShort (myCurrentBank c) (Serializer.putString name out)).

(** [load]: the result, the cartridge and the stream after the call, and the
    lines written to [cerr]. *)
Definition load (c : t) (inp : Serializer.t)
  : option (bool * t * Serializer.t * list string) :=
  match Serializer.getString inp with
  | None => Some (false, c, inp, ["ERROR: CartridgeSB::load"%string])
  | Some (s, rest) =>
      if decide (s ≠ name) then Some (false, c, rest, [])
      else
        match Serializer.getShort rest with
        | None => Some (false, c, rest, ["ERROR: CartridgeSB::load"%string])
        | Some (b, rest') =>
            let c1 := {| myImage := myImage c; mySize := mySize c;
                         myCurrentBank := b;
                         myHotSpotPageAccess := myHotSpotPageAccess c;
                         myStartBank := myStartBank c;
                         myBankChanged := myBankChanged c;
                         myBankLocked := myBankLocked c;
                         mySystem := mySystem c |} in
            '(_, c2) ← bank c1 (myCurrentBank c1);
            Some (true, c2, rest', [])
        end
  end.

(** The byte that the descriptor published for the page of [address]
    designates: [*(directPeekBase + (address & PAGE_MASK))]. *)
Definition descriptor_byte (c : t) (address : Z) : option Z :=
  system ← mySystem c;
  base ← System.directPeekBase
            (System.getPageAccess system (Z.shiftr address System.PAGE_SHIFT));
  array_get (myImage c) (base + Z.land address System.PAGE_MASK).

(** *** Sequences of operations *)

Inductive Op : Type :=
| OpInstall (system : System.t)
| OpReset
| OpPeek (address : Z)
| OpPoke (address value : Z)
| OpBank (b : Z)
| OpPatch (address value : Z)
| OpSave
| OpLoad (inp : Serializer.t)
| OpLock
| OpUnlock.

Definition step `{Devices Dev} (op : Op) (s : t * Dev) : option (t * Dev) :=
  let '(c, d) := s in
  match op with
  | OpInstall system => c' ← install c system; Some (c', d)
  | OpReset => c' ← reset c; Some (c', d)
  | OpPeek a => '(_, c', d') ← peek c a d; Some (c', d')
  | OpPoke a v => '(_, c', d') ← poke c a v d; Some (c', d')
  | OpBank b => '(_, c') ← bank c b; Some (c', d)
  | OpPatch a v => '(_, c') ← patch c a v; Some (c', d)
  | OpSave => Some (c, d)
  | OpLoad inp => '(_, c', _, _) ← load c inp; Some (c', d)
  | OpLock => Some (lockBank c, d)
  | OpUnlock => Some (unlockBank c, d)
  end.

Fixpoint run `{Devices Dev} (ops : list Op) (s : t * Dev) : option (t * Dev) :=
  match ops with
  | [] => Some s
  | op :: ops' => s' ← step op s; run ops' s'
  end.

(** *** Kinds of operations *)

Definition is_patch (op : Op) : bool :=
  match op with OpPatch _ _ => true | _ => false end.

Definition is_lock (op : Op) : bool :=
  match op with OpLock => true | _ => false end.

(** The operations that publish the window whatever it held: [install] for
    the System it is given, [load] for the bank it reads. *)
Definition is_publish (op : Op) : bool :=
  match op with OpInstall _ | OpLoad _ => true | _ => false end.

(** The lock after an operation: only [lockBank] and [unlockBank] write
    [myBankLocked]. *)
Definition locked_after (op : Op) (locked : bool) : bool :=
  match op with OpLock => true | OpUnlock => false | _ => locked end.

(** In a sequence that starts with the lock as [locked], [install] and
    [load] run only while the bank is not locked. *)
Fixpoint publishes_unlocked (locked : bool) (ops : list Op) : bool :=
  match ops with
  | [] => true
  | op :: ops' =>
      negb (is_publish op && locked)
      && publishes_unlocked (locked_after op locked) ops'
  end.

(** *** Conditions on a cartridge

    The conditions under which the member functions are called: the image
    holds between 1 and 2048 banks of 4096 bytes and the startup bank is the
    one the constructor recorded; [install] has run; the descriptors it
    captured for the hot spots name devices of the console. *)

Definition geometry_ok (c : t) : Prop :=
  4096 <= mySize c < 0x801000 /\ myStartBank c = bankCount c - 1.

Definition installed (c : t) : Prop := is_Some (mySystem c).

Definition names_device (access : System.PageAccess) : bool :=
  match System.device access with
  | System.OtherDevice _ => true
  | _ => false
  end.

Definition forwards_to_devices (c : t) : Prop :=
  length (myHotSpotPageAccess c) = 8%nat /\
  forallb names_device (myHotSpotPageAccess c) = true.

(** The console before [install]: the pages of the hot spots belong to
    devices of the console. *)
Definition hotspots_owned (system : System.t) : Prop :=
  forallb (fun a => names_device
                      (System.getPageAccess system (Z.shiftr a System.PAGE_SHIFT)))
    [0x0800; 0x0900; 0x0A00; 0x0B00; 0x0C00; 0x0D00; 0x0E00; 0x0F00] = true.

(** The members that no member function of [CartridgeSB] other than
    [patch] and [install] writes. *)
Definition rom_unchanged (c c' : t) : Prop :=
  myImage c' = myImage c /\ mySize c' = mySize c /\
  myHotSpotPageAccess c' = myHotSpotPageAccess c /\
  myStartBank c' = myStartBank c /\ myBankLocked c' = myBankLocked c.

(** The descriptors of the cartridge window are those [bank] publishes for
    the active bank. *)
Definition pages_in_sync (c : t) : Prop :=
  exists system, mySystem c = Some system /\
    forall p, 64 <= p < 128 ->
      System.directPeekBase (System.getPageAccess system p)
      = Some (Z.shiftl (myCurrentBank c) 12 + Z.land (64 * p) 0x0FFF).


(** The operations of a sequence that may leave the range of the banks are
    [bank] with an index that is not a bank of the image, and [load] from a
    stream that stores such an index. *)
Definition op_in_range (n : Z) (op : Op) : Prop :=
  match op with
  | OpBank b => 0 <= b < n
  | OpLoad (Serializer.IString _ :: Serializer.IShort b :: _) => uInt16 b < n
  | _ => True
  end.

(** The active bank is a bank of the image, which holds [n] banks. *)
Definition bank_in_range (n : Z) (c : t) : Prop :=
  geometry_ok c /\ bankCount c = n /\ 0 <= myCurrentBank c < n.

End CartridgeSB.

(** ** Console: display format, palettes, phosphor

    The member functions of [Console] that choose the display format and
    the palette.  The objects of other classes they call (the TIA, the
    frame buffer, the settings, the properties, the System) are not part of
    the cartridge model; each call to them is recorded, in order, as an
    event, and what the function reads from them is an argument. *)

Module Console.

Inductive ConsoleTiming : Type := ntsc | pal | secam.

(** [FrameLayout::ntsc] and [FrameLayout::pal], as [myTIA->frameLayout()]
    answers. *)
Inductive FrameLayout : Type := layout_ntsc | layout_pal.

(** The keys of [myProperties] the functions below write. *)
Inductive PropertyType : Type := Display_Format | Display_Phosphor | Display_PPBlend.

(** The nine palette arrays, as the pointers to their first entry. *)
Inductive Palette : Type :=
| ourNTSCPalette | ourPALPalette | ourSECAMPalette
| ourNTSCPaletteZ26 | ourPALPaletteZ26 | ourSECAMPaletteZ26
| ourUserNTSCPalette | ourUserPALPalette | ourUserSECAMPalette.

Inductive Event : Type :=
| TIA_update
| TIA_frameReset
| Properties_set (key : PropertyType) (value : string)
| Settings_setValue (key value : string)
| FrameBuffer_setPalette (palette : Palette)
| FrameBuffer_showMessage (message : string)
| TIASurface_enablePhosphor (enable : bool) (blend : option Z)
| Console_setTIAProperties
| Console_initializeVideo
| System_consoleChanged (timing : ConsoleTiming)
| Cerr (line : string).

(** The members of [Console] read or written below, the value of the
    setting "palette" of [myOSystem.settings()], and the three user palette
    arrays (256 entries each). *)
Record t : Type := mkConsole {
  myDisplayFormat : string;
  myCurrentFormat : Z;
  myUserPaletteDefined : bool;
  myConsoleTiming : ConsoleTiming;
  settings_palette : string;
  userNTSC : list Z;
  userPAL : list Z;
  userSECAM : list Z
}.

Definition set_format (con : t) (format : Z) (display : string)
    (timing : ConsoleTiming) : t :=
  {| myDisplayFormat := display; myCurrentFormat := format;
     myUserPaletteDefined := myUserPaletteDefined con;
     myConsoleTiming := timing; settings_palette := settings_palette con;
     userNTSC := userNTSC con; userPAL := userPAL con; userSECAM := userSECAM con |}.

(** [palettes[paletteNum][column]] of [setPalette]; both indices are 0, 1
    or 2 wherever the table is read. *)
Definition palettes (paletteNum column : nat) : Palette :=
  nth column
    (nth paletteNum
       [ [ourNTSCPalette; ourPALPalette; ourSECAMPalette];
         [ourNTSCPaletteZ26; ourPALPaletteZ26; ourSECAMPaletteZ26];
         [ourUserNTSCPalette; ourUserPALPalette; ourUserSECAMPalette] ] [])
    ourNTSCPalette.

(** [s.compare(0, n, p) == 0]: the first [n] characters of [s] are [p]. *)
Definition compare_prefix (s : string) (n : nat) (p : string) : bool :=
  bool_decide (String.substring 0 n s = p).

Definition setPalette (con : t) (type : string) : list Event :=
  let paletteNum :=
    if decide (type = "standard") then 0%nat
    else if decide (type = "z26") then 1%nat
    else if decide (type = "user" /\ myUserPaletteDefined con = true) then 2%nat
    else 0%nat in
  let palette :=
    if compare_prefix (myDisplayFormat con) 3 "PAL" then palettes paletteNum 1
    else if compare_prefix (myDisplayFormat con) 5 "SECAM" then palettes paletteNum 2
    else palettes paletteNum 0 in
  [FrameBuffer_setPalette palette].

(** The chain of tests of [togglePalette]: the palette that comes after
    [palette], and the message shown. *)
Definition next_palette (con : t) (palette : string) : string * string :=
  if decide (palette = "standard") then ("z26", "Z26 palette")
  else if decide (palette = "z26") then
    (if myUserPaletteDefined con then ("user", "User-defined palette")
     else ("standard", "Standard Stella palette"))
  else if decide (palette = "user") then ("standard", "Standard Stella palette")
  else ("standard", "Standard Stella palette").

Definition togglePalette (con : t) : t * list Event :=
  let '(palette, message) := next_palette con (settings_palette con) in
  let con' :=
    {| myDisplayFormat := myDisplayFormat con; myCurrentFormat := myCurrentFormat con;
       myUserPaletteDefined := myUserPaletteDefined con;
       myConsoleTiming := myConsoleTiming con; settings_palette := palette;
       userNTSC := userNTSC con; userPAL := userPAL con;
       userSECAM := userSECAM con |} in
  (con', [Settings_setValue "palette" palette; FrameBuffer_showMessage message]
         ++ setPalette con' palette).

(** The [switch(myCurrentFormat)] of [toggleFormat]: the calls to the TIA,
    the display format, the timing, the format saved in the properties and
    the message.  [layout] is what [myTIA->frameLayout()] answers after
    [myTIA->update()]. *)
Definition format_switch (con : t) (format : Z) (layout : FrameLayout)
  : list Event * string * ConsoleTiming * string * string :=
  let auto := match layout with layout_pal => "PAL" | layout_ntsc => "NTSC" end in
  match format with
  | 0 => ([TIA_update], auto,
          match layout with layout_pal => pal | layout_ntsc => ntsc end,
          "AUTO", "Auto-detect mode: " +:+ auto)
  | 1 => ([], "NTSC", ntsc, "NTSC", "NTSC mode")
  | 2 => ([], "PAL", pal, "PAL", "PAL mode")
  | 3 => ([], "SECAM", secam, "SECAM", "SECAM mode")
  | 4 => ([], "NTSC50", ntsc, "NTSC50", "NTSC50 mode")
  | 5 => ([], "PAL60", pal, "PAL60", "PAL60 mode")
  | 6 => ([], "SECAM60", secam, "SECAM60", "SECAM60 mode")
  | _ => ([], myDisplayFormat con, myConsoleTiming con, "", "")
  end.

(** [toggleFormat(direction)].  The format index is between 0 and 6
    wherever the constructor and this function leave it, so that its width
    and the sign of [%] play no part. *)
Definition toggleFormat (con : t) (direction : Z) (layout : FrameLayout)
  : t * list Event :=
  let format :=
    if decide (direction = 1) then (myCurrentFormat con + 1) mod 7
    else if decide (direction = -1) then
      (if decide (myCurrentFormat con > 0) then myCurrentFormat con - 1 else 6)
    else myCurrentFormat con in
  let '(tia, display, timing, saveformat, message) :=
    format_switch con format layout in
  let con' := set_format con format display timing in
  (con', tia ++ [Properties_set Display_Format saveformat]
             ++ setPalette con' (settings_palette con')
             ++ [Console_setTIAProperties; TIA_frameReset; Console_initializeVideo;
                 FrameBuffer_showMessage message; System_consoleChanged timing]).

(** [changePhosphor(direction)]; [blend] is the [int] that [atoi] reads from
    the property [Display_PPBlend], [enabled] is what the TIA surface
    answers to [phosphorEnabled()].  [val << blend] is the decimal text of
    the number. *)
Definition changePhosphor (direction blend : Z) (enabled : bool) : list Event :=
  let set (blend : Z) :=
    [Properties_set Display_PPBlend (pretty blend);
     FrameBuffer_showMessage ("Phosphor blend " +:+ pretty blend);
     TIASurface_enablePhosphor true (Some blend)] in
  if enabled then
    if decide (direction = 1) then
      if decide (blend >= 100) then [FrameBuffer_showMessage "Phosphor blend at maximum"]
      else set (Z.min (blend + 2) 100)
    else if decide (direction = -1) then
      if decide (blend <= 2) then [FrameBuffer_showMessage "Phosphor blend at minimum"]
      else set (Z.max (blend - 2) 0)
    else []
  else [FrameBuffer_showMessage "Phosphor effect disabled"].

(** [togglePhosphor()]; [enabled] as for [changePhosphor]. *)
Definition togglePhosphor (enabled : bool) : list Event :=
  if enabled then
    [Properties_set Display_Phosphor "No"; TIASurface_enablePhosphor false None;
     FrameBuffer_showMessage "Phosphor effect disabled"]
  else
    [Properties_set Display_Phosphor "Yes"; TIASurface_enablePhosphor true None;
     FrameBuffer_showMessage "Phosphor effect enabled"].

(** [in.read(pixbuf, 3)] and the pixel made of the three bytes: the pixel
    and the rest of the file.  The file holds enough bytes wherever
    [loadUserPalette] reads, see its test of the length. *)
Definition read_pixel (inp : list Z) : Z * list Z :=
  let pixbuf := take 3 inp in
  (Z.shiftl (nth 0 pixbuf 0) 16 + Z.shiftl (nth 1 pixbuf 0) 8 + nth 2 pixbuf 0,
   drop 3 inp).

(** [for(int i = ...; i < ...; i++) { read; palette[(i<<1)] = pixel; }],
    with [n] rounds left. *)
Fixpoint load_pixels (n : nat) (i : Z) (inp : list Z) (palette : list Z)
  : list Z * list Z :=
  match n with
  | O => (palette, inp)
  | S n' =>
      let '(pixel, inp') := read_pixel inp in
      load_pixels n' (i + 1) inp' (<[Z.to_nat (Z.shiftl i 1) := pixel]> palette)
  end.

(** The loop that fills [secam]: a pixel at the even index, 0 at the odd. *)
Fixpoint load_secam (n : nat) (i : Z) (inp : list Z) (secam : list Z)
  : list Z * list Z :=
  match n with
  | O => (secam, inp)
  | S n' =>
      let '(pixel, inp') := read_pixel inp in
      load_secam n' (i + 1) inp'
        (<[Z.to_nat (Z.shiftl i 1 + 1) := 0]> (<[Z.to_nat (Z.shiftl i 1) := pixel]> secam))
  end.

(** [loadUserPalette()]; [file] is the content of the palette file, [None]
    when it cannot be opened.  The sixteen copies of [secam] written
    through [ptr] fill the 256 entries of the SECAM palette. *)
Definition loadUserPalette (con : t) (paletteFile : string) (file : option (list Z))
  : t * list Event :=
  match file with
  | None => (con, [])
  | Some data =>
      if decide (Z.of_nat (length data) < 128 * 3 * 2 + 8 * 3)
      then (con, [Cerr ("ERROR: invalid palette file " +:+ paletteFile)])
      else
        let '(ntscPalette, inp) := load_pixels 128 0 data (userNTSC con) in
        let '(palPalette, inp) := load_pixels 128 0 inp (userPAL con) in
        let '(secamColors, _) := load_secam 8 0 inp (replicate 16 0) in
        ({| myDisplayFormat := myDisplayFormat con;
            myCurrentFormat := myCurrentFormat con;
            myUserPaletteDefined := true;
            myConsoleTiming := myConsoleTiming con;
            settings_palette := settings_palette con;
            userNTSC := ntscPalette; userPAL := palPalette;
            userSECAM := mjoin (replicate 16 secamColors) |}, [])
  end.

(** The pixel [k] of a palette file: the bytes 3k, 3k+1 and 3k+2 as red,
    green and blue. *)
Definition file_pixel (data : list Z) (k : Z) : Z :=
  Z.shiftl (nth (Z.to_nat (3 * k)) data 0) 16
  + Z.shiftl (nth (Z.to_nat (3 * k + 1)) data 0) 8
  + nth (Z.to_nat (3 * k + 2)) data 0.

(** The column of the palette table a palette belongs to (0 NTSC, 1 PAL,
    2 SECAM) and its row (0 standard, 1 z26, 2 user). *)
Definition palette_column (p : Palette) : nat :=
  match p with
  | ourNTSCPalette | ourNTSCPaletteZ26 | ourUserNTSCPalette => 0
  | ourPALPalette | ourPALPaletteZ26 | ourUserPALPalette => 1
  | ourSECAMPalette | ourSECAMPaletteZ26 | ourUserSECAMPalette => 2
  end.

Definition palette_row (p : Palette) : nat :=
  match p with
  | ourNTSCPalette | ourPALPalette | ourSECAMPalette => 0
  | ourNTSCPaletteZ26 | ourPALPaletteZ26 | ourSECAMPaletteZ26 => 1
  | ourUserNTSCPalette | ourUserPALPalette | ourUserSECAMPalette => 2
  end.

Definition timing_column (timing : ConsoleTiming) : nat :=
  match timing with ntsc => 0 | pal => 1 | secam => 2 end.

End Console.

(** ** A console for the examples

    The devices other than the cartridge keep a log of the writes they
    receive; a read gives the low byte of the address.  Every page of the
    console belongs to the device 0 before the cartridge is installed. *)

#[export] Instance example_devices : Devices (list (nat * Z * Z)) := {|
  dev_peek := fun id a log => (uInt8 a, log);
  dev_poke := fun id a v log => (true, (id, a, v) :: log)
|}.

Definition example_system : System.t :=
  {| System.myPageAccessTable := fun _ =>
       System.PageAccess_ctor (System.OtherDevice 0) System.PA_READWRITE |}.

(** A four-bank image, every byte a NOP. *)
Definition example_image : list Z := replicate (Z.to_nat 16384) 0xEA.

(** The four-bank cartridge, constructed and installed. *)
Definition example_cart : option CartridgeSB.t :=
  c ← CartridgeSB.ctor true example_image 16384;
  CartridgeSB.install c example_system.

(** A session on the example cartridge: it is installed, switched to bank
    1 by a write to a hot spot, patched, read, saved, restored to bank 2 from
    a stream, reset, switched by hand, and frozen while a hot spot is read. *)
Definition example_session : list CartridgeSB.Op :=
  [CartridgeSB.OpInstall example_system;
   CartridgeSB.OpPoke 0x0801 0x55;
   CartridgeSB.OpPatch 0x1000 0xAB;
   CartridgeSB.OpPeek 0x1000;
   CartridgeSB.OpSave;
   CartridgeSB.OpLoad [Serializer.IString CartridgeSB.name; Serializer.IShort 2];
   CartridgeSB.OpReset;
   CartridgeSB.OpBank 1;
   CartridgeSB.OpLock;
   CartridgeSB.OpPeek 0x0800;
   CartridgeSB.OpUnlock].

(** * Properties *)

(** ** Machine integers, arrays, bounded search *)

Lemma check_range_sound (P : Z -> bool) :
  forall (n : nat) (z0 : Z),
    check_range n z0 P = true ->
    forall z, z0 <= z < z0 + Z.of_nat n -> P z = true.
Proof.
  induction n as [|n IH]; intros z0 Hc z Hz; [lia|].
  cbn [check_range] in Hc. apply andb_prop in Hc as [Hhere Hrest].
  destruct (decide (z = z0)) as [->|Hne]; [exact Hhere|].
  apply (IH (z0 + 1)); [exact Hrest | lia].
Qed.

Lemma check_range_Z (P : Z -> bool) (lo count : Z) :
  check_range (Z.to_nat count) lo P = true ->
  forall z, lo <= z < lo + count -> P z = true.
Proof.
  intros Hc z Hz. apply (check_range_sound P _ _ Hc). lia.
Qed.

Lemma uInt16_small z : 0 <= z < 65536 -> uInt16 z = z.
Proof. intros Hz. unfold uInt16. apply Z.mod_small. exact Hz. Qed.

Lemma uInt32_small z : 0 <= z < 4294967296 -> uInt32 z = z.
Proof. intros Hz. unfold uInt32. apply Z.mod_small. exact Hz. Qed.

Lemma uInt16_range z : 0 <= uInt16 z < 65536.
Proof. unfold uInt16. apply Z.mod_pos_bound. lia. Qed.

Lemma array_get_lookup {A : Type} (a : list A) (i : Z) :
  0 <= i -> array_get a i = a !! Z.to_nat i.
Proof. intros Hi. unfold array_get. rewrite decide_True; [reflexivity | exact Hi]. Qed.

Lemma array_get_is_Some {A : Type} (a : list A) (i : Z) :
  0 <= i < Z.of_nat (length a) -> is_Some (array_get a i).
Proof.
  intros Hi. rewrite array_get_lookup by lia.
  apply lookup_lt_is_Some. lia.
Qed.

Lemma array_set_get {A : Type} (a a' : list A) (i : Z) (x : A) :
  array_set a i x = Some a' ->
  array_get a' i = Some x /\ length a' = length a /\
  forall j, j <> i -> array_get a' j = array_get a j.
Proof.
  unfold array_set. intros Hset.
  destruct (decide (0 <= i < Z.of_nat (length a))) as [Hi|]; [|discriminate].
  injection Hset as <-. split; [|split].
  - rewrite array_get_lookup by lia. apply list_lookup_insert_eq. lia.
  - apply length_insert.
  - intros j Hj. unfold array_get. destruct (decide (0 <= j)); [|reflexivity].
    apply list_lookup_insert_ne. lia.
Qed.

Lemma memcpy_spec (dst src : list Z) (n : Z) :
  0 <= n <= Z.of_nat (length src) -> n <= Z.of_nat (length dst) ->
  exists out, memcpy dst src n = Some out /\
    length out = length dst /\
    (forall i, 0 <= i < n -> array_get out i = array_get src i) /\
    (forall i, n <= i -> array_get out i = array_get dst i).
Proof.
  intros Hsrc Hdst. unfold memcpy. rewrite decide_True by lia.
  eexists. split; [reflexivity|]. split; [|split].
  - rewrite length_app, length_take, length_drop. lia.
  - intros i Hi. rewrite !array_get_lookup by lia.
    rewrite lookup_app_l by (rewrite length_take; lia).
    apply lookup_take_lt. lia.
  - intros i Hi. rewrite !array_get_lookup by lia.
    rewrite lookup_app_r by (rewrite length_take; lia).
    rewrite length_take, lookup_drop. f_equal. lia.
Qed.

Lemma memcpy_whole (dst src : list Z) :
  length dst = length src -> memcpy dst src (Z.of_nat (length src)) = Some src.
Proof.
  intros Hlen. unfold memcpy. rewrite decide_True by lia.
  rewrite Nat2Z.id, take_ge, drop_ge, app_nil_r by lia. reflexivity.
Qed.

(** ** The page loop *)

(** After the loop over the pages from [64 * p0] up to [limit], a page in
    that range holds what the body published for its first address, and
    every other page holds what it held before. *)
Lemma page_loop_lookup (mk : Z -> System.PageAccess) (limit : Z) :
  forall (fuel : nat) (p0 : Z) (sys : System.t) (p : Z),
    limit <= 64 * p0 + 64 * Z.of_nat fuel ->
    System.getPageAccess
      (System.page_loop fuel (64 * p0) limit
         (fun address s =>
            System.setPageAccess s (Z.shiftr address System.PAGE_SHIFT) (mk address))
         sys) p
    = if decide (p0 <= p /\ 64 * p < limit) then mk (64 * p)
      else System.getPageAccess sys p.
Proof.
  induction fuel as [|fuel IH]; intros p0 sys p Hfuel.
  - cbn [System.page_loop]. rewrite decide_False by lia. reflexivity.
  - cbn [System.page_loop].
    destruct (decide (64 * p0 < limit)) as [Hlt|Hge].
    + change System.PAGE_SIZE with 64.
      replace (64 * p0 + 64) with (64 * (p0 + 1)) by lia.
      rewrite IH by lia.
      assert (Hpage : Z.shiftr (64 * p0) System.PAGE_SHIFT = p0).
      { unfold System.PAGE_SHIFT. rewrite Z.shiftr_div_pow2 by lia.
        change (2 ^ 6) with 64. rewrite Z.mul_comm. apply Z.div_mul. lia. }
      unfold System.getPageAccess, System.setPageAccess. cbn.
      rewrite Hpage.
      destruct (decide (p = p0)) as [->|Hne].
      * rewrite decide_False by lia. rewrite decide_True by lia. reflexivity.
      * destruct (decide (p0 + 1 <= p /\ 64 * p < limit)).
        -- rewrite decide_True by lia. reflexivity.
        -- rewrite decide_False by lia. reflexivity.
    + rewrite decide_False by lia. reflexivity.
Qed.

Lemma for_each_page_lookup (mk : Z -> System.PageAccess) (p0 limit : Z)
    (sys : System.t) (p : Z) :
  64 * p0 <= limit ->
  System.getPageAccess
    (System.for_each_page (64 * p0) limit
       (fun address s =>
          System.setPageAccess s (Z.shiftr address System.PAGE_SHIFT) (mk address))
       sys) p
  = if decide (p0 <= p /\ 64 * p < limit) then mk (64 * p)
    else System.getPageAccess sys p.
Proof.
  intros Hle. unfold System.for_each_page. apply page_loop_lookup. lia.
Qed.

(** ** Cartridge2K *)

(** The rounding loop, started at a power of two that is not yet too large,
    ends within the fuel at the least power of two that reaches [size]. *)
Lemma grow_pow2 (size : Z) :
  size <= 2048 ->
  forall (fuel : nat) (i : Z),
    0 <= i <= 11 -> 11 - i < Z.of_nat fuel ->
    (i = 0 \/ 2 ^ (i - 1) < size) ->
    exists k, i <= k <= 11 /\
      Cartridge2K.grow fuel (2 ^ i) size = Some (2 ^ k) /\
      size <= 2 ^ k /\ (k = 0 \/ 2 ^ (k - 1) < size).
Proof.
  intros Hsize. induction fuel as [|fuel IH]; intros i Hi Hfuel Hprev; [lia|].
  cbn [Cartridge2K.grow].
  destruct (decide (2 ^ i < size)) as [Hlt|Hge].
  - assert (Hi11 : i < 11).
    { destruct (decide (i = 11)) as [->|]; [|lia].
      change (2 ^ 11) with 2048 in Hlt. lia. }
    assert (Hnext : uInt32 (Z.shiftl (2 ^ i) 1) = 2 ^ (i + 1)).
    { rewrite Z.shiftl_mul_pow2 by lia. change (2 ^ 1) with 2.
      rewrite Z.pow_add_r by lia. change (2 ^ 1) with 2.
      apply uInt32_small. split; [lia|].
      assert (2 ^ i < 2 ^ 11) by (apply Z.pow_lt_mono_r; lia).
      change (2 ^ 11) with 2048 in *. lia. }
    rewrite Hnext.
    destruct (IH (i + 1)) as (k & Hk & Hgrow & Hle & Hleast); [lia | lia | |].
    + right. replace (i + 1 - 1) with i by lia. exact Hlt.
    + exists k. repeat split; try lia; assumption.
  - exists i. repeat split; first [lia | reflexivity | exact Hprev].
Qed.

(** What the constructor builds, for a requested size in the range of
    [uInt32] and an image buffer that holds the bytes copied from it. *)
Lemma Cartridge2K_ctor_spec (changed0 : bool) (image : list Z) (s : Z) :
  0 <= s < 4294967296 ->
  Z.min s 2048 <= Z.of_nat (length image) ->
  exists c k,
    Cartridge2K.ctor changed0 image s = Some c /\
    Cartridge2K.mySize c = 2 ^ k /\ 6 <= k <= 11 /\
    Cartridge2K.myMask c = 2 ^ k - 1 /\
    Z.of_nat (length (Cartridge2K.myImage c)) = 2 ^ k /\
    Z.min s 2048 <= 2 ^ k /\
    (k = 6 \/ 2 ^ (k - 1) < Z.min s 2048) /\
    (forall i, 0 <= i < Z.min s 2048 ->
       array_get (Cartridge2K.myImage c) i = array_get image i) /\
    (forall i, Z.min s 2048 <= i < 2 ^ k ->
       array_get (Cartridge2K.myImage c) i = Some 0x02).
Proof.
  intros Hs Himg. unfold Cartridge2K.ctor.
  set (size := if decide (s > 2048) then 2048 else s).
  assert (Hsz : size = Z.min s 2048) by (subst size; destruct (decide (s > 2048)); lia).
  rewrite <- Hsz in *. clearbody size.
  destruct (grow_pow2 size ltac:(lia) 33%nat 0) as (k & Hk & Hgrow & Hle & Hleast);
    [lia | lia | left; reflexivity |].
  change (2 ^ 0) with 1 in Hgrow. rewrite Hgrow. cbn [mbind option_bind].
  set (k' := if decide (2 ^ k < 64) then 6 else k).
  assert (Hfinal : (if decide (2 ^ k < 64) then 64 else 2 ^ k) = 2 ^ k').
  { subst k'. destruct (decide (2 ^ k < 64)); reflexivity. }
  rewrite Hfinal.
  assert (Hk' : 6 <= k' <= 11).
  { subst k'. destruct (decide (2 ^ k < 64)) as [|Hge]; [lia|].
    split; [|lia]. destruct (decide (6 <= k)); [assumption|].
    exfalso. apply Hge. change 64 with (2 ^ 6). apply Z.pow_lt_mono_r; lia. }
  assert (Hle' : size <= 2 ^ k').
  { subst k'. destruct (decide (2 ^ k < 64)); [change (2 ^ 6) with 64|]; lia. }
  assert (Hleast' : k' = 6 \/ 2 ^ (k' - 1) < size).
  { subst k'. destruct (decide (2 ^ k < 64)); [left; reflexivity|].
    destruct Hleast as [->|]; [|right; assumption].
    change (2 ^ 0) with 1 in *. lia. }
  clearbody k'.
  assert (Hpos : 0 < 2 ^ k') by (apply Z.pow_pos_nonneg; lia).
  destruct (memcpy_spec (memset 0x02 (2 ^ k')) image size)
    as (out & Hcpy & Hlen & Hhead & Htail).
  { lia. }
  { unfold memset. rewrite length_replicate. lia. }
  rewrite Hcpy. cbn [mbind option_bind].
  unfold memset in Hlen, Htail. rewrite length_replicate in Hlen.
  eexists _, k'. split; [reflexivity|]. cbn.
  repeat split; try lia; try assumption.
  intros i Hi. rewrite Htail by lia. rewrite array_get_lookup by lia.
  apply lookup_replicate_2. lia.
Qed.

(** The bytes a mask of the form [2^k - 1] selects lie inside a store of
    [2^k] bytes. *)
Lemma land_mask_range (a k : Z) :
  0 <= k -> 0 <= Z.land a (2 ^ k - 1) < 2 ^ k.
Proof.
  intros Hk. replace (2 ^ k - 1) with (Z.ones k)
    by (rewrite Z.ones_equiv; lia).
  rewrite Z.land_ones by lia. apply Z.mod_pos_bound. apply Z.pow_pos_nonneg; lia.
Qed.

(** C8: for every image buffer and requested size [s], the constructor of
    Cartridge2K gives a backing store whose size is the least power of two
    that is at least [min(s, 2048)] and at least 64; its first
    [min(s, 2048)] bytes are those of the image and every other byte is the
    sentinel 0x02. *)
Theorem Cartridge2K_ctor_backing_store (changed0 : bool) (image : list Z) (s : Z) :
  0 <= s < 4294967296 ->
  Z.min s 2048 <= Z.of_nat (length image) ->
  exists c,
    Cartridge2K.ctor changed0 image s = Some c /\
    Z.of_nat (length (Cartridge2K.myImage c)) = Cartridge2K.mySize c /\
    (exists k, 0 <= k /\ Cartridge2K.mySize c = 2 ^ k) /\
    Z.min s 2048 <= Cartridge2K.mySize c /\
    64 <= Cartridge2K.mySize c /\
    (forall j, 0 <= j -> Z.min s 2048 <= 2 ^ j -> 64 <= 2 ^ j ->
       Cartridge2K.mySize c <= 2 ^ j) /\
    (forall i, 0 <= i < Z.min s 2048 ->
       array_get (Cartridge2K.myImage c) i = array_get image i) /\
    (forall i, Z.min s 2048 <= i < Cartridge2K.mySize c ->
       array_get (Cartridge2K.myImage c) i = Some 0x02).
Proof.
  intros Hs Himg.
  destruct (Cartridge2K_ctor_spec changed0 image s Hs Himg)
    as (c & k & Hc & Hsize & Hk & _ & Hlen & Hle & Hleast & Hhead & Htail).
  exists c. rewrite Hsize.
  assert (H64 : 64 <= 2 ^ k)
    by (change 64 with (2 ^ 6); apply Z.pow_le_mono_r; lia).
  repeat split; try assumption.
  - exists k. split; [lia | reflexivity].
  - intros j Hj Hmin Hgran.
    destruct Hleast as [->|Hprev]; [exact Hgran|].
    apply Z.pow_le_mono_r; [lia|].
    assert (k - 1 < j); [|lia].
    apply (Z.pow_lt_mono_r_iff 2); lia.
Qed.

Lemma Cartridge2K_ctor_backing_store_witness :
  exists c,
    Cartridge2K.ctor true [0xA9; 0x00; 0x85] 3 = Some c /\
    Z.of_nat (length (Cartridge2K.myImage c)) = Cartridge2K.mySize c /\
    (exists k, 0 <= k /\ Cartridge2K.mySize c = 2 ^ k) /\
    Z.min 3 2048 <= Cartridge2K.mySize c /\
    64 <= Cartridge2K.mySize c /\
    (forall j, 0 <= j -> Z.min 3 2048 <= 2 ^ j -> 64 <= 2 ^ j ->
       Cartridge2K.mySize c <= 2 ^ j) /\
    (forall i, 0 <= i < Z.min 3 2048 ->
       array_get (Cartridge2K.myImage c) i = array_get [0xA9; 0x00; 0x85] i) /\
    (forall i, Z.min 3 2048 <= i < Cartridge2K.mySize c ->
       array_get (Cartridge2K.myImage c) i = Some 0x02).
Proof.
  apply (Cartridge2K_ctor_backing_store true [0xA9; 0x00; 0x85] 3).
  - lia.
  - cbn. lia.
Defined.

(** C9: on a constructed Cartridge2K, for every address [A],
    [peek(A)] is the byte of the store at [A & (size - 1)], which lies
    inside the store, and the call leaves the cartridge as it was, so that
    a repeated call gives the same byte; with a 2048-byte image,
    [getImage] reports the size 2048 and [peek(0x1000)] and
    [peek(0x1000 + 2048)] are both the first byte of the image. *)
Theorem Cartridge2K_peek_masked (changed0 : bool) (image : list Z) (s : Z)
    (c : Cartridge2K.t) :
  0 <= s < 4294967296 ->
  Z.min s 2048 <= Z.of_nat (length image) ->
  Cartridge2K.ctor changed0 image s = Some c ->
  (forall A, 0 <= A < 65536 ->
     exists v,
       array_get (Cartridge2K.myImage c) (Z.land A (Cartridge2K.mySize c - 1)) = Some v /\
       Cartridge2K.peek c A = Some (v, c)) /\
  (s = 2048 ->
     snd (Cartridge2K.getImage c) = 2048 /\
     exists v0, array_get image 0 = Some v0 /\
       Cartridge2K.peek c 0x1000 = Some (v0, c) /\
       Cartridge2K.peek c (0x1000 + 2048) = Some (v0, c)).
Proof.
  intros Hs Himg Hctor.
  destruct (Cartridge2K_ctor_spec changed0 image s Hs Himg)
    as (c' & k & Hc & Hsize & Hk & Hmask & Hlen & Hle & Hleast & Hhead & Htail).
  rewrite Hctor in Hc. injection Hc as <-.
  split.
  - intros A HA. unfold Cartridge2K.peek. rewrite Hmask, Hsize.
    destruct (array_get_is_Some (Cartridge2K.myImage c) (Z.land A (2 ^ k - 1)))
      as [v Hv].
    { rewrite Hlen. apply land_mask_range. lia. }
    exists v. rewrite Hv. split; reflexivity.
  - intros ->. change (Z.min 2048 2048) with 2048 in *.
    assert (Hk11 : k = 11).
    { destruct (decide (k = 11)); [assumption|]. exfalso.
      assert (2 ^ k <= 2 ^ 10) by (apply Z.pow_le_mono_r; lia).
      change (2 ^ 10) with 1024 in *. lia. }
    subst k. change (2 ^ 11) with 2048 in *.
    split; [exact Hsize|].
    destruct (array_get_is_Some image 0) as [v0 Hv0]; [lia|].
    exists v0. split; [exact Hv0|].
    unfold Cartridge2K.peek. rewrite Hmask.
    change (Z.land 0x1000 (2048 - 1)) with 0.
    change (Z.land (0x1000 + 2048) (2048 - 1)) with 0.
    rewrite (Hhead 0) by lia. rewrite Hv0. split; reflexivity.
Qed.

Lemma Cartridge2K_peek_masked_witness :
  exists c,
    Cartridge2K.ctor true (replicate 2048 0xEA) 2048 = Some c /\
    (forall A, 0 <= A < 65536 ->
       exists v,
         array_get (Cartridge2K.myImage c) (Z.land A (Cartridge2K.mySize c - 1)) = Some v /\
         Cartridge2K.peek c A = Some (v, c)) /\
    (2048 = 2048 ->
       snd (Cartridge2K.getImage c) = 2048 /\
       exists v0, array_get (replicate 2048 0xEA) 0 = Some v0 /\
         Cartridge2K.peek c 0x1000 = Some (v0, c) /\
         Cartridge2K.peek c (0x1000 + 2048) = Some (v0, c)).
Proof.
  destruct (Cartridge2K.ctor true (replicate 2048 0xEA) 2048) as [c|] eqn:Hc;
    [|vm_compute in Hc; discriminate].
  exists c. split; [reflexivity|].
  apply (Cartridge2K_peek_masked true (replicate 2048 0xEA) 2048 c).
  - lia.
  - rewrite length_replicate. lia.
  - exact Hc.
Defined.

(** ** Bits of an address *)

Lemma land_uInt16 (a b : Z) : 0 <= a < 65536 -> 0 <= Z.land a b < 65536.
Proof.
  intros Ha.
  assert (Ha16 : a = Z.land a (Z.ones 16)).
  { rewrite Z.land_ones by lia. symmetry. apply Z.mod_small. exact Ha. }
  rewrite Ha16, <- Z.land_assoc, (Z.land_comm (Z.ones 16) b), Z.land_assoc.
  rewrite Z.land_ones by lia. change (2 ^ 16) with 65536.
  apply Z.mod_pos_bound. lia.
Qed.

(** The mask [0x17FF + n] of an image of [n] banks keeps the two bits that
    tell the hot spots from the window, and every bit of [n - 1]. *)
Lemma bank_mask_bits (n : Z) :
  1 <= n <= 2048 ->
  Z.land (0x17FF + n) 0x1800 = 0x1800 /\
  Z.land (0x17FF + n) 0x1000 = 0x1000 /\
  Z.land (0x17FF + n) (n - 1) = n - 1.
Proof.
  intros Hn.
  pose (P := fun n => (Z.land (0x17FF + n) 0x1800 =? 0x1800)
                      && (Z.land (0x17FF + n) 0x1000 =? 0x1000)
                      && (Z.land (0x17FF + n) (n - 1) =? n - 1)).
  assert (Hall : check_range (Z.to_nat 2048) 1 P = true) by (vm_compute; reflexivity).
  pose proof (check_range_Z P _ _ Hall n ltac:(lia)) as HP.
  unfold P in HP. apply andb_prop in HP as [HP H3]. apply andb_prop in HP as [H1 H2].
  repeat split; apply Z.eqb_eq; assumption.
Qed.

(** A masked address of the hot spots has bit 12 clear and selects one of
    the eight captured descriptors. *)
Lemma hotspot_index (a : Z) :
  0 <= a < 65536 -> Z.land a 0x1800 = 0x0800 ->
  Z.land a 0x1000 = 0 /\ 0 <= Z.shiftr (Z.land a 0x0F00) 8 - 8 < 8.
Proof.
  intros Ha Hhot.
  pose (P := fun a => implb (Z.land a 0x1800 =? 0x0800)
                        ((Z.land a 0x1000 =? 0)
                         && (0 <=? Z.shiftr (Z.land a 0x0F00) 8 - 8)
                         && (Z.shiftr (Z.land a 0x0F00) 8 - 8 <? 8))).
  assert (Hall : check_range (Z.to_nat 65536) 0 P = true) by (vm_compute; reflexivity).
  pose proof (check_range_Z P _ _ Hall a ltac:(lia)) as HP.
  unfold P in HP. apply Z.eqb_eq in Hhot. rewrite Hhot in HP. cbn [implb] in HP.
  apply andb_prop in HP as [HP H3]. apply andb_prop in HP as [H1 H2].
  apply Z.eqb_eq in H1. apply Z.leb_le in H2. apply Z.ltb_lt in H3. lia.
Qed.

(** The address ranges of the reference map, as tests on bits 11 and 12, and
    the page and the offset in its page of an address of the window. *)
Lemma address_ranges (A : Z) :
  0 <= A < 0x2000 ->
  (0x0800 <= A <= 0x0FFF -> Z.land A 0x1800 = 0x0800) /\
  (0x1000 <= A <= 0x1FFF ->
     Z.land A 0x1000 = 0x1000 /\
     64 <= Z.shiftr A 6 < 128 /\
     Z.land (64 * Z.shiftr A 6) 0x0FFF + Z.land A 63 = Z.land A 0x0FFF).
Proof.
  intros HA.
  pose (P := fun A =>
    implb ((0x0800 <=? A) && (A <=? 0x0FFF)) (Z.land A 0x1800 =? 0x0800)
    && implb ((0x1000 <=? A) && (A <=? 0x1FFF))
         ((Z.land A 0x1000 =? 0x1000) && (64 <=? Z.shiftr A 6)
          && (Z.shiftr A 6 <? 128)
          && (Z.land (64 * Z.shiftr A 6) 0x0FFF + Z.land A 63 =? Z.land A 0x0FFF))).
  assert (Hall : check_range (Z.to_nat 8192) 0 P = true) by (vm_compute; reflexivity).
  pose proof (check_range_Z P _ _ Hall A ltac:(lia)) as HP.
  unfold P in HP. apply andb_prop in HP as [Hhot Hwin]. split.
  - intros Hr. rewrite (proj2 (Z.leb_le _ _)), (proj2 (Z.leb_le _ _)) in Hhot by lia.
    apply Z.eqb_eq. exact Hhot.
  - intros Hr. rewrite (proj2 (Z.leb_le _ _)), (proj2 (Z.leb_le _ _)) in Hwin by lia.
    cbn [andb implb] in Hwin.
    apply andb_prop in Hwin as [Hwin H4]. apply andb_prop in Hwin as [Hwin H3].
    apply andb_prop in Hwin as [H1 H2].
    apply Z.eqb_eq in H1, H4. apply Z.leb_le in H2. apply Z.ltb_lt in H3.
    repeat split; assumption.
Qed.

(** ** CartridgeSB: the bank selector *)

Section CartridgeSB_selector.
Import CartridgeSB.

Lemma geometry_banks (c : t) :
  geometry_ok c ->
  1 <= Z.shiftr (mySize c) 12 <= 2048 /\
  bankCount c = Z.shiftr (mySize c) 12 /\
  myStartBank c = Z.shiftr (mySize c) 12 - 1.
Proof.
  intros [Hsize Hstart].
  assert (Hn : 1 <= Z.shiftr (mySize c) 12 <= 2048).
  { rewrite Z.shiftr_div_pow2 by lia. change (2 ^ 12) with 4096.
    pose proof (Z.div_mod (mySize c) 4096 ltac:(lia)).
    pose proof (Z.mod_pos_bound (mySize c) 4096 ltac:(lia)). lia. }
  assert (Hcount : bankCount c = Z.shiftr (mySize c) 12).
  { unfold bankCount. apply uInt16_small. lia. }
  split; [exact Hn|]. split; [exact Hcount|].
  rewrite Hstart, Hcount. reflexivity.
Qed.

(** The masked address keeps the bits tested by [peek] and [poke], and
    selects the bank [A & (bankCount() - 1)]. *)
Lemma mask_address_bits (c : t) (A : Z) :
  geometry_ok c -> 0 <= A < 65536 ->
  0 <= mask_address c A < 65536 /\
  Z.land (mask_address c A) 0x1800 = Z.land A 0x1800 /\
  Z.land (mask_address c A) 0x1000 = Z.land A 0x1000 /\
  Z.land (mask_address c A) (myStartBank c) = Z.land A (bankCount c - 1).
Proof.
  intros Hgeo HA.
  destruct (geometry_banks c Hgeo) as (Hn & Hcount & Hstart).
  destruct (bank_mask_bits _ Hn) as (H1800 & H1000 & Hbank).
  unfold mask_address. rewrite (uInt32_small (0x17FF + _)) by lia.
  rewrite uInt16_small by (apply land_uInt16; exact HA).
  split; [apply land_uInt16; exact HA|].
  rewrite Hstart, Hcount, <- !Z.land_assoc, H1800, H1000, Hbank.
  repeat split; reflexivity.
Qed.

Lemma bank_locked (c : t) (b : Z) :
  bankLocked c = true -> bank c b = Some (false, c).
Proof. intros Hlock. unfold bank. rewrite Hlock. reflexivity. Qed.

(** An unlocked, installed cartridge switches to the bank asked for and
    publishes its pages. *)
Lemma bank_unlocked (c : t) (b : Z) :
  bankLocked c = false -> installed c ->
  exists c', bank c b = Some (true, c') /\
    myCurrentBank c' = uInt16 b /\ myBankChanged c' = true /\
    rom_unchanged c c' /\ installed c' /\ pages_in_sync c'.
Proof.
  intros Hlock [system Hsys]. unfold bank. rewrite Hlock, Hsys.
  cbn [mbind option_bind]. eexists. split; [reflexivity|].
  cbn [myCurrentBank myBankChanged].
  split; [reflexivity|]. split; [reflexivity|].
  split; [repeat split|]. split; [eexists; reflexivity|].
  eexists. split; [reflexivity|]. intros p Hp.
  set (offset := uInt32 (Z.shiftl (uInt16 b) 12)).
  assert (Hoff : offset = Z.shiftl (uInt16 b) 12).
  { subst offset. apply uInt32_small. pose proof (uInt16_range b).
    rewrite Z.shiftl_mul_pow2 by lia. change (2 ^ 12) with 4096. lia. }
  pose (mk := fun address : Z =>
    {| System.directPeekBase := Some (offset + Z.land address 0x0FFF);
       System.codeAccessBase := Some (offset + Z.land address 0x0FFF);
       System.device :=
         System.device (System.PageAccess_ctor System.ThisCart System.PA_READ);
       System.type :=
         System.type (System.PageAccess_ctor System.ThisCart System.PA_READ) |}).
  pose proof (for_each_page_lookup mk 64 0x2000 system p ltac:(lia)) as Hpage.
  change (64 * 64) with 0x1000 in Hpage. subst mk. cbv beta in Hpage.
  rewrite Hpage, decide_True by lia. cbn [System.directPeekBase].
  rewrite Hoff. reflexivity.
Qed.

Lemma switch_banks_other (c : t) (a : Z) :
  Z.land a 0x1800 <> 0x0800 -> switch_banks c a = Some c.
Proof. intros Hne. unfold switch_banks. rewrite decide_False by exact Hne. reflexivity. Qed.

Lemma switch_banks_locked (c : t) (a : Z) :
  bankLocked c = true -> switch_banks c a = Some c.
Proof.
  intros Hlock. unfold switch_banks.
  destruct (decide (Z.land a 0x1800 = 0x0800)); [|reflexivity].
  rewrite (bank_locked c _ Hlock). reflexivity.
Qed.

Lemma switch_banks_hot (c : t) (a : Z) :
  bankLocked c = false -> installed c ->
  0 <= a < 65536 -> Z.land a 0x1800 = 0x0800 ->
  exists c', switch_banks c a = Some c' /\
    myCurrentBank c' = Z.land a (myStartBank c) /\
    rom_unchanged c c' /\ installed c' /\ pages_in_sync c'.
Proof.
  intros Hlock Hinst Ha Hhot. unfold switch_banks.
  rewrite decide_True by exact Hhot.
  destruct (bank_unlocked c (Z.land a (myStartBank c)) Hlock Hinst)
    as (c' & Hbank & Hcur & _ & Hrom & Hinst' & Hsync).
  rewrite Hbank. cbn [mbind option_bind]. exists c'.
  rewrite uInt16_small in Hcur by (apply land_uInt16; exact Ha).
  repeat split; try assumption; apply Hrom.
Qed.

(** Every hot spot of a cartridge that forwards to devices has a device. *)
Lemma hotspot_device_defined (c : t) (a : Z) :
  forwards_to_devices c ->
  0 <= Z.shiftr (Z.land a 0x0F00) 8 - 8 < 8 ->
  is_Some (hotspot_device c a).
Proof.
  intros [Hlen Hall] Hidx. unfold hotspot_device.
  rewrite array_get_lookup by lia.
  destruct (lookup_lt_is_Some_2 (myHotSpotPageAccess c)
              (Z.to_nat (Z.shiftr (Z.land a 0x0F00) 8 - 8))) as [access Haccess];
    [lia|].
  rewrite Haccess. cbn [mbind option_bind].
  apply list_elem_of_lookup_2, list_elem_of_In in Haccess.
  pose proof (proj1 (forallb_forall _ _) Hall access Haccess) as Hdev.
  unfold names_device in Hdev.
  destruct (System.device access); try discriminate. eexists. reflexivity.
Qed.

End CartridgeSB_selector.

(** ** CartridgeSB: construction, install, reset *)

Section CartridgeSB_startup.
Import CartridgeSB.

Lemma ctor_spec (changed0 : bool) (image : list Z) (size : Z) :
  0 <= size <= Z.of_nat (length image) ->
  exists c, ctor changed0 image size = Some c /\
    mySize c = size /\ myCurrentBank c = 0 /\
    myStartBank c = bankCount c - 1 /\ myBankLocked c = false /\
    mySystem c = None /\ Z.of_nat (length (myImage c)) = size /\
    (forall i, 0 <= i < size -> array_get (myImage c) i = array_get image i) /\
    (Z.of_nat (length image) = size -> myImage c = image).
Proof.
  intros Hsize. unfold ctor.
  destruct (memcpy_spec (memset 0 size) image size) as (out & Hcpy & Hlen & Hhead & _).
  { lia. }
  { unfold memset. rewrite length_replicate. lia. }
  rewrite Hcpy. cbn [mbind option_bind]. eexists. split; [reflexivity|].
  unfold memset in Hlen. rewrite length_replicate in Hlen.
  cbn. repeat split; try reflexivity; [lia | exact Hhead |].
  intros Hwhole. subst size.
  rewrite memcpy_whole in Hcpy by (unfold memset; rewrite length_replicate; lia).
  congruence.
Qed.

(** [install] captures the descriptors of the hot spots, and, on a cartridge
    that is not locked, selects the startup bank. *)
Lemma install_spec (c : t) (system : System.t) :
  bankLocked c = false ->
  exists c', install c system = Some c' /\
    myCurrentBank c' = uInt16 (myStartBank c) /\
    myImage c' = myImage c /\ mySize c' = mySize c /\
    myStartBank c' = myStartBank c /\ myBankLocked c' = false /\
    installed c' /\ pages_in_sync c' /\
    (hotspots_owned system -> forwards_to_devices c').
Proof.
  intros Hlock. unfold install.
  match goal with |- context [bank ?c0 _] => set (c1 := c0) end.
  destruct (bank_unlocked c1 (myStartBank c1) Hlock ltac:(eexists; reflexivity))
    as (c' & Hbank & Hcur & _ & (Himg & Hsz & Hhot & Hstart & Hlk) & Hinst & Hsync).
  rewrite Hbank. cbn [mbind option_bind]. exists c'.
  split; [reflexivity|]. split; [exact Hcur|].
  split; [exact Himg|]. split; [exact Hsz|]. split; [exact Hstart|].
  split; [rewrite Hlk; exact Hlock|]. split; [exact Hinst|]. split; [exact Hsync|].
  intros Howned. unfold forwards_to_devices. rewrite Hhot. subst c1.
  cbn [myHotSpotPageAccess]. split; [reflexivity|].
  unfold hotspots_owned in Howned. cbn [forallb fmap list_fmap] in *. exact Howned.
Qed.

(** [install] keeps the descriptors the System held for the hot spots. *)
Lemma install_captures (c c' : t) (system : System.t) :
  install c system = Some c' ->
  myHotSpotPageAccess c' = hotspot_pages system.
Proof.
  intros Hinstall. unfold install in Hinstall.
  match type of Hinstall with
  | context [bank ?c0 _] => set (c1 := c0) in Hinstall
  end.
  destruct (bank c1 (myStartBank c1)) as [[r c2]|] eqn:Hbank; [|discriminate].
  cbn [mbind option_bind] in Hinstall. injection Hinstall as <-.
  unfold bank in Hbank. destruct (bankLocked c1).
  - injection Hbank as _ <-. reflexivity.
  - subst c1. cbn [mbind option_bind mySystem] in Hbank.
    injection Hbank as _ <-. reflexivity.
Qed.

Lemma reset_unlocked (c : t) :
  bankLocked c = false -> installed c ->
  exists c', reset c = Some c' /\
    myCurrentBank c' = uInt16 (myStartBank c) /\
    rom_unchanged c c' /\ installed c' /\ pages_in_sync c'.
Proof.
  intros Hlock Hinst. unfold reset.
  destruct (bank_unlocked c (myStartBank c) Hlock Hinst)
    as (c' & Hbank & Hcur & _ & Hrom & Hinst' & Hsync).
  rewrite Hbank. cbn [mbind option_bind]. exists c'. repeat split; try assumption; apply Hrom.
Qed.

Lemma rom_unchanged_bankCount (c c' : t) :
  rom_unchanged c c' -> bankCount c' = bankCount c.
Proof. intros (_ & Hsz & _). unfold bankCount. rewrite Hsz. reflexivity. Qed.

Lemma rom_unchanged_geometry (c c' : t) :
  rom_unchanged c c' -> geometry_ok c -> geometry_ok c'.
Proof.
  intros Hrom [Hsize Hstart]. pose proof (rom_unchanged_bankCount c c' Hrom) as Hn.
  destruct Hrom as (_ & Hsz & _ & Hst & _).
  split; [rewrite Hsz; exact Hsize | rewrite Hst, Hn; exact Hstart].
Qed.

End CartridgeSB_startup.

(** C3, as the code has it: right after its constructor a CartridgeSB has
    [getBank() == 0], with the top bank recorded as the startup bank; once
    [install] has run, and before any access to a hot spot, the active bank
    is the top bank, [getBank() == bankCount() - 1]. *)
Theorem CartridgeSB_startup_bank (changed0 : bool) (image : list Z) (size : Z)
    (system : System.t) :
  4096 <= size < 0x801000 ->
  size <= Z.of_nat (length image) ->
  exists c0 c1,
    CartridgeSB.ctor changed0 image size = Some c0 /\
    CartridgeSB.getBank c0 = 0 /\
    CartridgeSB.myStartBank c0 = CartridgeSB.bankCount c0 - 1 /\
    CartridgeSB.install c0 system = Some c1 /\
    CartridgeSB.bankCount c1 = CartridgeSB.bankCount c0 /\
    CartridgeSB.getBank c1 = CartridgeSB.bankCount c1 - 1.
Proof.
  intros Hsize Himg.
  destruct (ctor_spec changed0 image size ltac:(lia))
    as (c0 & Hctor & Hsz & Hcur & Hstart & Hlock & _).
  destruct (install_spec c0 system Hlock)
    as (c1 & Hinst & Hcur1 & _ & Hsz1 & _).
  assert (Hgeo : CartridgeSB.geometry_ok c0) by (split; [rewrite Hsz; lia | exact Hstart]).
  destruct (geometry_banks c0 Hgeo) as (Hn & Hcount & Hstart').
  assert (Hcount1 : CartridgeSB.bankCount c1 = CartridgeSB.bankCount c0)
    by (unfold CartridgeSB.bankCount; rewrite Hsz1; reflexivity).
  exists c0, c1. repeat split; try assumption.
  unfold CartridgeSB.getBank. rewrite Hcur1, Hcount1, Hcount, Hstart'.
  apply uInt16_small. lia.
Qed.

Lemma CartridgeSB_startup_bank_witness :
  exists c0 c1,
    CartridgeSB.ctor true example_image 16384 = Some c0 /\
    CartridgeSB.getBank c0 = 0 /\
    CartridgeSB.myStartBank c0 = CartridgeSB.bankCount c0 - 1 /\
    CartridgeSB.install c0 example_system = Some c1 /\
    CartridgeSB.bankCount c1 = CartridgeSB.bankCount c0 /\
    CartridgeSB.getBank c1 = CartridgeSB.bankCount c1 - 1.
Proof.
  apply (CartridgeSB_startup_bank true example_image 16384 example_system).
  - lia.
  - unfold example_image. rewrite length_replicate. lia.
Defined.

(** C3, as the claim states it, fails on a four-bank image: the constructed
    cartridge reports bank 0, while [bankCount() - 1] is 3. *)
Lemma CartridgeSB_constructed_bank_counterexample :
  (CartridgeSB.getBank <$> CartridgeSB.ctor true example_image 16384) = Some 0 /\
  ((fun c => CartridgeSB.bankCount c - 1) <$> CartridgeSB.ctor true example_image 16384)
    = Some 3 /\
  ~ (forall c, CartridgeSB.ctor true example_image 16384 = Some c ->
       CartridgeSB.getBank c = CartridgeSB.bankCount c - 1).
Proof.
  assert (Hbank : (CartridgeSB.getBank <$> CartridgeSB.ctor true example_image 16384)
                  = Some 0) by (vm_compute; reflexivity).
  assert (Htop : ((fun c => CartridgeSB.bankCount c - 1)
                    <$> CartridgeSB.ctor true example_image 16384) = Some 3)
    by (vm_compute; reflexivity).
  split; [exact Hbank|]. split; [exact Htop|].
  intros Hclaim.
  destruct (CartridgeSB.ctor true example_image 16384) as [c|]; [|discriminate].
  specialize (Hclaim c eq_refl). cbn in Hbank, Htop.
  injection Hbank as Hbank. injection Htop as Htop. lia.
Qed.

(** A cartridge constructed from an image of 1 to 2048 banks and installed
    in a console whose hot spot pages belong to devices meets the conditions
    of the member functions. *)
Lemma installed_cart_conditions (changed0 : bool) (image : list Z) (size : Z)
    (system : System.t) :
  4096 <= size < 0x801000 -> size <= Z.of_nat (length image) ->
  CartridgeSB.hotspots_owned system ->
  exists c0 c,
    CartridgeSB.ctor changed0 image size = Some c0 /\
    CartridgeSB.install c0 system = Some c /\
    CartridgeSB.geometry_ok c /\ CartridgeSB.installed c /\
    CartridgeSB.forwards_to_devices c /\ CartridgeSB.bankLocked c = false /\
    CartridgeSB.pages_in_sync c.
Proof.
  intros Hsize Himg Howned.
  destruct (ctor_spec changed0 image size ltac:(lia))
    as (c0 & Hctor & Hsz & _ & Hstart & Hlock & _).
  destruct (install_spec c0 system Hlock)
    as (c & Hinst & _ & _ & Hsz1 & Hst1 & Hlk1 & Hinstalled & Hsync & Hfw).
  exists c0, c. split; [exact Hctor|]. split; [exact Hinst|].
  split; [|split; [exact Hinstalled|split; [exact (Hfw Howned)|split; assumption]]].
  split; [rewrite Hsz1, Hsz; exact Hsize|].
  unfold CartridgeSB.bankCount in *. rewrite Hst1, Hsz1. exact Hstart.
Qed.

(** The example cartridge meets the conditions of the member functions. *)
Lemma example_cart_ok :
  exists c, example_cart = Some c /\
    CartridgeSB.geometry_ok c /\ CartridgeSB.installed c /\
    CartridgeSB.forwards_to_devices c /\ CartridgeSB.bankLocked c = false /\
    CartridgeSB.pages_in_sync c /\ CartridgeSB.getBank c = 3 /\
    Z.of_nat (length (CartridgeSB.myImage c)) = CartridgeSB.mySize c /\
    CartridgeSB.bankCount c = 4 /\
    CartridgeSB.myHotSpotPageAccess c = CartridgeSB.hotspot_pages example_system.
Proof.
  unfold example_cart.
  destruct (ctor_spec true example_image 16384)
    as (c0 & Hctor & Hsz & Hcur & Hstart & Hlock & _ & Hlen & _).
  { unfold example_image. rewrite length_replicate. lia. }
  rewrite Hctor. cbn [mbind option_bind].
  destruct (install_spec c0 example_system Hlock)
    as (c & Hinst & Hcur1 & Himg & Hsz1 & Hst1 & Hlk1 & Hinstalled & Hsync & Hfw).
  exists c. split; [exact Hinst|].
  assert (Hcount : CartridgeSB.bankCount c = 4).
  { unfold CartridgeSB.bankCount. rewrite Hsz1, Hsz. reflexivity. }
  assert (Hcount0 : CartridgeSB.bankCount c0 = 4).
  { unfold CartridgeSB.bankCount. rewrite Hsz. reflexivity. }
  repeat split.
  - rewrite Hsz1, Hsz. lia.
  - rewrite Hsz1, Hsz. lia.
  - rewrite Hst1, Hstart, Hcount, Hcount0. reflexivity.
  - exact Hinstalled.
  - apply Hfw. reflexivity.
  - apply Hfw. reflexivity.
  - exact Hlk1.
  - exact Hsync.
  - unfold CartridgeSB.getBank. rewrite Hcur1, Hstart, Hcount0. reflexivity.
  - rewrite Himg, Hsz1, Hsz. exact Hlen.
  - exact Hcount.
  - exact (install_captures c0 c example_system Hinst).
Qed.

(** C4, as the code has it: on an installed cartridge that is not
    bank-locked, [reset()] makes the top bank active whatever bank was
    active before; on a bank-locked cartridge [reset()] changes nothing, the
    active bank included. *)
Theorem CartridgeSB_reset_bank (c : CartridgeSB.t) :
  CartridgeSB.geometry_ok c -> CartridgeSB.installed c ->
  (CartridgeSB.bankLocked c = false ->
     exists c', CartridgeSB.reset c = Some c' /\
       CartridgeSB.getBank c' = CartridgeSB.bankCount c' - 1) /\
  (CartridgeSB.bankLocked c = true -> CartridgeSB.reset c = Some c).
Proof.
  intros Hgeo Hinst. split.
  - intros Hlock.
    destruct (reset_unlocked c Hlock Hinst) as (c' & Hreset & Hcur & Hrom & _).
    destruct (geometry_banks c Hgeo) as (Hn & Hcount & Hstart).
    exists c'. split; [exact Hreset|].
    unfold CartridgeSB.getBank.
    rewrite Hcur, (rom_unchanged_bankCount c c' Hrom), Hcount, Hstart.
    apply uInt16_small. lia.
  - intros Hlock. unfold CartridgeSB.reset.
    rewrite (bank_locked c _ Hlock). reflexivity.
Qed.

Lemma CartridgeSB_reset_bank_witness :
  exists c, example_cart = Some c /\
    (CartridgeSB.bankLocked c = false ->
       exists c', CartridgeSB.reset c = Some c' /\
         CartridgeSB.getBank c' = CartridgeSB.bankCount c' - 1) /\
    (CartridgeSB.bankLocked c = true -> CartridgeSB.reset c = Some c).
Proof.
  destruct example_cart_ok as (c & Hc & Hgeo & Hinst & _).
  exists c. split; [exact Hc|].
  apply (CartridgeSB_reset_bank c Hgeo Hinst).
Defined.

(** C4, as the claim states it, fails in bank-locked mode: on the four-bank
    cartridge switched to bank 0 and then locked, [reset()] leaves bank 0
    active, while [bankCount() - 1] is 3. *)
Lemma CartridgeSB_reset_locked_counterexample :
  (c ← example_cart;
   '(_, c0, _) ← CartridgeSB.poke c 0x0800 0 [];
   c' ← CartridgeSB.reset (CartridgeSB.lockBank c0);
   Some (CartridgeSB.getBank c0, CartridgeSB.getBank c', CartridgeSB.bankCount c' - 1))
  = Some (0, 0, 3).
Proof. vm_compute. reflexivity. Qed.

(** ** CartridgeSB: peek and poke *)

Section CartridgeSB_access.
Context `{Devices Dev}.
Import CartridgeSB.

Lemma hotspot_device_rom (c c' : t) (a : Z) :
  rom_unchanged c c' -> hotspot_device c' a = hotspot_device c a.
Proof. intros (_ & _ & Hhot & _). unfold hotspot_device. rewrite Hhot. reflexivity. Qed.

(** An address with bit 12 set (the window 0x1000-0x1FFF and its mirrors)
    is served without any effect. *)
Lemma access_window (c : t) (A V : Z) (d : Dev) :
  geometry_ok c -> 0 <= A < 65536 -> Z.land A 0x1000 <> 0 ->
  peek c A d = Some (0, c, d) /\ poke c A V d = Some (false, c, d).
Proof.
  intros Hgeo HA Hwin.
  destruct (mask_address_bits c A Hgeo HA) as (Ha & H1800 & H1000 & _).
  assert (Hnot : Z.land (mask_address c A) 0x1800 <> 0x0800).
  { intros Hhot. destruct (hotspot_index _ Ha Hhot) as [Hzero _]. congruence. }
  unfold peek, poke. rewrite (switch_banks_other c _ Hnot).
  cbn [mbind option_bind].
  destruct (decide (Z.land (mask_address c A) 0x1000 = 0)); [congruence|].
  split; reflexivity.
Qed.

(** An address with bit 12 clear and bit 11 set (the hot spots 0x0800-0x0FFF
    and their mirrors) switches banks, unless the cartridge is locked, and is
    forwarded to the device captured by [install]. *)
Lemma access_hotspot (c : t) (A V : Z) (d : Dev) :
  geometry_ok c -> installed c -> forwards_to_devices c ->
  0 <= A < 65536 -> Z.land A 0x1800 = 0x0800 ->
  exists id c',
    hotspot_device c (mask_address c A) = Some id /\
    switch_banks c (mask_address c A) = Some c' /\
    peek c A d = Some (fst (dev_peek id (mask_address c A) d), c',
                       snd (dev_peek id (mask_address c A) d)) /\
    poke c A V d = Some (false, c', snd (dev_poke id (mask_address c A) V d)) /\
    rom_unchanged c c' /\ installed c' /\
    (bankLocked c = false ->
       myCurrentBank c' = Z.land A (bankCount c - 1) /\ pages_in_sync c') /\
    (bankLocked c = true -> c' = c).
Proof.
  intros Hgeo Hinst Hfw HA Hhot.
  destruct (mask_address_bits c A Hgeo HA) as (Ha & H1800 & H1000 & Hbank).
  rewrite Hhot in H1800.
  destruct (hotspot_index _ Ha H1800) as [Hzero Hidx].
  destruct (hotspot_device_defined c _ Hfw Hidx) as [id Hid].
  assert (Hswitch : exists c', switch_banks c (mask_address c A) = Some c' /\
            rom_unchanged c c' /\ installed c' /\
            (bankLocked c = false ->
               myCurrentBank c' = Z.land A (bankCount c - 1) /\ pages_in_sync c') /\
            (bankLocked c = true -> c' = c)).
  { destruct (bankLocked c) eqn:Hlock.
    - exists c. rewrite (switch_banks_locked c _ Hlock).
      repeat split; try reflexivity; try assumption; discriminate.
    - destruct (switch_banks_hot c _ Hlock Hinst Ha H1800)
        as (c' & Hsw & Hcur & Hrom & Hinst' & Hsync).
      exists c'. rewrite Hbank in Hcur.
      repeat split; try assumption; try apply Hrom; discriminate. }
  destruct Hswitch as (c' & Hsw & Hrom & Hinst' & Hunl & Hlk).
  exists id, c'. split; [exact Hid|]. split; [exact Hsw|].
  unfold peek, poke. rewrite Hsw. cbn [mbind option_bind].
  destruct (decide (Z.land (mask_address c A) 0x1000 = 0)); [|contradiction].
  rewrite (hotspot_device_rom c c' _ Hrom), Hid. cbn [mbind option_bind].
  destruct (dev_peek id (mask_address c A) d) as [v d1].
  destruct (dev_poke id (mask_address c A) V d) as [r d2].
  cbn [fst snd].
  split; [reflexivity|]. split; [reflexivity|].
  split; [exact Hrom|]. split; [exact Hinst'|]. split; assumption.
Qed.


(** An access outside the hot spots and their mirrors that returns leaves
    the cartridge as it was. *)
Lemma access_not_hotspot (c : t) (A V : Z) (d : Dev) :
  Z.land (mask_address c A) 0x1800 <> 0x0800 ->
  (forall v c' d', peek c A d = Some (v, c', d') -> c' = c) /\
  (forall r c' d', poke c A V d = Some (r, c', d') -> c' = c).
Proof.
  intros Hnot. unfold peek, poke. rewrite (switch_banks_other c _ Hnot).
  cbn [mbind option_bind].
  split; intros r c' d' Hcall;
    destruct (decide (Z.land (mask_address c A) 0x1000 = 0));
    try congruence;
    destruct (hotspot_device c (mask_address c A)) as [id|]; try discriminate;
    cbn [mbind option_bind] in Hcall.
  - destruct (dev_peek id (mask_address c A) d). congruence.
  - destruct (dev_poke id (mask_address c A) V d). congruence.
Qed.

End CartridgeSB_access.

(** C2, as the code has it: on an installed cartridge that is not
    bank-locked, [peek(A)] and [poke(A, V)] at an address of the hot spots
    (bit 12 clear, bit 11 set: 0x0800-0x0FFF and its mirrors) make
    [A & (bankCount() - 1)] the active bank; on a bank-locked cartridge they
    leave the active bank as it is.  At an address of the window (bit 12
    set: 0x1000-0x1FFF and its mirrors) both return without any effect, and
    no access outside the hot spots that returns changes the active bank. *)
Theorem CartridgeSB_hotspot_selects_bank `{Devices Dev}
    (c : CartridgeSB.t) (A V : Z) (d : Dev) :
  CartridgeSB.geometry_ok c -> CartridgeSB.installed c ->
  CartridgeSB.forwards_to_devices c -> 0 <= A < 65536 ->
  (Z.land A 0x1800 = 0x0800 ->
     exists v c1 d1 c2 d2,
       CartridgeSB.peek c A d = Some (v, c1, d1) /\
       CartridgeSB.poke c A V d = Some (false, c2, d2) /\
       (CartridgeSB.bankLocked c = false ->
          CartridgeSB.getBank c1 = Z.land A (CartridgeSB.bankCount c - 1) /\
          CartridgeSB.getBank c2 = Z.land A (CartridgeSB.bankCount c - 1)) /\
       (CartridgeSB.bankLocked c = true ->
          CartridgeSB.getBank c1 = CartridgeSB.getBank c /\
          CartridgeSB.getBank c2 = CartridgeSB.getBank c)) /\
  (Z.land A 0x1000 <> 0 ->
     CartridgeSB.peek c A d = Some (0, c, d) /\
     CartridgeSB.poke c A V d = Some (false, c, d)) /\
  (Z.land A 0x1800 <> 0x0800 ->
     (forall v c' d', CartridgeSB.peek c A d = Some (v, c', d') ->
        CartridgeSB.getBank c' = CartridgeSB.getBank c) /\
     (forall r c' d', CartridgeSB.poke c A V d = Some (r, c', d') ->
        CartridgeSB.getBank c' = CartridgeSB.getBank c)) /\
  (0x0800 <= A <= 0x0FFF -> Z.land A 0x1800 = 0x0800) /\
  (0x1000 <= A <= 0x1FFF -> Z.land A 0x1000 <> 0).
Proof.
  intros Hgeo Hinst Hfw HA. split; [|split; [|split; [|split]]].
  - intros Hhot.
    destruct (access_hotspot c A V d Hgeo Hinst Hfw HA Hhot)
      as (id & c' & _ & _ & Hpeek & Hpoke & _ & _ & Hunl & Hlk).
    eexists _, c', _, c', _. split; [exact Hpeek|]. split; [exact Hpoke|].
    unfold CartridgeSB.getBank. split.
    + intros Hlock. destruct (Hunl Hlock) as [Hcur _]. split; exact Hcur.
    + intros Hlock. rewrite (Hlk Hlock). split; reflexivity.
  - intros Hwin. apply access_window; assumption.
  - intros Hnot.
    destruct (mask_address_bits c A Hgeo HA) as (_ & H1800 & _).
    rewrite <- H1800 in Hnot.
    destruct (access_not_hotspot c A V d Hnot) as [Hpeek Hpoke].
    split; intros r c' d' Hcall.
    + rewrite (Hpeek r c' d' Hcall). reflexivity.
    + rewrite (Hpoke r c' d' Hcall). reflexivity.
  - intros Hr. apply (address_ranges A); lia.
  - intros Hr. destruct (address_ranges A ltac:(lia)) as [_ Hwin].
    destruct (Hwin Hr) as [Hbit _]. lia.
Qed.

Lemma CartridgeSB_hotspot_selects_bank_witness :
  exists c, example_cart = Some c /\
    exists v c1 d1 c2 d2,
      CartridgeSB.peek c 0x0801 [] = Some (v, c1, d1) /\
      CartridgeSB.poke c 0x0801 0x55 [] = Some (false, c2, d2) /\
      (CartridgeSB.bankLocked c = false ->
         CartridgeSB.getBank c1 = Z.land 0x0801 (CartridgeSB.bankCount c - 1) /\
         CartridgeSB.getBank c2 = Z.land 0x0801 (CartridgeSB.bankCount c - 1)) /\
      (CartridgeSB.bankLocked c = true ->
         CartridgeSB.getBank c1 = CartridgeSB.getBank c /\
         CartridgeSB.getBank c2 = CartridgeSB.getBank c).
Proof.
  destruct example_cart_ok as (c & Hc & Hgeo & Hinst & Hfw & _).
  exists c. split; [exact Hc|].
  apply (CartridgeSB_hotspot_selects_bank c 0x0801 0x55 [] Hgeo Hinst Hfw).
  - lia.
  - reflexivity.
Defined.

(** C2, as the claim states it, fails twice on the four-bank cartridge:
    once locked, a read of the hot spot 0x0800 leaves bank 3 active, not
    bank 0; and a read of 0x2801, an address outside 0x0800-0x0FFF, changes
    the active bank from 3 to 1. *)
Lemma CartridgeSB_hotspot_counterexample :
  (c ← example_cart;
   '(_, c', _) ← CartridgeSB.peek (CartridgeSB.lockBank c) 0x0800 [];
   Some (CartridgeSB.getBank c', Z.land 0x0800 (CartridgeSB.bankCount c' - 1)))
  = Some (3, 0) /\
  (c ← example_cart;
   '(_, c', _) ← CartridgeSB.peek c 0x2801 [];
   Some (CartridgeSB.getBank c, CartridgeSB.getBank c'))
  = Some (3, 1).
Proof. split; vm_compute; reflexivity. Qed.



(** ** CartridgeSB: descriptors and patches *)

Section CartridgeSB_window.
Import CartridgeSB.

(** With the descriptors in sync, the descriptor of the page of a window
    address designates the byte of the active bank at [A & 0x0FFF]. *)
Lemma descriptor_byte_active_bank (c : t) (A : Z) :
  pages_in_sync c -> 0x1000 <= A <= 0x1FFF ->
  descriptor_byte c A
  = array_get (myImage c) (Z.shiftl (myCurrentBank c) 12 + Z.land A 0x0FFF).
Proof.
  intros (system & Hsys & Hpages) HA.
  destruct (address_ranges A ltac:(lia)) as [_ Hwin].
  destruct (Hwin HA) as (_ & Hpage & Hoffset).
  unfold descriptor_byte. rewrite Hsys. cbn [mbind option_bind].
  change System.PAGE_SHIFT with 6. change System.PAGE_MASK with 63.
  rewrite (Hpages _ Hpage). cbn [mbind option_bind].
  f_equal. lia.
Qed.

(** The bytes of the active bank lie inside the image. *)
Lemma active_bank_index (c : t) (A : Z) :
  geometry_ok c -> 0 <= myCurrentBank c < bankCount c ->
  Z.of_nat (length (myImage c)) = mySize c ->
  0 <= Z.shiftl (myCurrentBank c) 12 + Z.land A 0x0FFF < Z.of_nat (length (myImage c)).
Proof.
  intros Hgeo Hbank Hlen.
  destruct (geometry_banks c Hgeo) as (Hn & Hcount & _).
  rewrite Hcount, Z.shiftr_div_pow2 in Hbank by lia.
  rewrite Z.shiftl_mul_pow2 by lia. change (2 ^ 12) with 4096 in *.
  pose proof (land_mask_range A 12 ltac:(lia)) as Hoff.
  change (2 ^ 12 - 1) with 0x0FFF in Hoff. change (2 ^ 12) with 4096 in Hoff.
  pose proof (Z.div_mod (mySize c) 4096 ltac:(lia)).
  pose proof (Z.mod_pos_bound (mySize c) 4096 ltac:(lia)).
  rewrite Hlen. lia.
Qed.

Lemma patch_spec (c : t) (A V : Z) :
  geometry_ok c -> 0 <= myCurrentBank c < bankCount c ->
  Z.of_nat (length (myImage c)) = mySize c ->
  exists c', patch c A V = Some (true, c') /\
    myCurrentBank c' = myCurrentBank c /\ mySystem c' = mySystem c /\
    mySize c' = mySize c /\ myStartBank c' = myStartBank c /\
    myBankLocked c' = myBankLocked c /\
    myHotSpotPageAccess c' = myHotSpotPageAccess c /\
    length (myImage c') = length (myImage c) /\
    array_get (myImage c') (Z.shiftl (myCurrentBank c) 12 + Z.land A 0x0FFF) = Some V.
Proof.
  intros Hgeo Hbank Hlen.
  pose proof (active_bank_index c A Hgeo Hbank Hlen) as Hidx.
  unfold patch.
  destruct (array_set (myImage c) (Z.shiftl (myCurrentBank c) 12 + Z.land A 0x0FFF) V)
    as [img|] eqn:Hset.
  - destruct (array_set_get _ _ _ _ Hset) as (Hget & Hlen' & _).
    cbn [mbind option_bind]. eexists. split; [reflexivity|]. cbn.
    repeat split; assumption.
  - unfold array_set in Hset. rewrite decide_True in Hset by exact Hidx. discriminate.
Qed.

End CartridgeSB_window.

(** ** Save and load *)

(** C7: for both variants, [load] on a stream whose identity tag is not the
    tag of the cartridge returns false and leaves the cartridge as it was,
    active bank and backing store included; only the tag has been read from
    the stream. *)
Theorem load_rejects_foreign_tag (inp rest : Serializer.t) (s : string) :
  Serializer.getString inp = Some (s, rest) ->
  (s <> CartridgeSB.name ->
     forall c, CartridgeSB.load c inp = Some (false, c, rest, [])) /\
  (s <> Cartridge2K.name ->
     forall c, Cartridge2K.load c inp = (false, c, rest, [])).
Proof.
  intros Hget. split; intros Hne c.
  - unfold CartridgeSB.load. rewrite Hget.
    rewrite decide_True by exact Hne. reflexivity.
  - unfold Cartridge2K.load. rewrite Hget.
    rewrite decide_True by exact Hne. reflexivity.
Qed.

Lemma load_rejects_foreign_tag_witness :
  (forall c, CartridgeSB.load c
               [Serializer.IString "Cartridge4K"; Serializer.IShort 1]
             = Some (false, c, [Serializer.IShort 1], [])) /\
  (forall c, Cartridge2K.load c
               [Serializer.IString "Cartridge4K"; Serializer.IShort 1]
             = (false, c, [Serializer.IShort 1], [])).
Proof.
  destruct (load_rejects_foreign_tag
              [Serializer.IString "Cartridge4K"; Serializer.IShort 1]
              [Serializer.IShort 1] "Cartridge4K" eq_refl) as [Hsb H2k].
  split.
  - apply Hsb. unfold CartridgeSB.name. discriminate.
  - apply H2k. unfold Cartridge2K.name. discriminate.
Defined.

Section CartridgeSB_round_trip.
Context `{Devices Dev}.
Import CartridgeSB.


End CartridgeSB_round_trip.




(** ** CartridgeSB: the range of the active bank *)

Lemma land_le_r (a b : Z) : 0 <= a -> 0 <= b -> Z.land a b <= b.
Proof.
  intros Ha Hb. rewrite <- (Z2N.id a), <- (Z2N.id b) at 1 by assumption.
  rewrite <- N2Z.inj_land. rewrite <- (Z2N.id b) at 2 by assumption.
  apply N2Z.inj_le, N.land_le_r.
Qed.

Section CartridgeSB_invariant.
Context `{Devices Dev}.
Import CartridgeSB.

Lemma bank_cases (c : t) (b : Z) (r : bool) (c' : t) :
  bank c b = Some (r, c') ->
  rom_unchanged c c' /\
  (myCurrentBank c' = myCurrentBank c \/ myCurrentBank c' = uInt16 b).
Proof.
  unfold bank. intros Hbank. destruct (bankLocked c).
  - injection Hbank as _ <-. split; [repeat split | left; reflexivity].
  - destruct (mySystem c) as [system|]; [|discriminate].
    cbn [mbind option_bind] in Hbank. injection Hbank as _ <-.
    split; [repeat split | right; reflexivity].
Qed.

Lemma bank_in_range_rom (n : Z) (c c' : t) (b : Z) :
  bank_in_range n c -> rom_unchanged c c' ->
  (myCurrentBank c' = myCurrentBank c \/ myCurrentBank c' = b) ->
  0 <= b < n -> bank_in_range n c'.
Proof.
  intros (Hgeo & Hcount & Hcur) Hrom Hcase Hb.
  split; [exact (rom_unchanged_geometry c c' Hrom Hgeo)|].
  split; [rewrite (rom_unchanged_bankCount c c' Hrom); exact Hcount|].
  destruct Hcase as [-> | ->]; assumption.
Qed.

Lemma switch_banks_in_range (n : Z) (c c' : t) (A : Z) :
  bank_in_range n c ->
  switch_banks c (mask_address c A) = Some c' -> bank_in_range n c'.
Proof.
  intros Hinv Hsw. unfold switch_banks in Hsw.
  destruct (decide (Z.land (mask_address c A) 0x1800 = 0x0800));
    [|injection Hsw as <-; exact Hinv].
  destruct (bank c (Z.land (mask_address c A) (myStartBank c))) as [[r c1]|] eqn:Hbank;
    [|discriminate].
  cbn [mbind option_bind] in Hsw. injection Hsw as <-.
  destruct (bank_cases _ _ _ _ Hbank) as [Hrom Hcase].
  destruct Hinv as (Hgeo & Hcount & Hcur).
  destruct (geometry_banks c Hgeo) as (Hn & Hcount' & Hstart).
  assert (Ha : 0 <= mask_address c A < 65536) by apply uInt16_range.
  assert (Hsel : 0 <= Z.land (mask_address c A) (myStartBank c) < n).
  { split; [apply Z.land_nonneg; lia|].
    pose proof (land_le_r (mask_address c A) (myStartBank c) ltac:(lia) ltac:(lia)).
    lia. }
  apply (bank_in_range_rom n c c1 (Z.land (mask_address c A) (myStartBank c)));
    [exact (conj Hgeo (conj Hcount Hcur)) | exact Hrom | | exact Hsel].
  rewrite uInt16_small in Hcase by lia. exact Hcase.
Qed.

(** Every operation that keeps to the banks of the image keeps the active
    bank among them. *)
Lemma step_in_range (n : Z) (op : Op) (c c' : t) (d d' : Dev) :
  bank_in_range n c -> op_in_range n op ->
  step op (c, d) = Some (c', d') -> bank_in_range n c'.
Proof.
  intros Hinv Hop Hstep.
  pose proof Hinv as (Hgeo & Hcount & Hcur).
  destruct (geometry_banks c Hgeo) as (Hn & Hcount' & Hstart).
  destruct op as [system| |A|A V|b|A V| |inp| |]; cbn [step] in Hstep.
  - (* install *)
    destruct (install c system) as [c1|] eqn:Hinstall; [|discriminate].
    cbn [mbind option_bind] in Hstep. injection Hstep as <- <-.
    unfold install in Hinstall.
    match type of Hinstall with
    | context [bank ?c0 _] => set (c2 := c0) in Hinstall
    end.
    destruct (bank c2 (myStartBank c2)) as [[r c3]|] eqn:Hbank; [|discriminate].
    cbn [mbind option_bind] in Hinstall. injection Hinstall as <-.
    destruct (bank_cases _ _ _ _ Hbank) as [(Himg & Hsz & _ & Hst & _) Hcase].
    subst c2. cbn [myImage mySize myStartBank myCurrentBank] in *.
    split; [split; [rewrite Hsz; apply Hgeo|]|].
    + unfold bankCount. rewrite Hst, Hsz. apply Hgeo.
    + split; [unfold bankCount in *; rewrite Hsz; exact Hcount|].
      rewrite uInt16_small in Hcase by lia.
      destruct Hcase as [-> | ->]; lia.
  - (* reset *)
    unfold reset in Hstep.
    destruct (bank c (myStartBank c)) as [[r c1]|] eqn:Hbank; [|discriminate].
    cbn [mbind option_bind] in Hstep. injection Hstep as <- <-.
    destruct (bank_cases _ _ _ _ Hbank) as [Hrom Hcase].
    rewrite uInt16_small in Hcase by lia.
    apply (bank_in_range_rom n c c1 (myStartBank c) Hinv Hrom Hcase). lia.
  - (* peek *)
    unfold peek in Hstep.
    destruct (switch_banks c (mask_address c A)) as [c1|] eqn:Hsw; [|discriminate].
    cbn [mbind option_bind] in Hstep.
    pose proof (switch_banks_in_range n c c1 A Hinv Hsw) as Hinv1.
    destruct (decide (Z.land (mask_address c A) 0x1000 = 0)).
    + destruct (hotspot_device c1 (mask_address c A)) as [id|]; [|discriminate].
      cbn [mbind option_bind] in Hstep.
      destruct (dev_peek id (mask_address c A) d).
      cbn [mbind option_bind] in Hstep. injection Hstep as <- <-. exact Hinv1.
    + cbn [mbind option_bind] in Hstep. injection Hstep as <- <-. exact Hinv1.
  - (* poke *)
    unfold poke in Hstep.
    destruct (switch_banks c (mask_address c A)) as [c1|] eqn:Hsw; [|discriminate].
    cbn [mbind option_bind] in Hstep.
    pose proof (switch_banks_in_range n c c1 A Hinv Hsw) as Hinv1.
    destruct (decide (Z.land (mask_address c A) 0x1000 = 0)).
    + destruct (hotspot_device c1 (mask_address c A)) as [id|]; [|discriminate].
      cbn [mbind option_bind] in Hstep.
      destruct (dev_poke id (mask_address c A) V d).
      cbn [mbind option_bind] in Hstep. injection Hstep as <- <-. exact Hinv1.
    + cbn [mbind option_bind] in Hstep. injection Hstep as <- <-. exact Hinv1.
  - (* bank *)
    destruct (bank c b) as [[r c1]|] eqn:Hbank; [|discriminate].
    cbn [mbind option_bind] in Hstep. injection Hstep as <- <-.
    destruct (bank_cases _ _ _ _ Hbank) as [Hrom Hcase].
    cbn [op_in_range] in Hop. rewrite uInt16_small in Hcase by lia.
    apply (bank_in_range_rom n c c1 b Hinv Hrom Hcase Hop).
  - (* patch *)
    unfold patch in Hstep.
    destruct (array_set _ _ _) as [img|]; [|discriminate].
    cbn [mbind option_bind] in Hstep. injection Hstep as <- <-.
    exact Hinv.
  - (* save *)
    injection Hstep as <- <-. exact Hinv.
  - (* load *)
    unfold load in Hstep.
    destruct inp as [|[s|b0] inp]; cbn [Serializer.getString] in Hstep;
      try (cbn [mbind option_bind] in Hstep; injection Hstep as <- <-; exact Hinv).
    destruct (decide (s <> name));
      [cbn [mbind option_bind] in Hstep; injection Hstep as <- <-; exact Hinv|].
    destruct inp as [|[s1|b] rest]; cbn [Serializer.getShort] in Hstep;
      try (cbn [mbind option_bind] in Hstep; injection Hstep as <- <-; exact Hinv).
    cbn [op_in_range] in Hop.
    match type of Hstep with
    | context [bank ?c0 _] => set (c1 := c0) in Hstep
    end.
    destruct (bank c1 (myCurrentBank c1)) as [[r c2]|] eqn:Hbank; [|discriminate].
    cbn [mbind option_bind] in Hstep. injection Hstep as <- <-.
    destruct (bank_cases _ _ _ _ Hbank) as [(Himg & Hsz & _ & Hst & _) Hcase].
    subst c1. cbn [myImage mySize myStartBank myCurrentBank] in *.
    pose proof (uInt16_range b) as Hb.
    rewrite (uInt16_small (uInt16 b)) in Hcase by exact Hb.
    split; [split; [rewrite Hsz; apply Hgeo|]|].
    + unfold bankCount. rewrite Hst, Hsz. apply Hgeo.
    + split; [unfold bankCount in *; rewrite Hsz; exact Hcount|].
      destruct Hcase as [-> | ->]; lia.
  - (* lock *)
    injection Hstep as <- <-. exact Hinv.
  - (* unlock *)
    injection Hstep as <- <-. exact Hinv.
Qed.

Lemma run_in_range (n : Z) (ops : list Op) :
  Forall (op_in_range n) ops ->
  forall (c c' : t) (d d' : Dev),
    bank_in_range n c -> run ops (c, d) = Some (c', d') -> bank_in_range n c'.
Proof.
  induction 1 as [|op ops Hop Hops IH]; intros c c' d d' Hinv Hrun.
  - cbn [run] in Hrun. injection Hrun as <- <-. exact Hinv.
  - cbn [run] in Hrun.
    destruct (step op (c, d)) as [[c1 d1]|] eqn:Hstep; [|discriminate].
    cbn [mbind option_bind] in Hrun.
    apply (IH c1 c' d1 d'); [|exact Hrun].
    exact (step_in_range n op c c1 d d1 Hinv Hop Hstep).
Qed.

End CartridgeSB_invariant.

Lemma ctor_in_range (changed0 : bool) (image : list Z) (size : Z) (c0 : CartridgeSB.t) :
  4096 <= size < 0x801000 ->
  CartridgeSB.ctor changed0 image size = Some c0 ->
  CartridgeSB.mySize c0 = size /\
  CartridgeSB.bank_in_range (CartridgeSB.bankCount c0) c0.
Proof.
  intros Hsize Hctor. unfold CartridgeSB.ctor in Hctor.
  destruct (memcpy (memset 0 size) image size) as [img|]; [|discriminate].
  cbn [mbind option_bind] in Hctor. injection Hctor as <-.
  split; [reflexivity|].
  match goal with |- CartridgeSB.bank_in_range _ ?r => set (c0 := r) end.
  assert (Hgeo : CartridgeSB.geometry_ok c0) by (split; [exact Hsize | reflexivity]).
  destruct (geometry_banks c0 Hgeo) as (Hn & Hcount & _).
  split; [exact Hgeo|]. split; [reflexivity|].
  rewrite Hcount. cbn [CartridgeSB.myCurrentBank c0]. lia.
Qed.

(** C5, as the code has it: on a cartridge constructed from an image of 1
    to 2048 banks, after every sequence of install, reset, peek, poke, bank,
    patch, save, load, lock and unlock that runs to its end, the active
    bank is a bank of the image, [0 <= getBank() < bankCount()], provided
    that every [bank(b)] of the sequence names a bank of the image and every
    stream given to [load] stores one. *)
Theorem CartridgeSB_bank_in_range `{Devices Dev}
    (changed0 : bool) (image : list Z) (size : Z) (ops : list CartridgeSB.Op)
    (c0 c : CartridgeSB.t) (d0 d : Dev) :
  4096 <= size < 0x801000 ->
  CartridgeSB.ctor changed0 image size = Some c0 ->
  Forall (CartridgeSB.op_in_range (CartridgeSB.bankCount c0)) ops ->
  CartridgeSB.run ops (c0, d0) = Some (c, d) ->
  0 <= CartridgeSB.getBank c < CartridgeSB.bankCount c.
Proof.
  intros Hsize Hctor Hops Hrun.
  destruct (ctor_in_range changed0 image size c0 Hsize Hctor) as [_ Hinv0].
  destruct (run_in_range _ ops Hops c0 c d0 d Hinv0 Hrun) as (_ & Hcount & Hcur).
  unfold CartridgeSB.getBank. rewrite Hcount. exact Hcur.
Qed.

Lemma CartridgeSB_bank_in_range_witness :
  exists c0 c d,
    CartridgeSB.ctor true example_image 16384 = Some c0 /\
    CartridgeSB.run example_session (c0, []) = Some (c, d) /\
    0 <= CartridgeSB.getBank c < CartridgeSB.bankCount c.
Proof.
  assert (Hruns : match (c0 ← CartridgeSB.ctor true example_image 16384;
                         CartridgeSB.run example_session (c0, [])) with
                  | Some _ => true
                  | None => false
                  end = true) by (vm_compute; reflexivity).
  destruct (c0 ← CartridgeSB.ctor true example_image 16384;
            CartridgeSB.run example_session (c0, [])) as [[c d]|] eqn:Hrun;
    [clear Hruns|discriminate].
  revert Hrun.
  destruct (CartridgeSB.ctor true example_image 16384) as [c0|] eqn:Hctor;
    [|discriminate].
  cbn [mbind option_bind]. intros Hrun.
  exists c0, c, d. split; [reflexivity|]. split; [exact Hrun|].
  apply (CartridgeSB_bank_in_range true example_image 16384 example_session
           c0 c [] d ltac:(lia) Hctor); [|exact Hrun].
  destruct (ctor_in_range true example_image 16384 c0 ltac:(lia) Hctor) as [Hsz _].
  unfold CartridgeSB.bankCount. rewrite Hsz.
  change (uInt16 (Z.shiftr 16384 12)) with 4.
  unfold example_session. repeat constructor; cbn; try lia.
Defined.

(** C5, as the claim states it, fails on the four-bank cartridge: [load]
    from a stream that stores the bank 7, and [bank(7)], both return true
    and leave [getBank() == 7] with [bankCount() == 4]. *)
Lemma CartridgeSB_bank_out_of_range_counterexample :
  (c ← example_cart;
   '(r, c', _, _) ← CartridgeSB.load c
       [Serializer.IString CartridgeSB.name; Serializer.IShort 7];
   Some (r, CartridgeSB.getBank c', CartridgeSB.bankCount c'))
  = Some (true, 7, 4) /\
  (c ← example_cart;
   '(r, c') ← CartridgeSB.bank c 7;
   Some (r, CartridgeSB.getBank c', CartridgeSB.bankCount c'))
  = Some (true, 7, 4).
Proof. split; vm_compute; reflexivity. Qed.

(** * Further properties of the cartridges *)

(** ** Cartridge2K: mirrors, short images, patch, install *)

(** [peek] sees the address modulo the size of the store: two addresses that
    differ by a multiple of the size read the same byte. *)
Theorem Cartridge2K_peek_mirrors (changed0 : bool) (image : list Z) (s : Z)
    (c : Cartridge2K.t) (A B : Z) :
  0 <= s < 4294967296 ->
  Z.min s 2048 <= Z.of_nat (length image) ->
  Cartridge2K.ctor changed0 image s = Some c ->
  A mod Cartridge2K.mySize c = B mod Cartridge2K.mySize c ->
  Cartridge2K.peek c A = Cartridge2K.peek c B.
Proof.
  intros Hs Himg Hctor Hmod.
  destruct (Cartridge2K_ctor_spec changed0 image s Hs Himg)
    as (c' & k & Hc & Hsize & Hk & Hmask & _).
  rewrite Hctor in Hc. injection Hc as <-.
  unfold Cartridge2K.peek. rewrite Hmask. rewrite Hsize in Hmod.
  replace (2 ^ k - 1) with (Z.ones k) by (rewrite Z.ones_equiv; lia).
  rewrite !Z.land_ones by lia. rewrite Hmod. reflexivity.
Qed.

Lemma Cartridge2K_peek_mirrors_witness :
  exists c, Cartridge2K.ctor true (replicate 100 0xEA) 100 = Some c /\
    Cartridge2K.peek c 0x1005 = Cartridge2K.peek c 0x1F85.
Proof.
  destruct (Cartridge2K.ctor true (replicate 100 0xEA) 100) as [c|] eqn:Hc;
    [|vm_compute in Hc; discriminate].
  exists c. split; [reflexivity|].
  apply (Cartridge2K_peek_mirrors true (replicate 100 0xEA) 100 c 0x1005 0x1F85).
  - lia.
  - rewrite length_replicate. lia.
  - exact Hc.
  - vm_compute in Hc. injection Hc as <-. reflexivity.
Defined.

(** What [peek] returns on a constructed cartridge: the byte of the image
    when the masked address falls inside the bytes copied from it, and the
    jam opcode 0x02 when it falls in the padding of a short image. *)
Theorem Cartridge2K_peek_image_or_jam (changed0 : bool) (image : list Z) (s : Z)
    (c : Cartridge2K.t) (A : Z) :
  0 <= s < 4294967296 ->
  Z.min s 2048 <= Z.of_nat (length image) ->
  Cartridge2K.ctor changed0 image s = Some c ->
  (Z.land A (Cartridge2K.myMask c) < Z.min s 2048 ->
     exists v, array_get image (Z.land A (Cartridge2K.myMask c)) = Some v /\
               Cartridge2K.peek c A = Some (v, c)) /\
  (Z.min s 2048 <= Z.land A (Cartridge2K.myMask c) ->
     Cartridge2K.peek c A = Some (0x02, c)).
Proof.
  intros Hs Himg Hctor.
  destruct (Cartridge2K_ctor_spec changed0 image s Hs Himg)
    as (c' & k & Hc & Hsize & Hk & Hmask & Hlen & Hle & _ & Hhead & Htail).
  rewrite Hctor in Hc. injection Hc as <-.
  pose proof (land_mask_range A k ltac:(lia)) as Hrange.
  rewrite <- Hmask in Hrange at 1 2.
  unfold Cartridge2K.peek. split; intros Hidx.
  - rewrite Hhead by lia.
    destruct (array_get_is_Some image (Z.land A (Cartridge2K.myMask c))) as [v Hv];
      [lia|].
    exists v. rewrite Hv. split; reflexivity.
  - rewrite Htail by lia. reflexivity.
Qed.

Lemma Cartridge2K_peek_image_or_jam_witness :
  exists c, Cartridge2K.ctor true (replicate 100 0xEA) 100 = Some c /\
    Cartridge2K.peek c 0x1063 = Some (0xEA, c) /\
    Cartridge2K.peek c 0x1064 = Some (0x02, c).
Proof.
  destruct (Cartridge2K.ctor true (replicate 100 0xEA) 100) as [c|] eqn:Hc;
    [|vm_compute in Hc; discriminate].
  exists c. split; [reflexivity|].
  assert (Hmask : Cartridge2K.myMask c = 127)
    by (vm_compute in Hc; injection Hc as <-; reflexivity).
  destruct (Cartridge2K_peek_image_or_jam true (replicate 100 0xEA) 100 c 0x1063)
    as [Hin _]; [lia | rewrite length_replicate; lia | exact Hc |].
  destruct (Cartridge2K_peek_image_or_jam true (replicate 100 0xEA) 100 c 0x1064)
    as [_ Hout]; [lia | rewrite length_replicate; lia | exact Hc |].
  split.
  - destruct Hin as (v & Hv & Hpeek); [rewrite Hmask; vm_compute; reflexivity|].
    rewrite Hmask in Hv. vm_compute in Hv. injection Hv as <-. exact Hpeek.
  - apply Hout. rewrite Hmask. vm_compute. discriminate.
Defined.

(** [patch(A, V)] on a constructed cartridge always succeeds and marks the
    cartridge as changed; afterwards [peek] returns [V] at [A] and at every
    mirror of [A], and what it returned before at every other address. *)
Theorem Cartridge2K_patch_peek (changed0 : bool) (image : list Z) (s : Z)
    (c : Cartridge2K.t) (A V : Z) :
  0 <= s < 4294967296 ->
  Z.min s 2048 <= Z.of_nat (length image) ->
  Cartridge2K.ctor changed0 image s = Some c ->
  exists c',
    Cartridge2K.patch c A V = Some (true, c') /\
    Cartridge2K.myBankChanged c' = true /\
    Cartridge2K.getImage c' = (<[Z.to_nat (Z.land A (Cartridge2K.myMask c)) := V]>
                                 (Cartridge2K.myImage c), Cartridge2K.mySize c) /\
    (forall B, Z.land B (Cartridge2K.myMask c) = Z.land A (Cartridge2K.myMask c) ->
       Cartridge2K.peek c' B = Some (V, c')) /\
    (forall B, Z.land B (Cartridge2K.myMask c) <> Z.land A (Cartridge2K.myMask c) ->
       fst <$> Cartridge2K.peek c' B = fst <$> Cartridge2K.peek c B).
Proof.
  intros Hs Himg Hctor.
  destruct (Cartridge2K_ctor_spec changed0 image s Hs Himg)
    as (c0 & k & Hc & Hsize & Hk & Hmask & Hlen & _).
  rewrite Hctor in Hc. injection Hc as <-.
  pose proof (land_mask_range A k ltac:(lia)) as Hrange.
  rewrite <- Hmask in Hrange at 1 2.
  unfold Cartridge2K.patch.
  destruct (array_set (Cartridge2K.myImage c) (Z.land A (Cartridge2K.myMask c)) V)
    as [img|] eqn:Hset.
  - destruct (array_set_get _ _ _ _ Hset) as (Hget & _ & Hother).
    cbn [mbind option_bind]. eexists. split; [reflexivity|].
    split; [reflexivity|]. split.
    + unfold array_set in Hset. destruct (decide _) in Hset; [|discriminate].
      injection Hset as <-. reflexivity.
    + unfold Cartridge2K.peek. cbn [Cartridge2K.myImage Cartridge2K.myMask]. split.
      * intros B HB. rewrite HB, Hget. reflexivity.
      * intros B HB. rewrite (Hother _ HB).
        destruct (array_get (Cartridge2K.myImage c) (Z.land B (Cartridge2K.myMask c)));
          reflexivity.
  - unfold array_set in Hset. rewrite decide_True in Hset by lia. discriminate.
Qed.

Lemma Cartridge2K_patch_peek_witness :
  exists c c', Cartridge2K.ctor true (replicate 100 0xEA) 100 = Some c /\
    Cartridge2K.patch c 0x1005 0xAB = Some (true, c') /\
    Cartridge2K.peek c' 0x1F85 = Some (0xAB, c').
Proof.
  destruct (Cartridge2K.ctor true (replicate 100 0xEA) 100) as [c|] eqn:Hc;
    [|vm_compute in Hc; discriminate].
  destruct (Cartridge2K_patch_peek true (replicate 100 0xEA) 100 c 0x1005 0xAB)
    as (c' & Hpatch & _ & _ & Hsame & _);
    [lia | rewrite length_replicate; lia | exact Hc |].
  exists c, c'. split; [reflexivity|]. split; [exact Hpatch|].
  apply Hsame. vm_compute in Hc. injection Hc as <-. reflexivity.
Defined.

(** The offset of a window address in its page, added to the masked first
    address of the page, is the masked address, for every mask a
    constructed Cartridge2K can have. *)
Lemma page_base_offset (k A : Z) :
  6 <= k <= 11 -> 0x1000 <= A <= 0x1FFF ->
  64 <= Z.shiftr A 6 < 128 /\
  Z.land (64 * Z.shiftr A 6) (2 ^ k - 1) + Z.land A 63 = Z.land A (2 ^ k - 1).
Proof.
  intros Hk HA.
  pose (P := fun m A =>
    (64 <=? Z.shiftr A 6) && (Z.shiftr A 6 <? 128)
    && (Z.land (64 * Z.shiftr A 6) m + Z.land A 63 =? Z.land A m)).
  assert (Hall : forallb (fun m => check_range (Z.to_nat 4096) 0x1000 (P m))
                   [63; 127; 255; 511; 1023; 2047] = true)
    by (vm_compute; reflexivity).
  assert (Hm : In (2 ^ k - 1) [63; 127; 255; 511; 1023; 2047]).
  { assert (Hcases : k = 6 \/ k = 7 \/ k = 8 \/ k = 9 \/ k = 10 \/ k = 11) by lia.
    destruct Hcases as [->|[->|[->|[->|[->| ->]]]]]; cbn; tauto. }
  pose proof (proj1 (forallb_forall _ _) Hall _ Hm) as Hk'. cbv beta in Hk'.
  pose proof (check_range_Z _ _ _ Hk' A ltac:(lia)) as HP. unfold P in HP.
  apply andb_prop in HP as [HP H3]. apply andb_prop in HP as [H1 H2].
  apply Z.leb_le in H1. apply Z.ltb_lt in H2. apply Z.eqb_eq in H3. lia.
Qed.

(** [install] gives every page of the window 0x1000-0x1FFF a read-only
    descriptor of the cartridge whose direct pointer designates, for each
    address of the page, the very byte [peek] returns there; it writes no
    other page of the System and leaves the cartridge's store as it was. *)
Theorem Cartridge2K_install_pages (changed0 : bool) (image : list Z) (s : Z)
    (c : Cartridge2K.t) (system : System.t) :
  0 <= s < 4294967296 ->
  Z.min s 2048 <= Z.of_nat (length image) ->
  Cartridge2K.ctor changed0 image s = Some c ->
  exists system',
    Cartridge2K.mySystem (Cartridge2K.install c system) = Some system' /\
    Cartridge2K.getImage (Cartridge2K.install c system) = Cartridge2K.getImage c /\
    (forall A, 0x1000 <= A <= 0x1FFF ->
       exists base,
         System.getPageAccess system' (Z.shiftr A System.PAGE_SHIFT)
         = {| System.directPeekBase := Some base;
              System.codeAccessBase := Some base;
              System.device := System.ThisCart;
              System.type := System.PA_READ |} /\
         array_get (Cartridge2K.myImage c) (base + Z.land A System.PAGE_MASK)
         = fst <$> Cartridge2K.peek c A) /\
    (forall p, ~ 64 <= p < 128 ->
       System.getPageAccess system' p = System.getPageAccess system p).
Proof.
  intros Hs Himg Hctor.
  destruct (Cartridge2K_ctor_spec changed0 image s Hs Himg)
    as (c0 & k & Hc & Hsize & Hk & Hmask & Hlen & _).
  rewrite Hctor in Hc. injection Hc as <-.
  unfold Cartridge2K.install. cbn [Cartridge2K.mySystem].
  eexists. split; [reflexivity|]. split; [reflexivity|].
  pose (mk := fun address : Z =>
    {| System.directPeekBase := Some (Z.land address (Cartridge2K.myMask c));
       System.codeAccessBase := Some (Z.land address (Cartridge2K.myMask c));
       System.device :=
         System.device (System.PageAccess_ctor System.ThisCart System.PA_READ);
       System.type :=
         System.type (System.PageAccess_ctor System.ThisCart System.PA_READ) |}).
  assert (Hpage : forall p,
            System.getPageAccess
              (System.for_each_page 0x1000 0x2000
                 (fun address sys =>
                    System.setPageAccess sys (Z.shiftr address System.PAGE_SHIFT)
                      (mk address)) system) p
            = if decide (64 <= p /\ 64 * p < 0x2000) then mk (64 * p)
              else System.getPageAccess system p).
  { intros p. exact (for_each_page_lookup mk 64 0x2000 system p ltac:(lia)). }
  subst mk. cbv beta in Hpage. split.
  - intros A HA. destruct (page_base_offset k A Hk HA) as [Hp Hoff].
    change System.PAGE_SHIFT with 6. change System.PAGE_MASK with 63.
    eexists. split.
    + etransitivity; [apply Hpage|]. rewrite decide_True by lia. reflexivity.
    + unfold Cartridge2K.peek. rewrite Hmask, Hoff.
      destruct (array_get (Cartridge2K.myImage c) (Z.land A (2 ^ k - 1)));
        reflexivity.
  - intros p Hp. etransitivity; [apply Hpage|]. rewrite decide_False by lia.
    reflexivity.
Qed.

Lemma Cartridge2K_install_pages_witness :
  exists c system',
    Cartridge2K.ctor true (replicate 100 0xEA) 100 = Some c /\
    Cartridge2K.mySystem (Cartridge2K.install c example_system) = Some system' /\
    forall p, ~ 64 <= p < 128 ->
      System.getPageAccess system' p = System.getPageAccess example_system p.
Proof.
  destruct (Cartridge2K.ctor true (replicate 100 0xEA) 100) as [c|] eqn:Hc;
    [|vm_compute in Hc; discriminate].
  destruct (Cartridge2K_install_pages true (replicate 100 0xEA) 100 c example_system)
    as (system' & Hsys & _ & _ & Hother);
    [lia | rewrite length_replicate; lia | exact Hc |].
  exists c, system'. split; [reflexivity|]. split; assumption.
Defined.

(** ** Save and load: framing and stream errors *)




(** A stream that ends early or holds the wrong kind of value makes [load]
    return false with one line on [cerr], for both variants, and leaves the
    cartridge as it was: in CartridgeSB also when the tag has been accepted
    and the bank is missing, so that the active bank is never half
    restored. *)
Theorem load_stream_error (inp rest : Serializer.t) :
  (Serializer.getString inp = None ->
     (forall c, Cartridge2K.load c inp
                = (false, c, inp, ["ERROR: Cartridge2K::load"%string])) /\
     (forall c, CartridgeSB.load c inp
                = Some (false, c, inp, ["ERROR: CartridgeSB::load"%string]))) /\
  (Serializer.getString inp = Some (CartridgeSB.name, rest) ->
   Serializer.getShort rest = None ->
   forall c, CartridgeSB.load c inp
             = Some (false, c, rest, ["ERROR: CartridgeSB::load"%string])).
Proof.
  split.
  - intros Hget. split; intros c.
    + unfold Cartridge2K.load. rewrite Hget. reflexivity.
    + unfold CartridgeSB.load. rewrite Hget. reflexivity.
  - intros Hget Hshort c. unfold CartridgeSB.load. rewrite Hget.
    rewrite decide_False by (intros Hne; apply Hne; reflexivity).
    rewrite Hshort. reflexivity.
Qed.

Lemma load_stream_error_witness :
  (forall c, Cartridge2K.load c []
             = (false, c, [], ["ERROR: Cartridge2K::load"%string])) /\
  (forall c, CartridgeSB.load c [Serializer.IShort 3]
             = Some (false, c, [Serializer.IShort 3],
                     ["ERROR: CartridgeSB::load"%string])) /\
  (forall c, CartridgeSB.load c [Serializer.IString CartridgeSB.name]
             = Some (false, c, [], ["ERROR: CartridgeSB::load"%string])).
Proof.
  split; [|split].
  - apply (proj1 (load_stream_error [] [])). reflexivity.
  - apply (proj1 (load_stream_error [Serializer.IShort 3] [])). reflexivity.
  - apply (proj2 (load_stream_error [Serializer.IString CartridgeSB.name] []));
      reflexivity.
Defined.

(** ** CartridgeSB: the pages it publishes *)

Section CartridgeSB_pages.
Import CartridgeSB.

(** The descriptor [bank] publishes for the page [p] of the window. *)
Lemma bank_page_table (c : t) (b : Z) (system : System.t) :
  bankLocked c = false -> mySystem c = Some system ->
  exists c' system',
    bank c b = Some (true, c') /\ mySystem c' = Some system' /\
    myCurrentBank c' = uInt16 b /\ myBankChanged c' = true /\
    rom_unchanged c c' /\
    forall p,
      System.getPageAccess system' p
      = if decide (64 <= p /\ 64 * p < 0x2000)
        then {| System.directPeekBase :=
                  Some (Z.shiftl (uInt16 b) 12 + Z.land (64 * p) 0x0FFF);
                System.codeAccessBase :=
                  Some (Z.shiftl (uInt16 b) 12 + Z.land (64 * p) 0x0FFF);
                System.device := System.ThisCart;
                System.type := System.PA_READ |}
        else System.getPageAccess system p.
Proof.
  intros Hlock Hsys. unfold bank. rewrite Hlock, Hsys.
  cbn [mbind option_bind]. eexists _, _. split; [reflexivity|].
  cbn [mySystem myCurrentBank myBankChanged].
  split; [reflexivity|]. split; [reflexivity|]. split; [reflexivity|].
  split; [repeat split|]. intros p.
  assert (Hoff : uInt32 (Z.shiftl (uInt16 b) 12) = Z.shiftl (uInt16 b) 12).
  { apply uInt32_small. pose proof (uInt16_range b).
    rewrite Z.shiftl_mul_pow2 by lia. change (2 ^ 12) with 4096. lia. }
  rewrite Hoff.
  pose (mk := fun address : Z =>
    {| System.directPeekBase := Some (Z.shiftl (uInt16 b) 12 + Z.land address 0x0FFF);
       System.codeAccessBase := Some (Z.shiftl (uInt16 b) 12 + Z.land address 0x0FFF);
       System.device :=
         System.device (System.PageAccess_ctor System.ThisCart System.PA_READ);
       System.type :=
         System.type (System.PageAccess_ctor System.ThisCart System.PA_READ) |}).
  exact (for_each_page_lookup mk 64 0x2000 system p ltac:(lia)).
Qed.

End CartridgeSB_pages.

(** [bank(b)] on an installed cartridge that is not locked returns true,
    makes [b] the active bank, sets the changed flag, and rewrites exactly
    the 64 pages of the window 0x1000-0x1FFF: each becomes a read-only
    descriptor of the cartridge whose pointers designate the first byte of
    the page in bank [b]; no other page, and nothing of the image, is
    written. *)
Theorem CartridgeSB_bank_pages (c : CartridgeSB.t) (b : Z) (system : System.t) :
  CartridgeSB.bankLocked c = false -> CartridgeSB.mySystem c = Some system ->
  0 <= b < 65536 ->
  exists c' system',
    CartridgeSB.bank c b = Some (true, c') /\
    CartridgeSB.mySystem c' = Some system' /\
    CartridgeSB.getBank c' = b /\ CartridgeSB.myBankChanged c' = true /\
    CartridgeSB.getImage c' = CartridgeSB.getImage c /\
    (forall p, 64 <= p < 128 ->
       System.getPageAccess system' p
       = {| System.directPeekBase := Some (Z.shiftl b 12 + Z.land (64 * p) 0x0FFF);
            System.codeAccessBase := Some (Z.shiftl b 12 + Z.land (64 * p) 0x0FFF);
            System.device := System.ThisCart;
            System.type := System.PA_READ |}) /\
    (forall p, ~ 64 <= p < 128 ->
       System.getPageAccess system' p = System.getPageAccess system p).
Proof.
  intros Hlock Hsys Hb.
  destruct (bank_page_table c b system Hlock Hsys)
    as (c' & system' & Hbank & Hsys' & Hcur & Hflag & (Himg & Hsz & _) & Hpages).
  rewrite (uInt16_small b Hb) in *.
  exists c', system'. split; [exact Hbank|]. split; [exact Hsys'|].
  split; [exact Hcur|]. split; [exact Hflag|]. split.
  - unfold CartridgeSB.getImage. rewrite Himg, Hsz. reflexivity.
  - split; intros p Hp; rewrite Hpages.
    + rewrite decide_True by lia. reflexivity.
    + rewrite decide_False by lia. reflexivity.
Qed.

Lemma CartridgeSB_bank_pages_witness :
  exists c c' system',
    example_cart = Some c /\
    CartridgeSB.bank c 2 = Some (true, c') /\
    CartridgeSB.mySystem c' = Some system' /\
    CartridgeSB.getBank c' = 2 /\
    System.directPeekBase (System.getPageAccess system' 65) = Some 0x2040.
Proof.
  destruct example_cart_ok as (c & Hc & _ & [system Hsys] & _ & Hlock & _).
  destruct (CartridgeSB_bank_pages c 2 system Hlock Hsys ltac:(lia))
    as (c' & system' & Hbank & Hsys' & Hcur & _ & _ & Hwin & _).
  exists c, c', system'. repeat split; try assumption.
  rewrite (Hwin 65 ltac:(lia)). reflexivity.
Defined.

(** [install] records the System and the descriptors it held for the eight
    hot spot pages, then makes every page from 0x0800 up to 0x0FFF (the loop
    bound 0x0FFF still reaches the last page, 0x0FC0) a read-only
    descriptor of the cartridge without direct pointer, so that every
    access there comes to [peek] or [poke]; it leaves the pages below
    0x0800 and above 0x1FFF as they were.  The window is published for the
    startup bank, unless the cartridge is locked: then the window keeps its
    former descriptors. *)
Theorem CartridgeSB_install_pages (c : CartridgeSB.t) (system : System.t) :
  exists c' system',
    CartridgeSB.install c system = Some c' /\
    CartridgeSB.mySystem c' = Some system' /\
    CartridgeSB.myHotSpotPageAccess c' = CartridgeSB.hotspot_pages system /\
    CartridgeSB.getImage c' = CartridgeSB.getImage c /\
    (forall p, 32 <= p < 64 ->
       System.getPageAccess system' p
       = System.PageAccess_ctor System.ThisCart System.PA_READ) /\
    (forall p, ~ 32 <= p < 128 ->
       System.getPageAccess system' p = System.getPageAccess system p) /\
    (CartridgeSB.bankLocked c = false ->
       CartridgeSB.getBank c' = uInt16 (CartridgeSB.myStartBank c) /\
       forall p, 64 <= p < 128 ->
         System.directPeekBase (System.getPageAccess system' p)
         = Some (Z.shiftl (CartridgeSB.getBank c') 12 + Z.land (64 * p) 0x0FFF)) /\
    (CartridgeSB.bankLocked c = true ->
       CartridgeSB.getBank c' = CartridgeSB.getBank c /\
       forall p, 64 <= p < 128 ->
         System.getPageAccess system' p = System.getPageAccess system p).
Proof.
  unfold CartridgeSB.install.
  set (hot := System.for_each_page 0x0800 0x0FFF _ system).
  assert (Hhot : forall p,
            System.getPageAccess hot p
            = if decide (32 <= p /\ 64 * p < 0x0FFF)
              then System.PageAccess_ctor System.ThisCart System.PA_READ
              else System.getPageAccess system p).
  { intros p. subst hot.
    exact (for_each_page_lookup
             (fun _ => System.PageAccess_ctor System.ThisCart System.PA_READ)
             32 0x0FFF system p ltac:(lia)). }
  match goal with |- context [CartridgeSB.bank ?c0 _] => set (c1 := c0) end.
  destruct (CartridgeSB.bankLocked c) eqn:Hlock.
  - rewrite (bank_locked c1 _ Hlock). cbn [mbind option_bind].
    exists c1, hot. subst c1. cbn.
    split; [reflexivity|]. split; [reflexivity|]. split; [reflexivity|].
    split; [reflexivity|]. split; [|split; [|split]].
    + intros p Hp. rewrite Hhot, decide_True by lia. reflexivity.
    + intros p Hp. rewrite Hhot, decide_False by lia. reflexivity.
    + discriminate.
    + intros _. split; [reflexivity|].
      intros p Hp. rewrite Hhot, decide_False by lia. reflexivity.
  - destruct (bank_page_table c1 (CartridgeSB.myStartBank c1) hot Hlock eq_refl)
      as (c' & system' & Hbank & Hsys' & Hcur & _ & (Himg & Hsz & Hh & _) & Hpages).
    rewrite Hbank. cbn [mbind option_bind]. exists c', system'.
    subst c1. cbn [CartridgeSB.myImage CartridgeSB.mySize
                   CartridgeSB.myHotSpotPageAccess CartridgeSB.myStartBank] in *.
    split; [reflexivity|]. split; [exact Hsys'|]. split; [exact Hh|].
    split; [unfold CartridgeSB.getImage; rewrite Himg, Hsz; reflexivity|].
    split; [|split; [|split]].
    + intros p Hp. rewrite Hpages, decide_False by lia.
      rewrite Hhot, decide_True by lia. reflexivity.
    + intros p Hp. rewrite Hpages, decide_False by lia.
      rewrite Hhot, decide_False by lia. reflexivity.
    + intros _. unfold CartridgeSB.getBank. split; [exact Hcur|].
      intros p Hp. rewrite Hpages, decide_True by lia. rewrite Hcur. reflexivity.
    + discriminate.
Qed.

Lemma CartridgeSB_install_pages_witness :
  exists c0 c' system',
    CartridgeSB.ctor true example_image 16384 = Some c0 /\
    CartridgeSB.install c0 example_system = Some c' /\
    CartridgeSB.mySystem c' = Some system' /\
    System.getPageAccess system' 63
    = System.PageAccess_ctor System.ThisCart System.PA_READ /\
    System.getPageAccess system' 31 = System.getPageAccess example_system 31 /\
    CartridgeSB.getBank c' = 3.
Proof.
  destruct (ctor_spec true example_image 16384)
    as (c0 & Hctor & Hsz & _ & Hstart & Hlock & _).
  { unfold example_image. rewrite length_replicate. lia. }
  destruct (CartridgeSB_install_pages c0 example_system)
    as (c' & system' & Hinst & Hsys & _ & _ & Hhot & Hother & Hunl & _).
  exists c0, c', system'. split; [exact Hctor|]. split; [exact Hinst|].
  split; [exact Hsys|]. split; [apply Hhot; lia|]. split; [apply Hother; lia|].
  destruct (Hunl Hlock) as [Hcur _]. rewrite Hcur, Hstart.
  unfold CartridgeSB.bankCount. rewrite Hsz. reflexivity.
Defined.

(** ** CartridgeSB: patches and banks *)

(** [patch(A, V)] writes one byte, in the active bank, and a patch made in
    one bank is kept while other banks are active: after [patch(A, V)] in
    bank [b], a switch to another bank [b'] shows at [A] the byte of [b'] as
    it was before the patch, and the switch back to [b] shows [V]. *)
Theorem CartridgeSB_patch_per_bank (c : CartridgeSB.t) (A V b' : Z) :
  CartridgeSB.geometry_ok c -> CartridgeSB.installed c ->
  CartridgeSB.bankLocked c = false ->
  0 <= CartridgeSB.getBank c < CartridgeSB.bankCount c ->
  Z.of_nat (length (CartridgeSB.myImage c)) = CartridgeSB.mySize c ->
  0x1000 <= A <= 0x1FFF ->
  0 <= b' < CartridgeSB.bankCount c -> b' <> CartridgeSB.getBank c ->
  exists c1 c2 c3,
    CartridgeSB.patch c A V = Some (true, c1) /\
    CartridgeSB.myBankChanged c1 = true /\
    (forall i, i <> Z.shiftl (CartridgeSB.getBank c) 12 + Z.land A 0x0FFF ->
       array_get (CartridgeSB.myImage c1) i = array_get (CartridgeSB.myImage c) i) /\
    CartridgeSB.bank c1 b' = Some (true, c2) /\
    CartridgeSB.descriptor_byte c2 A
    = array_get (CartridgeSB.myImage c) (Z.shiftl b' 12 + Z.land A 0x0FFF) /\
    CartridgeSB.bank c2 (CartridgeSB.getBank c) = Some (true, c3) /\
    CartridgeSB.descriptor_byte c3 A = Some V.
Proof.
  intros Hgeo Hinst Hlock Hbank Hlen HA Hb' Hne.
  unfold CartridgeSB.getBank in *.
  destruct (geometry_banks c Hgeo) as (Hn & Hcount & _).
  unfold CartridgeSB.patch.
  pose proof (active_bank_index c A Hgeo Hbank Hlen) as Hidx.
  destruct (array_set (CartridgeSB.myImage c)
              (Z.shiftl (CartridgeSB.myCurrentBank c) 12 + Z.land A 0x0FFF) V)
    as [img|] eqn:Hset;
    [|unfold array_set in Hset; rewrite decide_True in Hset by exact Hidx;
      discriminate].
  destruct (array_set_get _ _ _ _ Hset) as (Hget & _ & Hother).
  cbn [mbind option_bind].
  match goal with |- context [Some (true, ?r)] => set (c1 := r) end.
  assert (Hinst1 : CartridgeSB.installed c1) by exact Hinst.
  destruct (bank_unlocked c1 b' Hlock Hinst1)
    as (c2 & Hbank2 & Hcur2 & _ & (Himg2 & _ & _ & _ & Hlk2) & Hinst2 & Hsync2).
  destruct (bank_unlocked c2 (CartridgeSB.myCurrentBank c)
              ltac:(unfold CartridgeSB.bankLocked; rewrite Hlk2; exact Hlock) Hinst2)
    as (c3 & Hbank3 & Hcur3 & _ & (Himg3 & _) & _ & Hsync3).
  rewrite uInt16_small in Hcur2 by lia. rewrite uInt16_small in Hcur3 by lia.
  exists c1, c2, c3. split; [reflexivity|]. split; [reflexivity|].
  split; [exact Hother|]. split; [exact Hbank2|]. split; [|split; [exact Hbank3|]].
  - rewrite (descriptor_byte_active_bank c2 A Hsync2 HA), Himg2, Hcur2.
    subst c1. cbn [CartridgeSB.myImage]. apply Hother.
    rewrite !Z.shiftl_mul_pow2 by lia. lia.
  - rewrite (descriptor_byte_active_bank c3 A Hsync3 HA), Himg3, Himg2, Hcur3.
    subst c1. cbn [CartridgeSB.myImage]. exact Hget.
Qed.

Lemma CartridgeSB_patch_per_bank_witness :
  exists c c1 c2 c3,
    example_cart = Some c /\
    CartridgeSB.patch c 0x1000 0xAB = Some (true, c1) /\
    CartridgeSB.bank c1 1 = Some (true, c2) /\
    CartridgeSB.descriptor_byte c2 0x1000
    = array_get (CartridgeSB.myImage c) (Z.shiftl 1 12 + Z.land 0x1000 0x0FFF) /\
    CartridgeSB.bank c2 (CartridgeSB.getBank c) = Some (true, c3) /\
    CartridgeSB.descriptor_byte c3 0x1000 = Some 0xAB.
Proof.
  destruct example_cart_ok
    as (c & Hc & Hgeo & Hinst & _ & Hlock & _ & Hbank & Hlen & Hcount & _).
  destruct (CartridgeSB_patch_per_bank c 0x1000 0xAB 1 Hgeo Hinst Hlock)
    as (c1 & c2 & c3 & Hp & _ & _ & Hb2 & Hd2 & Hb3 & Hd3);
    [rewrite Hbank, Hcount; lia | exact Hlen | lia | rewrite Hcount; lia
    | rewrite Hbank; lia |].
  exists c, c1, c2, c3. repeat split; assumption.
Defined.

Section CartridgeSB_sequences.
Context `{Devices Dev}.
Import CartridgeSB.

(** What an operation may write: never the size, the startup bank or the
    length of the image, and the image only when it is a patch. *)
Lemma step_keeps_rom (op : Op) (c c' : t) (d d' : Dev) :
  step op (c, d) = Some (c', d') ->
  mySize c' = mySize c /\ myStartBank c' = myStartBank c /\
  length (myImage c') = length (myImage c) /\
  (is_patch op = false -> myImage c' = myImage c).
Proof.
  intros Hstep.
  assert (Hbank : forall c0 b r c1, bank c0 b = Some (r, c1) ->
            mySize c1 = mySize c0 /\ myStartBank c1 = myStartBank c0 /\
            myImage c1 = myImage c0).
  { intros c0 b r c1 Hb. destruct (bank_cases _ _ _ _ Hb) as [(Hi & Hs & _ & Hst & _) _].
    auto. }
  assert (Hswitch : forall c0 a c1, switch_banks c0 a = Some c1 ->
            mySize c1 = mySize c0 /\ myStartBank c1 = myStartBank c0 /\
            myImage c1 = myImage c0).
  { intros c0 a c1 Hsw. unfold switch_banks in Hsw.
    destruct (decide _) in Hsw; [|injection Hsw as <-; auto].
    destruct (bank c0 _) as [[r c2]|] eqn:Hb; [|discriminate].
    cbn [mbind option_bind] in Hsw. injection Hsw as <-. exact (Hbank _ _ _ _ Hb). }
  destruct op as [system| |A|A V|b|A V| |inp| |]; cbn [step is_patch] in *.
  - destruct (install c system) as [c1|] eqn:Hinstall; [|discriminate].
    cbn [mbind option_bind] in Hstep. injection Hstep as <- <-.
    unfold install in Hinstall.
    match type of Hinstall with
    | context [bank ?c0 _] => set (c2 := c0) in Hinstall
    end.
    destruct (bank c2 (myStartBank c2)) as [[r c3]|] eqn:Hb; [|discriminate].
    cbn [mbind option_bind] in Hinstall. injection Hinstall as <-.
    destruct (Hbank _ _ _ _ Hb) as (Hs & Hst & Hi). subst c2. cbn in Hs, Hst, Hi.
    rewrite Hs, Hst, Hi. auto.
  - unfold reset in Hstep.
    destruct (bank c (myStartBank c)) as [[r c1]|] eqn:Hb; [|discriminate].
    cbn [mbind option_bind] in Hstep. injection Hstep as <- <-.
    destruct (Hbank _ _ _ _ Hb) as (Hs & Hst & Hi). rewrite Hs, Hst, Hi. auto.
  - unfold peek in Hstep.
    destruct (switch_banks c (mask_address c A)) as [c1|] eqn:Hsw; [|discriminate].
    cbn [mbind option_bind] in Hstep.
    destruct (Hswitch _ _ _ Hsw) as (Hs & Hst & Hi).
    destruct (decide _) in Hstep.
    + destruct (hotspot_device c1 _) as [id|]; [|discriminate].
      cbn [mbind option_bind] in Hstep. destruct (dev_peek id _ d).
      cbn [mbind option_bind] in Hstep. injection Hstep as <- <-.
      rewrite Hs, Hst, Hi. auto.
    + cbn [mbind option_bind] in Hstep. injection Hstep as <- <-.
      rewrite Hs, Hst, Hi. auto.
  - unfold poke in Hstep.
    destruct (switch_banks c (mask_address c A)) as [c1|] eqn:Hsw; [|discriminate].
    cbn [mbind option_bind] in Hstep.
    destruct (Hswitch _ _ _ Hsw) as (Hs & Hst & Hi).
    destruct (decide _) in Hstep.
    + destruct (hotspot_device c1 _) as [id|]; [|discriminate].
      cbn [mbind option_bind] in Hstep. destruct (dev_poke id _ V d).
      cbn [mbind option_bind] in Hstep. injection Hstep as <- <-.
      rewrite Hs, Hst, Hi. auto.
    + cbn [mbind option_bind] in Hstep. injection Hstep as <- <-.
      rewrite Hs, Hst, Hi. auto.
  - destruct (bank c b) as [[r c1]|] eqn:Hb; [|discriminate].
    cbn [mbind option_bind] in Hstep. injection Hstep as <- <-.
    destruct (Hbank _ _ _ _ Hb) as (Hs & Hst & Hi). rewrite Hs, Hst, Hi. auto.
  - unfold patch in Hstep.
    destruct (array_set _ _ _) as [img|] eqn:Hset; [|discriminate].
    cbn [mbind option_bind] in Hstep. injection Hstep as <- <-.
    destruct (array_set_get _ _ _ _ Hset) as (_ & Hlen & _). cbn.
    repeat split; [exact Hlen | discriminate].
  - injection Hstep as <- <-. auto.
  - unfold load in Hstep.
    destruct (Serializer.getString inp) as [[s rest]|];
      [|cbn [mbind option_bind] in Hstep; injection Hstep as <- <-; auto].
    destruct (decide (s <> name));
      [cbn [mbind option_bind] in Hstep; injection Hstep as <- <-; auto|].
    destruct (Serializer.getShort rest) as [[b rest']|];
      [|cbn [mbind option_bind] in Hstep; injection Hstep as <- <-; auto].
    match type of Hstep with
    | context [bank ?c0 _] => set (c1 := c0) in Hstep
    end.
    destruct (bank c1 (myCurrentBank c1)) as [[r c2]|] eqn:Hb; [|discriminate].
    cbn [mbind option_bind] in Hstep. injection Hstep as <- <-.
    destruct (Hbank _ _ _ _ Hb) as (Hs & Hst & Hi). subst c1. cbn in Hs, Hst, Hi.
    rewrite Hs, Hst, Hi. auto.
  - injection Hstep as <- <-. auto.
  - injection Hstep as <- <-. auto.
Qed.

End CartridgeSB_sequences.

(** The image is read-only for everything but [patch]: a sequence of
    install, reset, peek, poke, bank, save, load, lock and unlock that runs
    to its end leaves every byte of the image as it was; and no sequence,
    patches included, changes the size of the image, the number of banks
    or the startup bank. *)
Theorem CartridgeSB_image_read_only `{Devices Dev}
    (ops : list CartridgeSB.Op) (c c' : CartridgeSB.t) (d d' : Dev) :
  CartridgeSB.run ops (c, d) = Some (c', d') ->
  snd (CartridgeSB.getImage c') = snd (CartridgeSB.getImage c) /\
  length (fst (CartridgeSB.getImage c')) = length (fst (CartridgeSB.getImage c)) /\
  CartridgeSB.bankCount c' = CartridgeSB.bankCount c /\
  CartridgeSB.myStartBank c' = CartridgeSB.myStartBank c /\
  (existsb CartridgeSB.is_patch ops = false ->
   fst (CartridgeSB.getImage c') = fst (CartridgeSB.getImage c)).
Proof.
  revert c d. induction ops as [|op ops IH]; intros c d Hrun.
  - cbn [CartridgeSB.run] in Hrun. injection Hrun as <- <-. repeat split.
  - cbn [CartridgeSB.run] in Hrun.
    destruct (CartridgeSB.step op (c, d)) as [[c1 d1]|] eqn:Hstep; [|discriminate].
    cbn [mbind option_bind] in Hrun.
    destruct (step_keeps_rom op c c1 d d1 Hstep) as (Hs & Hst & Hlen & Himg).
    destruct (IH c1 d1 Hrun) as (Hs' & Hlen' & Hn' & Hst' & Himg').
    unfold CartridgeSB.getImage, CartridgeSB.bankCount in *. cbn [fst snd] in *.
    split; [congruence|]. split; [congruence|]. split; [congruence|].
    split; [congruence|].
    intros Hnone. cbn [existsb] in Hnone.
    apply orb_false_elim in Hnone as [Hop Hrest].
    rewrite <- (Himg Hop). apply Himg'. exact Hrest.
Qed.

Lemma CartridgeSB_image_read_only_witness :
  exists c0 c d,
    CartridgeSB.ctor true example_image 16384 = Some c0 /\
    CartridgeSB.run [CartridgeSB.OpInstall example_system;
                     CartridgeSB.OpPoke 0x0801 0x55;
                     CartridgeSB.OpPeek 0x1000;
                     CartridgeSB.OpReset] (c0, []) = Some (c, d) /\
    fst (CartridgeSB.getImage c) = fst (CartridgeSB.getImage c0).
Proof.
  pose (ops := [CartridgeSB.OpInstall example_system;
                CartridgeSB.OpPoke 0x0801 0x55;
                CartridgeSB.OpPeek 0x1000;
                CartridgeSB.OpReset]).
  assert (Hruns : match (c0 ← CartridgeSB.ctor true example_image 16384;
                         CartridgeSB.run ops (c0, [])) with
                  | Some _ => true
                  | None => false
                  end = true) by (vm_compute; reflexivity).
  destruct (c0 ← CartridgeSB.ctor true example_image 16384;
            CartridgeSB.run ops (c0, [])) as [[c d]|] eqn:Hrun;
    [clear Hruns|discriminate].
  revert Hrun.
  destruct (CartridgeSB.ctor true example_image 16384) as [c0|]; [|discriminate].
  cbn [mbind option_bind]. intros Hrun.
  exists c0, c, d. split; [reflexivity|]. split; [exact Hrun|].
  apply (CartridgeSB_image_read_only ops c0 c [] d Hrun). reflexivity.
Defined.

(** ** CartridgeSB: the window follows the active bank *)

Section CartridgeSB_sync.
Context `{Devices Dev}.
Import CartridgeSB.

(** On a cartridge that is not locked, an operation other than [lockBank]
    leaves it unlocked and, once installed, with the window published for
    the active bank. *)
Lemma step_keeps_sync (op : Op) (c c' : t) (d d' : Dev) :
  is_lock op = false ->
  bankLocked c = false -> (installed c -> pages_in_sync c) ->
  step op (c, d) = Some (c', d') ->
  bankLocked c' = false /\ (installed c' -> pages_in_sync c').
Proof.
  intros Hop Hlock Hsync Hstep.
  assert (Hbank : forall c0 b r c1,
            bankLocked c0 = false -> bank c0 b = Some (r, c1) ->
            bankLocked c1 = false /\ pages_in_sync c1).
  { intros c0 b r c1 Hl Hb. unfold bank in Hb. rewrite Hl in Hb.
    destruct (mySystem c0) as [system|] eqn:Hsys; [|discriminate].
    destruct (bank_unlocked c0 b Hl ltac:(eexists; exact Hsys))
      as (c2 & Hb2 & _ & _ & (_ & _ & _ & _ & Hlk) & _ & Hs2).
    unfold bank in Hb2. rewrite Hl, Hsys in Hb2. rewrite Hb2 in Hb.
    injection Hb as _ <-. split; [|exact Hs2].
    unfold bankLocked in *. rewrite Hlk. exact Hl. }
  assert (Hswitch : forall a c1, switch_banks c a = Some c1 ->
            bankLocked c1 = false /\ (installed c1 -> pages_in_sync c1)).
  { intros a c1 Hsw. unfold switch_banks in Hsw.
    destruct (decide _) in Hsw; [|injection Hsw as <-; auto].
    destruct (bank c _) as [[r c2]|] eqn:Hb; [|discriminate].
    cbn [mbind option_bind] in Hsw. injection Hsw as <-.
    destruct (Hbank _ _ _ _ Hlock Hb). auto. }
  destruct op as [system| |A|A V|b|A V| |inp| |]; cbn [step is_lock] in *;
    try discriminate.
  - destruct (install c system) as [c1|] eqn:Hinstall; [|discriminate].
    cbn [mbind option_bind] in Hstep. injection Hstep as <- <-.
    unfold install in Hinstall.
    match type of Hinstall with
    | context [bank ?c0 _] => set (c2 := c0) in Hinstall
    end.
    destruct (bank c2 (myStartBank c2)) as [[r c3]|] eqn:Hb; [|discriminate].
    cbn [mbind option_bind] in Hinstall. injection Hinstall as <-.
    destruct (Hbank c2 _ _ _ Hlock Hb). auto.
  - unfold reset in Hstep.
    destruct (bank c (myStartBank c)) as [[r c1]|] eqn:Hb; [|discriminate].
    cbn [mbind option_bind] in Hstep. injection Hstep as <- <-.
    destruct (Hbank _ _ _ _ Hlock Hb). auto.
  - unfold peek in Hstep.
    destruct (switch_banks c (mask_address c A)) as [c1|] eqn:Hsw; [|discriminate].
    cbn [mbind option_bind] in Hstep. pose proof (Hswitch _ _ Hsw) as Hres.
    destruct (decide _) in Hstep.
    + destruct (hotspot_device c1 _) as [id|]; [|discriminate].
      cbn [mbind option_bind] in Hstep. destruct (dev_peek id _ d).
      cbn [mbind option_bind] in Hstep. injection Hstep as <- <-. exact Hres.
    + cbn [mbind option_bind] in Hstep. injection Hstep as <- <-. exact Hres.
  - unfold poke in Hstep.
    destruct (switch_banks c (mask_address c A)) as [c1|] eqn:Hsw; [|discriminate].
    cbn [mbind option_bind] in Hstep. pose proof (Hswitch _ _ Hsw) as Hres.
    destruct (decide _) in Hstep.
    + destruct (hotspot_device c1 _) as [id|]; [|discriminate].
      cbn [mbind option_bind] in Hstep. destruct (dev_poke id _ V d).
      cbn [mbind option_bind] in Hstep. injection Hstep as <- <-. exact Hres.
    + cbn [mbind option_bind] in Hstep. injection Hstep as <- <-. exact Hres.
  - destruct (bank c b) as [[r c1]|] eqn:Hb; [|discriminate].
    cbn [mbind option_bind] in Hstep. injection Hstep as <- <-.
    destruct (Hbank _ _ _ _ Hlock Hb). auto.
  - unfold patch in Hstep.
    destruct (array_set _ _ _) as [img|]; [|discriminate].
    cbn [mbind option_bind] in Hstep. injection Hstep as <- <-.
    split; [exact Hlock|]. exact Hsync.
  - injection Hstep as <- <-. auto.
  - unfold load in Hstep.
    destruct (Serializer.getString inp) as [[s rest]|];
      [|cbn [mbind option_bind] in Hstep; injection Hstep as <- <-; auto].
    destruct (decide (s <> name));
      [cbn [mbind option_bind] in Hstep; injection Hstep as <- <-; auto|].
    destruct (Serializer.getShort rest) as [[b rest']|];
      [|cbn [mbind option_bind] in Hstep; injection Hstep as <- <-; auto].
    match type of Hstep with
    | context [bank ?c0 _] => set (c1 := c0) in Hstep
    end.
    destruct (bank c1 (myCurrentBank c1)) as [[r c2]|] eqn:Hb; [|discriminate].
    cbn [mbind option_bind] in Hstep. injection Hstep as <- <-.
    destruct (Hbank c1 _ _ _ Hlock Hb). auto.
  - injection Hstep as <- <-. auto.
Qed.

(** With the lock taken into account: an operation keeps the window
    published for the active bank, unless it is an [install] or a [load] on
    a locked cartridge; only [lockBank] and [unlockBank] change the lock;
    an installed cartridge stays installed. *)
Lemma step_sync_locked (op : Op) (c c' : t) (d d' : Dev) :
  (is_publish op = true -> bankLocked c = false) ->
  (installed c -> pages_in_sync c) ->
  step op (c, d) = Some (c', d') ->
  bankLocked c' = locked_after op (bankLocked c) /\
  (installed c -> installed c') /\
  (installed c' -> pages_in_sync c').
Proof.
  intros Hpub Hsync Hstep.
  assert (Hbank : forall c0 b r c1, bank c0 b = Some (r, c1) ->
            (bankLocked c0 = true /\ c1 = c0) \/
            (bankLocked c0 = false /\ bankLocked c1 = false /\ pages_in_sync c1)).
  { intros c0 b r c1 Hb. destruct (bankLocked c0) eqn:Hl.
    - rewrite (bank_locked c0 b Hl) in Hb. injection Hb as _ <-. left. auto.
    - right. unfold bank in Hb. rewrite Hl in Hb.
      destruct (mySystem c0) as [system|] eqn:Hsys; [|discriminate].
      destruct (bank_unlocked c0 b Hl ltac:(eexists; exact Hsys))
        as (c2 & Hb2 & _ & _ & (_ & _ & _ & _ & Hlk) & _ & Hs2).
      unfold bank in Hb2. rewrite Hl, Hsys in Hb2. rewrite Hb2 in Hb.
      injection Hb as _ <-. split; [reflexivity|]. split; [|exact Hs2].
      unfold bankLocked in *. rewrite Hlk. exact Hl. }
  assert (Hinst : forall c1, pages_in_sync c1 -> installed c1).
  { intros c1 (system & Hsys & _). eexists. exact Hsys. }
  assert (Hkeep : forall c1,
            (bankLocked c = true /\ c1 = c) \/
            (bankLocked c = false /\ bankLocked c1 = false /\ pages_in_sync c1) ->
            bankLocked c1 = bankLocked c /\
            (installed c -> installed c1) /\ (installed c1 -> pages_in_sync c1)).
  { intros c1 [[_ ->] | (Hl & Hl1 & Hs)].
    - split; [reflexivity|]. split; [auto | exact Hsync].
    - split; [congruence|]. split; auto. }
  assert (Hswitch : forall a c1, switch_banks c a = Some c1 ->
            bankLocked c1 = bankLocked c /\
            (installed c -> installed c1) /\ (installed c1 -> pages_in_sync c1)).
  { intros a c1 Hsw. unfold switch_banks in Hsw.
    destruct (decide _) in Hsw.
    - destruct (bank c _) as [[r c2]|] eqn:Hb; [|discriminate].
      cbn [mbind option_bind] in Hsw. injection Hsw as <-.
      exact (Hkeep _ (Hbank _ _ _ _ Hb)).
    - injection Hsw as <-. split; [reflexivity|]. split; [auto | exact Hsync]. }
  destruct op as [system| |A|A V|b|A V| |inp| |];
    cbn [step locked_after is_publish] in *.
  - specialize (Hpub eq_refl).
    destruct (install c system) as [c1|] eqn:Hinstall; [|discriminate].
    cbn [mbind option_bind] in Hstep. injection Hstep as <- <-.
    unfold install in Hinstall.
    match type of Hinstall with
    | context [bank ?c0 _] => set (c2 := c0) in Hinstall
    end.
    destruct (bank c2 (myStartBank c2)) as [[r c3]|] eqn:Hb; [|discriminate].
    cbn [mbind option_bind] in Hinstall. injection Hinstall as <-.
    destruct (Hbank _ _ _ _ Hb) as [[Hl _] | (_ & Hl1 & Hs)].
    + change (bankLocked c = true) in Hl. congruence.
    + split; [congruence|]. split; auto.
  - unfold reset in Hstep.
    destruct (bank c (myStartBank c)) as [[r c1]|] eqn:Hb; [|discriminate].
    cbn [mbind option_bind] in Hstep. injection Hstep as <- <-.
    exact (Hkeep _ (Hbank _ _ _ _ Hb)).
  - unfold peek in Hstep.
    destruct (switch_banks c (mask_address c A)) as [c1|] eqn:Hsw; [|discriminate].
    cbn [mbind option_bind] in Hstep. pose proof (Hswitch _ _ Hsw) as Hres.
    destruct (decide _) in Hstep.
    + destruct (hotspot_device c1 _) as [id|]; [|discriminate].
      cbn [mbind option_bind] in Hstep. destruct (dev_peek id _ d).
      cbn [mbind option_bind] in Hstep. injection Hstep as <- <-. exact Hres.
    + cbn [mbind option_bind] in Hstep. injection Hstep as <- <-. exact Hres.
  - unfold poke in Hstep.
    destruct (switch_banks c (mask_address c A)) as [c1|] eqn:Hsw; [|discriminate].
    cbn [mbind option_bind] in Hstep. pose proof (Hswitch _ _ Hsw) as Hres.
    destruct (decide _) in Hstep.
    + destruct (hotspot_device c1 _) as [id|]; [|discriminate].
      cbn [mbind option_bind] in Hstep. destruct (dev_poke id _ V d).
      cbn [mbind option_bind] in Hstep. injection Hstep as <- <-. exact Hres.
    + cbn [mbind option_bind] in Hstep. injection Hstep as <- <-. exact Hres.
  - destruct (bank c b) as [[r c1]|] eqn:Hb; [|discriminate].
    cbn [mbind option_bind] in Hstep. injection Hstep as <- <-.
    exact (Hkeep _ (Hbank _ _ _ _ Hb)).
  - unfold patch in Hstep.
    destruct (array_set _ _ _) as [img|]; [|discriminate].
    cbn [mbind option_bind] in Hstep. injection Hstep as <- <-.
    split; [reflexivity|]. split; [intros Hi; exact Hi | exact Hsync].
  - injection Hstep as <- <-. split; [reflexivity|]. split; [auto | exact Hsync].
  - specialize (Hpub eq_refl). unfold load in Hstep.
    destruct (Serializer.getString inp) as [[s rest]|];
      [|cbn [mbind option_bind] in Hstep; injection Hstep as <- <-;
        split; [reflexivity|]; split; [auto | exact Hsync]].
    destruct (decide (s <> name));
      [cbn [mbind option_bind] in Hstep; injection Hstep as <- <-;
       split; [reflexivity|]; split; [auto | exact Hsync]|].
    destruct (Serializer.getShort rest) as [[b rest']|];
      [|cbn [mbind option_bind] in Hstep; injection Hstep as <- <-;
        split; [reflexivity|]; split; [auto | exact Hsync]].
    match type of Hstep with
    | context [bank ?c0 _] => set (c1 := c0) in Hstep
    end.
    destruct (bank c1 (myCurrentBank c1)) as [[r c2]|] eqn:Hb; [|discriminate].
    cbn [mbind option_bind] in Hstep. injection Hstep as <- <-.
    destruct (Hbank _ _ _ _ Hb) as [[Hl _] | (_ & Hl1 & Hs)].
    + change (bankLocked c = true) in Hl. congruence.
    + split; [congruence|]. split; auto.
  - injection Hstep as <- <-. split; [reflexivity|]. split; [intros Hi; exact Hi | exact Hsync].
  - injection Hstep as <- <-. split; [reflexivity|]. split; [intros Hi; exact Hi | exact Hsync].
Qed.

(** The same over a sequence that runs to its end. *)
Lemma run_sync_locked (ops : list Op) :
  forall (c c' : t) (d d' : Dev),
    publishes_unlocked (bankLocked c) ops = true ->
    (installed c -> pages_in_sync c) ->
    run ops (c, d) = Some (c', d') ->
    (installed c -> installed c') /\ (installed c' -> pages_in_sync c').
Proof.
  induction ops as [|op ops IH]; intros c c' d d' Hops Hsync Hrun.
  - cbn [run] in Hrun. injection Hrun as <- <-. split; [auto | exact Hsync].
  - cbn [run] in Hrun. cbn [publishes_unlocked] in Hops.
    apply andb_prop in Hops as [Hop Hrest].
    destruct (step op (c, d)) as [[c1 d1]|] eqn:Hstep; [|discriminate].
    cbn [mbind option_bind] in Hrun.
    assert (Hpub : is_publish op = true -> bankLocked c = false).
    { intros Hp. rewrite Hp in Hop. destruct (bankLocked c); [discriminate|reflexivity]. }
    destruct (step_sync_locked op c c1 d d1 Hpub Hsync Hstep) as (Hl1 & Hi1 & Hs1).
    rewrite <- Hl1 in Hrest.
    destruct (IH c1 c' d1 d' Hrest Hs1 Hrun) as [Hi Hs].
    split; [auto | exact Hs].
Qed.

(** What a sequence of operations may write, see [step_keeps_rom]. *)
Lemma run_keeps_rom (ops : list Op) :
  forall (c c' : t) (d d' : Dev),
    run ops (c, d) = Some (c', d') ->
    mySize c' = mySize c /\ myStartBank c' = myStartBank c /\
    length (myImage c') = length (myImage c) /\
    (existsb is_patch ops = false -> myImage c' = myImage c).
Proof.
  induction ops as [|op ops IH]; intros c c' d d' Hrun.
  - cbn [run] in Hrun. injection Hrun as <- <-. repeat split.
  - cbn [run] in Hrun.
    destruct (step op (c, d)) as [[c1 d1]|] eqn:Hstep; [|discriminate].
    cbn [mbind option_bind] in Hrun.
    destruct (step_keeps_rom op c c1 d d1 Hstep) as (Hs & Hst & Hlen & Himg).
    destruct (IH c1 c' d1 d' Hrun) as (Hs' & Hst' & Hlen' & Himg').
    split; [congruence|]. split; [congruence|]. split; [congruence|].
    intros Hnone. cbn [existsb] in Hnone.
    apply orb_false_elim in Hnone as [Hop Hrest].
    rewrite <- (Himg Hop). apply Himg'. exact Hrest.
Qed.

End CartridgeSB_sync.

(** As long as the cartridge is never locked, the page table follows the
    active bank: after every sequence of operations without [lockBank] that
    runs to its end on a constructed cartridge, the descriptor of each
    window address designates the byte of the active bank at that address,
    whatever banks were selected by hot spots, [bank], [reset] or [load] on
    the way. *)
Theorem CartridgeSB_window_follows_bank `{Devices Dev}
    (changed0 : bool) (image : list Z) (size : Z) (ops : list CartridgeSB.Op)
    (c0 c : CartridgeSB.t) (d0 d : Dev) (A : Z) :
  CartridgeSB.ctor changed0 image size = Some c0 ->
  existsb CartridgeSB.is_lock ops = false ->
  CartridgeSB.run ops (c0, d0) = Some (c, d) ->
  CartridgeSB.installed c ->
  0x1000 <= A <= 0x1FFF ->
  CartridgeSB.descriptor_byte c A
  = array_get (CartridgeSB.myImage c)
      (Z.shiftl (CartridgeSB.getBank c) 12 + Z.land A 0x0FFF).
Proof.
  intros Hctor Hops Hrun Hinst HA.
  assert (Hinv0 : CartridgeSB.bankLocked c0 = false /\
                  (CartridgeSB.installed c0 -> CartridgeSB.pages_in_sync c0)).
  { unfold CartridgeSB.ctor in Hctor.
    destruct (memcpy _ _ _) as [img|]; [|discriminate].
    cbn [mbind option_bind] in Hctor. injection Hctor as <-.
    split; [reflexivity|]. intros [system Hsys]. discriminate. }
  clear Hctor.
  assert (Hinv : CartridgeSB.bankLocked c = false /\
                 (CartridgeSB.installed c -> CartridgeSB.pages_in_sync c)).
  { revert c0 d0 Hinv0 Hrun. induction ops as [|op ops IH]; intros c0 d0 Hinv0 Hrun.
    - cbn [CartridgeSB.run] in Hrun. injection Hrun as <- <-. exact Hinv0.
    - cbn [CartridgeSB.run] in Hrun. cbn [existsb] in Hops.
      apply orb_false_elim in Hops as [Hop Hrest].
      destruct (CartridgeSB.step op (c0, d0)) as [[c1 d1]|] eqn:Hstep; [|discriminate].
      cbn [mbind option_bind] in Hrun.
      apply (IH Hrest c1 d1); [|exact Hrun].
      destruct Hinv0 as [Hl Hs].
      exact (step_keeps_sync op c0 c1 d0 d1 Hop Hl Hs Hstep). }
  destruct Hinv as [_ Hsync].
  apply descriptor_byte_active_bank; [exact (Hsync Hinst) | exact HA].
Qed.

Lemma CartridgeSB_window_follows_bank_witness :
  exists c0 c d,
    CartridgeSB.ctor true example_image 16384 = Some c0 /\
    CartridgeSB.run [CartridgeSB.OpInstall example_system;
                     CartridgeSB.OpPoke 0x0801 0x55;
                     CartridgeSB.OpPatch 0x1ABC 0x42;
                     CartridgeSB.OpLoad [Serializer.IString CartridgeSB.name;
                                         Serializer.IShort 2]] (c0, [])
    = Some (c, d) /\
    CartridgeSB.descriptor_byte c 0x1ABC
    = array_get (CartridgeSB.myImage c)
        (Z.shiftl (CartridgeSB.getBank c) 12 + Z.land 0x1ABC 0x0FFF).
Proof.
  pose (ops := [CartridgeSB.OpInstall example_system;
                CartridgeSB.OpPoke 0x0801 0x55;
                CartridgeSB.OpPatch 0x1ABC 0x42;
                CartridgeSB.OpLoad [Serializer.IString CartridgeSB.name;
                                    Serializer.IShort 2]]).
  assert (Hruns : match (c0 ← CartridgeSB.ctor true example_image 16384;
                         '(c, _) ← CartridgeSB.run ops (c0, []);
                         CartridgeSB.mySystem c) with
                  | Some _ => true
                  | None => false
                  end = true) by (vm_compute; reflexivity).
  revert Hruns.
  destruct (CartridgeSB.ctor true example_image 16384) as [c0|] eqn:Hctor;
    [|discriminate].
  cbn [mbind option_bind].
  destruct (CartridgeSB.run ops (c0, [])) as [[c d]|] eqn:Hrun; [|discriminate].
  cbn [mbind option_bind].
  destruct (CartridgeSB.mySystem c) as [system|] eqn:Hsys; [|discriminate].
  intros _. exists c0, c, d. split; [reflexivity|]. split; [exact Hrun|].
  apply (CartridgeSB_window_follows_bank true example_image 16384 ops c0 c [] d
           0x1ABC Hctor eq_refl Hrun); [|lia].
  eexists. exact Hsys.
Defined.

(** The lock is the exception: [load] on a locked, installed cartridge
    whose window is published for the active bank still returns true and
    makes the stored bank the active one, but [bank] refuses to publish it;
    when the stored bank differs from the former one the window keeps
    designating the former bank. *)
Theorem CartridgeSB_load_locked_stale (c : CartridgeSB.t) (b : Z)
    (rest : Serializer.t) (A : Z) :
  CartridgeSB.bankLocked c = true -> CartridgeSB.pages_in_sync c ->
  0 <= b < 65536 -> 0x1000 <= A <= 0x1FFF ->
  exists c',
    CartridgeSB.load c (Serializer.IString CartridgeSB.name
                          :: Serializer.IShort b :: rest)
    = Some (true, c', rest, []) /\
    CartridgeSB.getBank c' = b /\
    CartridgeSB.mySystem c' = CartridgeSB.mySystem c /\
    CartridgeSB.descriptor_byte c' A
    = array_get (CartridgeSB.myImage c')
        (Z.shiftl (CartridgeSB.getBank c) 12 + Z.land A 0x0FFF) /\
    (b <> CartridgeSB.getBank c -> ~ CartridgeSB.pages_in_sync c').
Proof.
  intros Hlock Hsync Hb HA. unfold CartridgeSB.load.
  cbn [Serializer.getString].
  rewrite decide_False by (intros Hne; apply Hne; reflexivity).
  cbn [Serializer.getShort]. rewrite (uInt16_small b Hb).
  match goal with |- context [CartridgeSB.bank ?c0 _] => set (c1 := c0) end.
  rewrite (bank_locked c1 _ Hlock). cbn [mbind option_bind].
  exists c1. split; [reflexivity|]. split; [reflexivity|]. split; [reflexivity|].
  split.
  - transitivity (CartridgeSB.descriptor_byte c A); [reflexivity|].
    rewrite (descriptor_byte_active_bank c A Hsync HA). reflexivity.
  - intros Hne (system' & Hsys' & Hpages').
    destruct Hsync as (system & Hsys & Hpages).
    subst c1. cbn [CartridgeSB.mySystem CartridgeSB.myCurrentBank] in *.
    rewrite Hsys in Hsys'. injection Hsys' as <-.
    pose proof (Hpages 64 ltac:(lia)) as H1.
    pose proof (Hpages' 64 ltac:(lia)) as H2.
    rewrite H1 in H2. injection H2 as H2.
    unfold CartridgeSB.getBank in Hne.
    rewrite !Z.shiftl_mul_pow2 in H2 by lia. lia.
Qed.

Lemma CartridgeSB_load_locked_stale_witness :
  exists c c',
    example_cart = Some c /\
    CartridgeSB.load (CartridgeSB.lockBank c)
      [Serializer.IString CartridgeSB.name; Serializer.IShort 1]
    = Some (true, c', [], []) /\
    CartridgeSB.getBank c' = 1 /\
    ~ CartridgeSB.pages_in_sync c'.
Proof.
  destruct example_cart_ok as (c & Hc & _ & _ & _ & _ & Hsync & Hbank & _).
  destruct (CartridgeSB_load_locked_stale (CartridgeSB.lockBank c) 1 [] 0x1000)
    as (c' & Hload & Hcur & _ & _ & Hstale);
    [reflexivity | exact Hsync | lia | lia |].
  exists c, c'. split; [exact Hc|]. split; [exact Hload|]. split; [exact Hcur|].
  apply Hstale. change (CartridgeSB.getBank (CartridgeSB.lockBank c))
    with (CartridgeSB.getBank c). rewrite Hbank. lia.
Defined.

(** ** CartridgeSB: the bytes of the window *)

(** C1, as the code has it.  Take a cartridge constructed from an image of 1
    to 2048 banks and any sequence of member functions that runs to its
    end after which the cartridge is installed, [install] and [load] having
    run only while the bank was not locked.  Then, at every address [A] of
    the window 0x1000-0x1FFF, [CartridgeSB::peek(A)] returns 0 and changes
    nothing, and the byte of the active bank,
    [myImage[(getBank() << 12) + (A & 0x0FFF)]], is the one the descriptor
    published by [install] and [bank] designates for [A].  When the active
    bank is a bank of the image, [patch(A, V)] returns true and makes this
    byte [V]; and after every further such sequence without [patch] that
    ends with the same bank active, [V] is still the byte designated for
    [A], and [peek(A)] still returns 0. *)
Theorem CartridgeSB_window_byte `{Devices Dev}
    (changed0 : bool) (image : list Z) (size : Z) (ops : list CartridgeSB.Op)
    (c0 c : CartridgeSB.t) (d0 d : Dev) (A : Z) :
  4096 <= size < 0x801000 ->
  CartridgeSB.ctor changed0 image size = Some c0 ->
  CartridgeSB.publishes_unlocked false ops = true ->
  CartridgeSB.run ops (c0, d0) = Some (c, d) ->
  CartridgeSB.installed c ->
  0x1000 <= A <= 0x1FFF ->
  (forall d1 : Dev, CartridgeSB.peek c A d1 = Some (0, c, d1)) /\
  CartridgeSB.descriptor_byte c A
  = array_get (CartridgeSB.myImage c)
      (Z.shiftl (CartridgeSB.getBank c) 12 + Z.land A 0x0FFF) /\
  (0 <= CartridgeSB.getBank c < CartridgeSB.bankCount c ->
   forall V, exists c',
     CartridgeSB.patch c A V = Some (true, c') /\
     CartridgeSB.getBank c' = CartridgeSB.getBank c /\
     array_get (CartridgeSB.myImage c')
       (Z.shiftl (CartridgeSB.getBank c') 12 + Z.land A 0x0FFF) = Some V /\
     CartridgeSB.descriptor_byte c' A = Some V /\
     (forall d1 : Dev, CartridgeSB.peek c' A d1 = Some (0, c', d1)) /\
     (forall (ops' : list CartridgeSB.Op) (c'' : CartridgeSB.t) (d1 d'' : Dev),
        existsb CartridgeSB.is_patch ops' = false ->
        CartridgeSB.publishes_unlocked (CartridgeSB.bankLocked c') ops' = true ->
        CartridgeSB.run ops' (c', d1) = Some (c'', d'') ->
        CartridgeSB.getBank c'' = CartridgeSB.getBank c' ->
        CartridgeSB.descriptor_byte c'' A = Some V /\
        (forall d2 : Dev, CartridgeSB.peek c'' A d2 = Some (0, c'', d2)))).
Proof.
  intros Hsize Hctor Hops Hrun Hinst HA.
  assert (Himage : size <= Z.of_nat (length image)).
  { unfold CartridgeSB.ctor, memcpy in Hctor.
    destruct (decide _) as [[Hle _]|] in Hctor; [exact Hle | discriminate]. }
  destruct (ctor_spec changed0 image size ltac:(lia))
    as (c0' & Hctor' & Hsz0 & _ & Hst0 & Hlock0 & Hsys0 & Hlen0 & _).
  rewrite Hctor in Hctor'. injection Hctor' as <-.
  assert (Hgeo_of : forall c1 : CartridgeSB.t,
            CartridgeSB.mySize c1 = CartridgeSB.mySize c0 ->
            CartridgeSB.myStartBank c1 = CartridgeSB.myStartBank c0 ->
            CartridgeSB.geometry_ok c1).
  { intros c1 Hs Hst. split; [rewrite Hs, Hsz0; exact Hsize|].
    unfold CartridgeSB.bankCount in *. rewrite Hst, Hs. exact Hst0. }
  assert (Hwin : 0 <= A < 65536 /\ Z.land A 0x1000 <> 0).
  { destruct (address_ranges A ltac:(lia)) as [_ Hw].
    destruct (Hw HA) as [Hbit _]. lia. }
  destruct Hwin as [HA16 Hbit].
  destruct (run_keeps_rom ops c0 c d0 d Hrun) as (Hsz & Hst & Hlen & _).
  assert (Hsync0 : CartridgeSB.installed c0 -> CartridgeSB.pages_in_sync c0).
  { intros [system Hsys]. rewrite Hsys0 in Hsys. discriminate. }
  assert (Hlocked0 : CartridgeSB.bankLocked c0 = false) by exact Hlock0.
  rewrite <- Hlocked0 in Hops.
  destruct (run_sync_locked ops c0 c d0 d Hops Hsync0 Hrun) as [_ Hsync].
  specialize (Hsync Hinst).
  pose proof (Hgeo_of c Hsz Hst) as Hgeo.
  split; [|split].
  - intros d1. apply (access_window c A 0 d1 Hgeo HA16 Hbit).
  - apply descriptor_byte_active_bank; assumption.
  - intros Hbank V. unfold CartridgeSB.getBank in *.
    assert (Hlenc : Z.of_nat (length (CartridgeSB.myImage c)) = CartridgeSB.mySize c).
    { rewrite Hlen, Hsz, Hsz0. exact Hlen0. }
    destruct (patch_spec c A V Hgeo Hbank Hlenc)
      as (c' & Hpatch & Hcur & Hsys & Hsz' & Hst' & _ & _ & _ & Hget).
    assert (Hsync' : CartridgeSB.pages_in_sync c').
    { destruct Hsync as (system & Hs & Hpages). exists system.
      rewrite Hsys, Hcur. split; assumption. }
    assert (Hgeo' : CartridgeSB.geometry_ok c').
    { apply Hgeo_of; congruence. }
    exists c'. split; [exact Hpatch|]. split; [exact Hcur|].
    split; [rewrite Hcur; exact Hget|]. split; [|split].
    + rewrite (descriptor_byte_active_bank c' A Hsync' HA), Hcur. exact Hget.
    + intros d1. apply (access_window c' A 0 d1 Hgeo' HA16 Hbit).
    + intros ops' c'' d1 d'' Hnopatch Hops' Hrun' Hcur''.
      destruct (run_keeps_rom ops' c' c'' d1 d'' Hrun') as (Hsz'' & Hst'' & _ & Himg'').
      destruct (run_sync_locked ops' c' c'' d1 d'' Hops' (fun _ => Hsync') Hrun')
        as [Hinst'' Hsync''].
      assert (Hinstalled' : CartridgeSB.installed c').
      { destruct Hsync' as (system & Hs & _). eexists. exact Hs. }
      specialize (Hsync'' (Hinst'' Hinstalled')). split.
      * rewrite (descriptor_byte_active_bank c'' A Hsync'' HA).
        rewrite (Himg'' Hnopatch), Hcur'', Hcur. exact Hget.
      * intros d2. apply (access_window c'' A 0 d2); [|exact HA16|exact Hbit].
        apply Hgeo_of; congruence.
Qed.

Lemma CartridgeSB_window_byte_witness :
  exists c0 c d,
    CartridgeSB.ctor true example_image 16384 = Some c0 /\
    CartridgeSB.run [CartridgeSB.OpInstall example_system;
                     CartridgeSB.OpLock;
                     CartridgeSB.OpPoke 0x0801 0x55;
                     CartridgeSB.OpUnlock;
                     CartridgeSB.OpPoke 0x0802 0x55] (c0, []) = Some (c, d) /\
    (forall d1 : list (nat * Z * Z), CartridgeSB.peek c 0x1000 d1 = Some (0, c, d1)) /\
    CartridgeSB.descriptor_byte c 0x1000
    = array_get (CartridgeSB.myImage c)
        (Z.shiftl (CartridgeSB.getBank c) 12 + Z.land 0x1000 0x0FFF) /\
    exists c',
      CartridgeSB.patch c 0x1000 0xAB = Some (true, c') /\
      CartridgeSB.getBank c' = CartridgeSB.getBank c /\
      CartridgeSB.descriptor_byte c' 0x1000 = Some 0xAB.
Proof.
  pose (ops := [CartridgeSB.OpInstall example_system;
                CartridgeSB.OpLock;
                CartridgeSB.OpPoke 0x0801 0x55;
                CartridgeSB.OpUnlock;
                CartridgeSB.OpPoke 0x0802 0x55]).
  assert (Hruns : match (c0 ← CartridgeSB.ctor true example_image 16384;
                         '(c, _) ← CartridgeSB.run ops (c0, []);
                         _ ← CartridgeSB.mySystem c;
                         Some ((0 <=? CartridgeSB.getBank c)
                               && (CartridgeSB.getBank c <? CartridgeSB.bankCount c)))
                  with
                  | Some true => true
                  | _ => false
                  end = true) by (vm_compute; reflexivity).
  revert Hruns.
  destruct (CartridgeSB.ctor true example_image 16384) as [c0|] eqn:Hctor;
    [|discriminate].
  cbn [mbind option_bind].
  destruct (CartridgeSB.run ops (c0, [])) as [[c d]|] eqn:Hrun; [|discriminate].
  cbn [mbind option_bind].
  destruct (CartridgeSB.mySystem c) as [system|] eqn:Hsys; [|discriminate].
  cbn [mbind option_bind].
  destruct ((0 <=? CartridgeSB.getBank c)
            && (CartridgeSB.getBank c <? CartridgeSB.bankCount c)) eqn:Hbank;
    [|discriminate].
  intros _. apply andb_prop in Hbank as [Hlo Hhi].
  apply Z.leb_le in Hlo. apply Z.ltb_lt in Hhi.
  destruct (CartridgeSB_window_byte true example_image 16384 ops c0 c [] d 0x1000)
    as (Hpeek & Hdesc & Hpatch);
    [lia | exact Hctor | reflexivity | exact Hrun | eexists; exact Hsys | lia |].
  exists c0, c, d. split; [reflexivity|]. split; [exact Hrun|].
  split; [exact Hpeek|]. split; [exact Hdesc|].
  destruct (Hpatch (conj Hlo Hhi) 0xAB) as (c' & Hp & Hcur & _ & Hd & _).
  exists c'. split; [exact Hp|]. split; [exact Hcur | exact Hd].
Defined.

(** C1, as the claim states it, fails on the four-bank cartridge: after
    [patch(0x1000, 0xAB)], with bank 3 active throughout, the byte of the
    active bank at 0x1000 is 0xAB, and [peek(0x1000)] returns 0. *)
Lemma CartridgeSB_peek_window_counterexample :
  (c ← example_cart;
   '(_, c1) ← CartridgeSB.patch c 0x1000 0xAB;
   '(v, c2, _) ← CartridgeSB.peek c1 0x1000 [];
   Some (v, CartridgeSB.getBank c1, CartridgeSB.getBank c2,
         array_get (CartridgeSB.myImage c2)
           (Z.shiftl (CartridgeSB.getBank c2) 12 + Z.land 0x1000 0x0FFF)))
  = Some (0, 3, 3, Some 0xAB).
Proof. vm_compute. reflexivity. Qed.

(** ** CartridgeSB: how addresses are decoded *)

(** The mask of an image of [n] banks lies within 13 bits and is the bitwise
    or of the two selector bits and of [n - 1], which has no bit in common
    with 0x0800. *)
Lemma bank_mask_shape (n : Z) :
  1 <= n <= 2048 ->
  Z.land 0x1FFF (0x17FF + n) = 0x17FF + n /\
  0x17FF + n = Z.lor 0x1800 (n - 1) /\
  Z.land 0x0800 (n - 1) = 0.
Proof.
  intros Hn.
  pose (P := fun n => (Z.land 0x1FFF (0x17FF + n) =? 0x17FF + n)
                      && (0x17FF + n =? Z.lor 0x1800 (n - 1))
                      && (Z.land 0x0800 (n - 1) =? 0)).
  assert (Hall : check_range (Z.to_nat 2048) 1 P = true) by (vm_compute; reflexivity).
  pose proof (check_range_Z P _ _ Hall n ltac:(lia)) as HP.
  unfold P in HP. apply andb_prop in HP as [HP H3]. apply andb_prop in HP as [H1 H2].
  repeat split; apply Z.eqb_eq; assumption.
Qed.

Section CartridgeSB_decoding.
Context `{Devices Dev}.
Import CartridgeSB.

Lemma mask_address_13_bits (c : t) (A : Z) :
  geometry_ok c -> mask_address c (Z.land A 0x1FFF) = mask_address c A.
Proof.
  intros Hgeo. destruct (geometry_banks c Hgeo) as (Hn & _).
  destruct (bank_mask_shape _ Hn) as (H13 & _).
  unfold mask_address. rewrite (uInt32_small (0x17FF + _)) by lia.
  rewrite <- Z.land_assoc, H13. reflexivity.
Qed.

(** The masked address of a hot spot: 0x0800 plus the selected bank. *)
Lemma mask_address_hotspot (c : t) (A : Z) :
  geometry_ok c -> 0 <= A < 65536 -> Z.land A 0x1800 = 0x0800 ->
  mask_address c A = 0x0800 + Z.land A (bankCount c - 1).
Proof.
  intros Hgeo HA Hhot.
  destruct (geometry_banks c Hgeo) as (Hn & Hcount & _).
  destruct (bank_mask_shape _ Hn) as (_ & Hlor & Hdisj).
  unfold mask_address. rewrite (uInt32_small (0x17FF + _)) by lia.
  rewrite uInt16_small by (apply land_uInt16; exact HA).
  rewrite Hcount, Hlor, Z.land_lor_distr_r, Hhot.
  assert (Hnone : Z.land 0x0800 (Z.land A (Z.shiftr (mySize c) 12 - 1)) = 0).
  { rewrite (Z.land_comm A), Z.land_assoc, Hdisj. reflexivity. }
  rewrite <- (Z.lxor_lor _ _ Hnone). symmetry. apply Z.add_nocarry_lxor. exact Hnone.
Qed.

End CartridgeSB_decoding.

(** The three upper bits of an address are ignored: [peek] and [poke] at
    [A] do what they do at [A & 0x1FFF], the address on the 13 lines of the
    bus. *)
Theorem CartridgeSB_address_mirrors `{Devices Dev}
    (c : CartridgeSB.t) (A V : Z) (d : Dev) :
  CartridgeSB.geometry_ok c ->
  CartridgeSB.peek c A d = CartridgeSB.peek c (Z.land A 0x1FFF) d /\
  CartridgeSB.poke c A V d = CartridgeSB.poke c (Z.land A 0x1FFF) V d.
Proof.
  intros Hgeo. unfold CartridgeSB.peek, CartridgeSB.poke.
  rewrite (mask_address_13_bits c A Hgeo). split; reflexivity.
Qed.

Lemma CartridgeSB_address_mirrors_witness :
  exists c, example_cart = Some c /\
    CartridgeSB.peek c 0xF802 [] = CartridgeSB.peek c 0x1802 [] /\
    CartridgeSB.poke c 0x2801 0x55 [] = CartridgeSB.poke c 0x0801 0x55 [].
Proof.
  destruct example_cart_ok as (c & Hc & Hgeo & _).
  exists c. split; [exact Hc|]. split.
  - apply (CartridgeSB_address_mirrors c 0xF802 0 [] Hgeo).
  - apply (CartridgeSB_address_mirrors c 0x2801 0x55 [] Hgeo).
Defined.

(** What the device behind a hot spot is handed: not the address of the
    access but 0x0800 plus the selected bank, [A & (bankCount() - 1)]; and
    with at most 256 banks every hot spot access goes to the device
    captured for the page of 0x0800, the first of the eight descriptors. *)
Theorem CartridgeSB_hotspot_forwarding `{Devices Dev}
    (c : CartridgeSB.t) (A V : Z) (d : Dev) :
  CartridgeSB.geometry_ok c -> CartridgeSB.installed c ->
  CartridgeSB.forwards_to_devices c ->
  0 <= A < 65536 -> Z.land A 0x1800 = 0x0800 ->
  exists id c',
    CartridgeSB.peek c A d
    = Some (fst (dev_peek id (0x0800 + Z.land A (CartridgeSB.bankCount c - 1)) d), c',
            snd (dev_peek id (0x0800 + Z.land A (CartridgeSB.bankCount c - 1)) d)) /\
    CartridgeSB.poke c A V d
    = Some (false, c',
            snd (dev_poke id (0x0800 + Z.land A (CartridgeSB.bankCount c - 1)) V d)) /\
    (CartridgeSB.bankCount c <= 256 ->
       exists access,
         CartridgeSB.myHotSpotPageAccess c !! 0%nat = Some access /\
         System.device access = System.OtherDevice id).
Proof.
  intros Hgeo Hinst Hfw HA Hhot.
  destruct (access_hotspot c A V d Hgeo Hinst Hfw HA Hhot)
    as (id & c' & Hid & _ & Hpeek & Hpoke & _).
  rewrite (mask_address_hotspot c A Hgeo HA Hhot) in *.
  exists id, c'. split; [exact Hpeek|]. split; [exact Hpoke|].
  intros Hsmall.
  destruct (geometry_banks c Hgeo) as (Hn & Hcount & _).
  assert (Hbank : 0 <= Z.land A (CartridgeSB.bankCount c - 1) < 256).
  { split; [apply Z.land_nonneg; lia|].
    pose proof (land_le_r A (CartridgeSB.bankCount c - 1) ltac:(lia) ltac:(lia)).
    lia. }
  assert (Hidx : Z.shiftr
                   (Z.land (0x0800 + Z.land A (CartridgeSB.bankCount c - 1)) 0x0F00) 8
                 - 8 = 0).
  { pose (P := fun x => Z.shiftr (Z.land (0x0800 + x) 0x0F00) 8 - 8 =? 0).
    assert (Hall : check_range (Z.to_nat 256) 0 P = true) by (vm_compute; reflexivity).
    pose proof (check_range_Z P _ _ Hall _ Hbank) as HP.
    apply Z.eqb_eq in HP. exact HP. }
  unfold CartridgeSB.hotspot_device in Hid. rewrite Hidx in Hid.
  rewrite array_get_lookup in Hid by lia. change (Z.to_nat 0) with 0%nat in Hid.
  destruct (CartridgeSB.myHotSpotPageAccess c !! 0%nat) as [access|]; [|discriminate].
  cbn [mbind option_bind] in Hid. exists access. split; [reflexivity|].
  destruct (System.device access); try discriminate. congruence.
Qed.

Lemma CartridgeSB_hotspot_forwarding_witness :
  exists c id c',
    example_cart = Some c /\
    CartridgeSB.poke c 0x0FFE 0x55 []
    = Some (false, c',
            snd (dev_poke id (0x0800 + Z.land 0x0FFE (CartridgeSB.bankCount c - 1))
                   0x55 [])) /\
    0x0800 + Z.land 0x0FFE (CartridgeSB.bankCount c - 1) = 0x0802.
Proof.
  destruct example_cart_ok
    as (c & Hc & Hgeo & Hinst & Hfw & _ & _ & _ & _ & Hcount & _).
  destruct (CartridgeSB_hotspot_forwarding c 0x0FFE 0x55 [] Hgeo Hinst Hfw
              ltac:(lia) eq_refl) as (id & c' & _ & Hpoke & _).
  exists c, id, c'. split; [exact Hc|]. split; [exact Hpoke|].
  rewrite Hcount. reflexivity.
Defined.

(** When the number of banks is a power of two, every bank can be selected:
    on an installed cartridge that is not locked, an access to the hot spot
    0x0800 + b makes bank [b] the active one, for every bank [b] of the
    image. *)
Theorem CartridgeSB_every_bank_reachable `{Devices Dev}
    (c : CartridgeSB.t) (b k V : Z) (d : Dev) :
  CartridgeSB.geometry_ok c -> CartridgeSB.installed c ->
  CartridgeSB.forwards_to_devices c -> CartridgeSB.bankLocked c = false ->
  0 <= k -> CartridgeSB.bankCount c = 2 ^ k ->
  0 <= b < CartridgeSB.bankCount c ->
  exists v c1 d1 c2 d2,
    CartridgeSB.peek c (0x0800 + b) d = Some (v, c1, d1) /\
    CartridgeSB.getBank c1 = b /\
    CartridgeSB.poke c (0x0800 + b) V d = Some (false, c2, d2) /\
    CartridgeSB.getBank c2 = b.
Proof.
  intros Hgeo Hinst Hfw Hlock Hk Hpow Hb.
  destruct (geometry_banks c Hgeo) as (Hn & Hcount & _).
  assert (Hk11 : k <= 11).
  { destruct (decide (k <= 11)); [assumption|]. exfalso.
    assert (2 ^ 12 <= 2 ^ k) by (apply Z.pow_le_mono_r; lia).
    change (2 ^ 12) with 4096 in *. lia. }
  assert (HA : 0x0800 <= 0x0800 + b <= 0x0FFF) by lia.
  destruct (address_ranges (0x0800 + b) ltac:(lia)) as [Hhot _].
  destruct (access_hotspot c (0x0800 + b) V d Hgeo Hinst Hfw ltac:(lia) (Hhot HA))
    as (id & c' & _ & _ & Hpeek & Hpoke & _ & _ & Hunl & _).
  destruct (Hunl Hlock) as [Hcur _].
  assert (Hsel : Z.land (0x0800 + b) (CartridgeSB.bankCount c - 1) = b).
  { rewrite Hpow. replace (2 ^ k - 1) with (Z.ones k) by (rewrite Z.ones_equiv; lia).
    rewrite Z.land_ones by lia.
    replace 0x0800 with (2 ^ (11 - k) * 2 ^ k)
      by (rewrite <- Z.pow_add_r by lia; replace (11 - k + k) with 11 by lia;
          reflexivity).
    rewrite Z.add_comm, Z.mod_add by lia. apply Z.mod_small. lia. }
  rewrite Hsel in Hcur.
  eexists _, c', _, c', _. split; [exact Hpeek|]. split; [exact Hcur|].
  split; [exact Hpoke | exact Hcur].
Qed.

Lemma CartridgeSB_every_bank_reachable_witness :
  exists c v c1 d1 c2 d2,
    example_cart = Some c /\
    CartridgeSB.peek c (0x0800 + 2) [] = Some (v, c1, d1) /\
    CartridgeSB.getBank c1 = 2 /\
    CartridgeSB.poke c (0x0800 + 2) 0x55 [] = Some (false, c2, d2) /\
    CartridgeSB.getBank c2 = 2.
Proof.
  destruct example_cart_ok
    as (c & Hc & Hgeo & Hinst & Hfw & Hlock & _ & _ & _ & Hcount & _).
  destruct (CartridgeSB_every_bank_reachable c 2 2 0x55 [] Hgeo Hinst Hfw Hlock
              ltac:(lia) Hcount ltac:(rewrite Hcount; lia))
    as (v & c1 & d1 & c2 & d2 & Hrest).
  exists c, v, c1, d1, c2, d2. split; [exact Hc | exact Hrest].
Defined.

(** * Properties of the console *)

Section Console_format.
Import Console.

(** The format index after [toggleFormat]. *)
Lemma toggleFormat_index (con : t) (direction : Z) (layout : FrameLayout) :
  myCurrentFormat (fst (toggleFormat con direction layout))
  = if decide (direction = 1) then (myCurrentFormat con + 1) mod 7
    else if decide (direction = -1) then
      (if decide (myCurrentFormat con > 0) then myCurrentFormat con - 1 else 6)
    else myCurrentFormat con.
Proof.
  unfold toggleFormat.
  destruct (format_switch con _ layout) as [[[[tia display] timing] saveformat] message].
  reflexivity.
Qed.

(** The palette [setPalette] hands to the frame buffer: its column follows
    the first letters of the display format, its row the type asked for. *)
Lemma setPalette_spec (con : t) (type : string) :
  exists p, setPalette con type = [FrameBuffer_setPalette p] /\
    palette_column p
    = (if compare_prefix (myDisplayFormat con) 3 "PAL" then 1
       else if compare_prefix (myDisplayFormat con) 5 "SECAM" then 2 else 0)%nat /\
    palette_row p
    = (if decide (type = "standard") then 0
       else if decide (type = "z26") then 1
       else if decide (type = "user" /\ myUserPaletteDefined con = true) then 2
       else 0)%nat.
Proof.
  unfold setPalette. eexists. split; [reflexivity|].
  destruct (decide (type = "standard")), (decide (type = "z26")),
    (decide (type = "user" /\ myUserPaletteDefined con = true)),
    (compare_prefix (myDisplayFormat con) 3 "PAL"),
    (compare_prefix (myDisplayFormat con) 5 "SECAM"); split; reflexivity.
Qed.

End Console_format.

(** [toggleFormat] keeps the format index between 0 and 6; a step up is
    undone by a step down and a step down by a step up, a step always
    changes the format, and seven steps up come back to the format they
    started from. *)
Theorem Console_toggleFormat_cycle (con : Console.t) (l1 l2 : Console.FrameLayout) :
  0 <= Console.myCurrentFormat con <= 6 ->
  let up c := fst (Console.toggleFormat c 1 l1) in
  let down c := fst (Console.toggleFormat c (-1) l2) in
  0 <= Console.myCurrentFormat (up con) <= 6 /\
  0 <= Console.myCurrentFormat (down con) <= 6 /\
  Console.myCurrentFormat (up con) <> Console.myCurrentFormat con /\
  Console.myCurrentFormat (down con) <> Console.myCurrentFormat con /\
  Console.myCurrentFormat (down (up con)) = Console.myCurrentFormat con /\
  Console.myCurrentFormat (up (down con)) = Console.myCurrentFormat con /\
  Console.myCurrentFormat (up (up (up (up (up (up (up con)))))))
  = Console.myCurrentFormat con.
Proof.
  intros Hrange up down.
  assert (Hup : forall c, Console.myCurrentFormat (up c)
                          = (Console.myCurrentFormat c + 1) mod 7).
  { intros c. subst up. cbv beta. rewrite toggleFormat_index.
    rewrite decide_True by reflexivity. reflexivity. }
  assert (Hdown : forall c, Console.myCurrentFormat (down c)
                            = if decide (Console.myCurrentFormat c > 0)
                              then Console.myCurrentFormat c - 1 else 6).
  { intros c. subst down. cbv beta. rewrite toggleFormat_index.
    rewrite decide_False by lia. rewrite decide_True by reflexivity. reflexivity. }
  clearbody up down.
  rewrite !Hup, !Hdown, !Hup.
  set (f := Console.myCurrentFormat con) in *. clearbody f.
  assert (Hcases : f = 0 \/ f = 1 \/ f = 2 \/ f = 3 \/ f = 4 \/ f = 5 \/ f = 6)
    by lia.
  destruct Hcases as [-> | [-> | [-> | [-> | [-> | [-> | ->]]]]]];
    vm_compute; repeat split; congruence.
Qed.

Lemma Console_toggleFormat_cycle_witness :
  Console.myCurrentFormat
    (fst (Console.toggleFormat
            (fst (Console.toggleFormat
                    (Console.mkConsole "SECAM60" 6 false Console.secam "standard" [] [] [])
                    1 Console.layout_pal))
            (-1) Console.layout_ntsc)) = 6.
Proof.
  apply (Console_toggleFormat_cycle
           (Console.mkConsole "SECAM60" 6 false Console.secam "standard" [] [] [])
           Console.layout_pal Console.layout_ntsc).
  cbn [Console.myCurrentFormat]. lia.
Defined.

(** After [toggleFormat], whatever the direction, the console is consistent:
    the timing announced to the System, the display format and the palette
    handed to the frame buffer belong to the same television standard (NTSC,
    PAL or SECAM, the 50 and 60 Hz variants included); the format saved in
    the properties is "AUTO" in auto-detect mode and the display format
    otherwise; the palette is of the kind the setting "palette" names, which
    is left as it was. *)
Theorem Console_toggleFormat_consistent (con : Console.t) (direction : Z)
    (layout : Console.FrameLayout) :
  0 <= Console.myCurrentFormat con <= 6 ->
  exists tia saveformat message p,
    let con' := fst (Console.toggleFormat con direction layout) in
    snd (Console.toggleFormat con direction layout)
    = tia ++ [Console.Properties_set Console.Display_Format saveformat;
              Console.FrameBuffer_setPalette p;
              Console.Console_setTIAProperties; Console.TIA_frameReset;
              Console.Console_initializeVideo;
              Console.FrameBuffer_showMessage message;
              Console.System_consoleChanged (Console.myConsoleTiming con')] /\
    0 <= Console.myCurrentFormat con' <= 6 /\
    (Console.myCurrentFormat con' = 0 ->
       tia = [Console.TIA_update] /\ saveformat = "AUTO" /\
       Console.myDisplayFormat con'
       = match layout with
         | Console.layout_pal => "PAL"
         | Console.layout_ntsc => "NTSC"
         end) /\
    (Console.myCurrentFormat con' <> 0 ->
       tia = [] /\ saveformat = Console.myDisplayFormat con') /\
    Console.palette_column p = Console.timing_column (Console.myConsoleTiming con') /\
    Console.palette_row p
    = (if decide (Console.settings_palette con = "standard") then 0
       else if decide (Console.settings_palette con = "z26") then 1
       else if decide (Console.settings_palette con = "user" /\
                       Console.myUserPaletteDefined con = true) then 2
       else 0)%nat /\
    Console.settings_palette con' = Console.settings_palette con.
Proof.
  intros Hrange. unfold Console.toggleFormat.
  set (f := if decide (direction = 1) then _ else _).
  assert (Hf : 0 <= f <= 6).
  { subst f. destruct (decide (direction = 1)); [|destruct (decide (direction = -1))].
    - pose proof (Z.mod_pos_bound (Console.myCurrentFormat con + 1) 7 ltac:(lia)). lia.
    - destruct (decide (Console.myCurrentFormat con > 0)); lia.
    - lia. }
  clearbody f.
  assert (Hcases : f = 0 \/ f = 1 \/ f = 2 \/ f = 3 \/ f = 4 \/ f = 5 \/ f = 6) by lia.
  assert (Hfinish : forall display timing tia saveformat message f,
            0 <= f <= 6 ->
            Console.timing_column timing
            = (if Console.compare_prefix display 3 "PAL" then 1
               else if Console.compare_prefix display 5 "SECAM" then 2 else 0)%nat ->
            (f = 0 -> tia = [Console.TIA_update] /\ saveformat = "AUTO" /\
                      display = match layout with
                                | Console.layout_pal => "PAL"
                                | Console.layout_ntsc => "NTSC"
                                end) ->
            (f <> 0 -> tia = [] /\ saveformat = display) ->
            exists tia' saveformat' message' p,
              let con' := fst (Console.set_format con f display timing,
                               tia ++ [Console.Properties_set Console.Display_Format
                                         saveformat]
                                   ++ Console.setPalette
                                        (Console.set_format con f display timing)
                                        (Console.settings_palette
                                           (Console.set_format con f display timing))
                                   ++ [Console.Console_setTIAProperties;
                                       Console.TIA_frameReset;
                                       Console.Console_initializeVideo;
                                       Console.FrameBuffer_showMessage message;
                                       Console.System_consoleChanged timing]) in
              snd (Console.set_format con f display timing,
                   tia ++ [Console.Properties_set Console.Display_Format saveformat]
                       ++ Console.setPalette
                            (Console.set_format con f display timing)
                            (Console.settings_palette
                               (Console.set_format con f display timing))
                       ++ [Console.Console_setTIAProperties;
                           Console.TIA_frameReset;
                           Console.Console_initializeVideo;
                           Console.FrameBuffer_showMessage message;
                           Console.System_consoleChanged timing])
              = tia' ++ [Console.Properties_set Console.Display_Format saveformat';
                         Console.FrameBuffer_setPalette p;
                         Console.Console_setTIAProperties; Console.TIA_frameReset;
                         Console.Console_initializeVideo;
                         Console.FrameBuffer_showMessage message';
                         Console.System_consoleChanged (Console.myConsoleTiming con')] /\
              0 <= Console.myCurrentFormat con' <= 6 /\
              (Console.myCurrentFormat con' = 0 ->
                 tia' = [Console.TIA_update] /\ saveformat' = "AUTO" /\
                 Console.myDisplayFormat con'
                 = match layout with
                   | Console.layout_pal => "PAL"
                   | Console.layout_ntsc => "NTSC"
                   end) /\
              (Console.myCurrentFormat con' <> 0 ->
                 tia' = [] /\ saveformat' = Console.myDisplayFormat con') /\
              Console.palette_column p
              = Console.timing_column (Console.myConsoleTiming con') /\
              Console.palette_row p
              = (if decide (Console.settings_palette con = "standard") then 0
                 else if decide (Console.settings_palette con = "z26") then 1
                 else if decide (Console.settings_palette con = "user" /\
                                 Console.myUserPaletteDefined con = true) then 2
                 else 0)%nat /\
              Console.settings_palette con' = Console.settings_palette con).
  { intros display timing tia saveformat message f0 Hf0 Htiming Hauto Hother.
    destruct (setPalette_spec (Console.set_format con f0 display timing)
                (Console.settings_palette (Console.set_format con f0 display timing)))
      as (p & Hp & Hcol & Hrow).
    rewrite Hp. exists tia, saveformat, message, p.
    cbn [fst snd app Console.myConsoleTiming Console.myCurrentFormat
         Console.myDisplayFormat Console.settings_palette Console.set_format
         Console.myUserPaletteDefined] in *.
    split; [reflexivity|]. split; [exact Hf0|]. split; [exact Hauto|].
    split; [exact Hother|]. split; [rewrite Hcol, Htiming; reflexivity|].
    split; [exact Hrow | reflexivity]. }
  destruct Hcases as [-> | [-> | [-> | [-> | [-> | [-> | ->]]]]]];
    cbn [Console.format_switch]; apply Hfinish;
    first [lia | reflexivity | destruct layout; reflexivity
          | intros Hz; first [discriminate Hz | lia | repeat split]
          | intros Hnz; first [exfalso; apply Hnz; reflexivity | repeat split]].
Qed.

Lemma Console_toggleFormat_consistent_witness :
  exists tia saveformat message p,
    let con := Console.mkConsole "PAL" 2 false Console.pal "z26" [] [] [] in
    let con' := fst (Console.toggleFormat con 1 Console.layout_ntsc) in
    snd (Console.toggleFormat con 1 Console.layout_ntsc)
    = tia ++ [Console.Properties_set Console.Display_Format saveformat;
              Console.FrameBuffer_setPalette p;
              Console.Console_setTIAProperties; Console.TIA_frameReset;
              Console.Console_initializeVideo;
              Console.FrameBuffer_showMessage message;
              Console.System_consoleChanged (Console.myConsoleTiming con')] /\
    Console.palette_column p = Console.timing_column (Console.myConsoleTiming con').
Proof.
  destruct (Console_toggleFormat_consistent
              (Console.mkConsole "PAL" 2 false Console.pal "z26" [] [] [])
              1 Console.layout_ntsc)
    as (tia & saveformat & message & p & Hev & _ & _ & _ & Hcol & _).
  - cbn [Console.myCurrentFormat]. lia.
  - exists tia, saveformat, message, p. split; [exact Hev | exact Hcol].
Defined.

(** [setPalette] hands the frame buffer a user palette only when the type
    asked for is "user" and a user palette has been loaded; "user" without
    one, and any unknown type, fall back to the standard palette.  The
    television standard of the palette is read off the first letters of the
    display format, so that "PAL60" takes a PAL palette and "SECAM60" a
    SECAM one. *)
Theorem Console_setPalette_choice (con : Console.t) (type : string) :
  exists p,
    Console.setPalette con type = [Console.FrameBuffer_setPalette p] /\
    (Console.palette_row p = 2%nat <->
     type = "user" /\ Console.myUserPaletteDefined con = true) /\
    (Console.palette_row p = 1%nat <-> type = "z26") /\
    (Console.palette_column p = 1%nat <->
     String.substring 0 3 (Console.myDisplayFormat con) = "PAL") /\
    (Console.palette_column p = 2%nat <->
     String.substring 0 5 (Console.myDisplayFormat con) = "SECAM").
Proof.
  destruct (setPalette_spec con type) as (p & Hp & Hcol & Hrow).
  exists p. split; [exact Hp|]. rewrite Hcol, Hrow. clear Hcol Hrow Hp.
  unfold Console.compare_prefix.
  assert (Hexcl : String.substring 0 3 (Console.myDisplayFormat con) = "PAL" ->
                  String.substring 0 5 (Console.myDisplayFormat con) = "SECAM" -> False).
  { destruct (Console.myDisplayFormat con) as [|a [|b [|c [|e [|g s]]]]];
      cbn; intros H1 H2; congruence. }
  repeat split.
  - destruct (decide (type = "standard")); [discriminate|].
    destruct (decide (type = "z26")); [discriminate|].
    destruct (decide (type = "user" /\ _)) as [Hu|]; [apply Hu | discriminate].
  - destruct (decide (type = "standard")); [discriminate|].
    destruct (decide (type = "z26")); [discriminate|].
    destruct (decide (type = "user" /\ _)) as [Hu|]; [apply Hu | discriminate].
  - intros [-> Hdef]. rewrite decide_False by discriminate.
    rewrite decide_False by discriminate. rewrite decide_True by auto. reflexivity.
  - destruct (decide (type = "standard")); [discriminate|].
    destruct (decide (type = "z26")); [auto|].
    destruct (decide (type = "user" /\ _)); discriminate.
  - intros ->. rewrite decide_False by discriminate.
    rewrite decide_True by reflexivity. reflexivity.
  - case_bool_decide; [auto|]. case_bool_decide; discriminate.
  - intros Hpal. rewrite bool_decide_eq_true_2 by exact Hpal. reflexivity.
  - case_bool_decide; [discriminate|]. case_bool_decide; [auto | discriminate].
  - intros Hsecam. rewrite bool_decide_eq_false_2 by (intros Hpal; exact (Hexcl Hpal Hsecam)).
    rewrite bool_decide_eq_true_2 by exact Hsecam. reflexivity.
Qed.

(** [togglePalette] walks the cycle standard, z26, user (the latter only
    when a user palette has been loaded), and brings any other value of the
    setting back to standard: the setting it writes is one of the three
    names, is "user" only with a user palette, is the one the frame
    buffer's palette is taken from, and comes back to where it started
    after three steps with a user palette and two without. *)
Theorem Console_togglePalette_cycle (con : Console.t) :
  let next c := fst (Console.togglePalette c) in
  (exists message p,
     snd (Console.togglePalette con)
     = [Console.Settings_setValue "palette" (Console.settings_palette (next con));
        Console.FrameBuffer_showMessage message;
        Console.FrameBuffer_setPalette p] /\
     (Console.settings_palette (next con) = "standard" /\ Console.palette_row p = 0%nat \/
      Console.settings_palette (next con) = "z26" /\ Console.palette_row p = 1%nat \/
      Console.settings_palette (next con) = "user" /\ Console.palette_row p = 2%nat /\
      Console.myUserPaletteDefined con = true)) /\
  (Console.settings_palette con <> "standard" ->
   Console.settings_palette con <> "z26" ->
   Console.settings_palette (next con) = "standard") /\
  (Console.myUserPaletteDefined con = true ->
   In (Console.settings_palette con) ["standard"; "z26"; "user"] ->
   Console.settings_palette (next (next (next con))) = Console.settings_palette con) /\
  (Console.myUserPaletteDefined con = false ->
   In (Console.settings_palette con) ["standard"; "z26"] ->
   Console.settings_palette (next (next con)) = Console.settings_palette con).
Proof.
  intros next.
  assert (Hpal : forall c palette message,
            Console.next_palette c (Console.settings_palette c) = (palette, message) ->
            palette
            = (if decide (Console.settings_palette c = "standard") then "z26"
               else if decide (Console.settings_palette c = "z26") then
                 (if Console.myUserPaletteDefined c then "user" else "standard")
               else "standard")).
  { intros c palette message. unfold Console.next_palette.
    destruct (decide (Console.settings_palette c = "standard")); [congruence|].
    destruct (decide (Console.settings_palette c = "z26"));
      [destruct (Console.myUserPaletteDefined c); congruence|].
    destruct (decide (Console.settings_palette c = "user")); congruence. }
  assert (Hnext : forall c,
            Console.settings_palette (next c)
            = (if decide (Console.settings_palette c = "standard") then "z26"
               else if decide (Console.settings_palette c = "z26") then
                 (if Console.myUserPaletteDefined c then "user" else "standard")
               else "standard") /\
            Console.myUserPaletteDefined (next c) = Console.myUserPaletteDefined c).
  { intros c. subst next. cbv beta. unfold Console.togglePalette.
    destruct (Console.next_palette c (Console.settings_palette c))
      as [palette message] eqn:Hn.
    cbn [fst Console.settings_palette Console.myUserPaletteDefined].
    split; [exact (Hpal c palette message Hn) | reflexivity]. }
  split; [|split; [|split]].
  - destruct (Hnext con) as [Hset _]. revert Hset. subst next. cbv beta.
    unfold Console.togglePalette.
    destruct (Console.next_palette con (Console.settings_palette con))
      as [palette message] eqn:Hn.
    cbn [fst snd Console.settings_palette]. intros Hset.
    match goal with
    | |- context [Console.setPalette ?c ?ty] =>
        destruct (setPalette_spec c ty) as (p & Hp & _ & Hrow)
    end.
    rewrite Hp. exists message, p. split; [reflexivity|].
    cbn [Console.myUserPaletteDefined] in Hrow.
    destruct (decide (Console.settings_palette con = "standard")).
    + subst palette. right. left. split; [reflexivity | exact Hrow].
    + destruct (decide (Console.settings_palette con = "z26")).
      * destruct (Console.myUserPaletteDefined con) eqn:Hdef; subst palette.
        -- right. right. split; [reflexivity|]. split; [exact Hrow | reflexivity].
        -- left. split; [reflexivity | exact Hrow].
      * subst palette. left. split; [reflexivity | exact Hrow].
  - intros Hs Hz. rewrite (proj1 (Hnext con)).
    rewrite decide_False by exact Hs. rewrite decide_False by exact Hz. reflexivity.
  - intros Hdef Hin.
    destruct (Hnext con) as [H1 D1]. destruct (Hnext (next con)) as [H2 D2].
    destruct (Hnext (next (next con))) as [H3 _].
    rewrite H3, H2, H1, D2, D1, Hdef.
    destruct Hin as [<- | [<- | [<- | []]]]; vm_compute; reflexivity.
  - intros Hdef Hin.
    destruct (Hnext con) as [H1 D1]. destruct (Hnext (next con)) as [H2 _].
    rewrite H2, H1, D1, Hdef.
    destruct Hin as [<- | [<- | []]]; vm_compute; reflexivity.
Qed.

Lemma Console_setPalette_choice_witness :
  Console.setPalette (Console.mkConsole "PAL60" 5 false Console.pal "user" [] [] [])
    "user"
  = [Console.FrameBuffer_setPalette Console.ourPALPalette].
Proof.
  destruct (Console_setPalette_choice
              (Console.mkConsole "PAL60" 5 false Console.pal "user" [] [] []) "user")
    as (p & Hp & Huser & Hz26 & Hpal & Hsecam).
  rewrite Hp.
  assert (Hcol : Console.palette_column p = 1%nat) by (apply Hpal; reflexivity).
  assert (Hrow : Console.palette_row p <> 2%nat)
    by (intros Hr; apply Huser in Hr as [_ Hdef]; discriminate Hdef).
  assert (Hrow1 : Console.palette_row p <> 1%nat)
    by (intros Hr; apply Hz26 in Hr; discriminate Hr).
  destruct p; cbn in *; congruence.
Defined.

Lemma Console_togglePalette_cycle_witness :
  let next c := fst (Console.togglePalette c) in
  Console.settings_palette
    (next (next (next (Console.mkConsole "NTSC" 1 true Console.ntsc "z26" [] [] []))))
  = "z26" /\
  Console.settings_palette
    (next (Console.mkConsole "NTSC" 1 true Console.ntsc "stella" [] [] []))
  = "standard".
Proof.
  split.
  - apply (proj1 (proj2 (proj2 (Console_togglePalette_cycle
             (Console.mkConsole "NTSC" 1 true Console.ntsc "z26" [] [] []))))).
    + reflexivity.
    + cbn. tauto.
  - apply (proj1 (proj2 (Console_togglePalette_cycle
             (Console.mkConsole "NTSC" 1 true Console.ntsc "stella" [] [] [])))).
    + cbn. discriminate.
    + cbn. discriminate.
Defined.

(** [changePhosphor] moves the blend by steps of two and keeps it between 0
    and 100: an increase gives [min (blend + 2) 100] and is refused at 100,
    a decrease gives [blend - 2] and is refused at 2 or below, so that the
    blend never goes under 1; the same number is written to the properties,
    shown, and handed to the TIA surface.  With the phosphor effect off, or
    a direction other than +1 and -1, no blend is set. *)
Theorem Console_changePhosphor_steps (direction blend : Z) (enabled : bool) :
  0 <= blend <= 100 ->
  (enabled = true /\
   (direction = 1 /\ blend < 100 \/ direction = -1 /\ 2 < blend) /\
   exists blend',
     Console.changePhosphor direction blend enabled
     = [Console.Properties_set Console.Display_PPBlend (pretty blend');
        Console.FrameBuffer_showMessage ("Phosphor blend " +:+ pretty blend');
        Console.TIASurface_enablePhosphor true (Some blend')] /\
     1 <= blend' <= 100 /\
     (direction = 1 -> blend' = Z.min (blend + 2) 100) /\
     (direction = -1 -> blend' = blend - 2)) \/
  (~ (enabled = true /\
      (direction = 1 /\ blend < 100 \/ direction = -1 /\ 2 < blend)) /\
   forall e, In e (Console.changePhosphor direction blend enabled) ->
     exists message, e = Console.FrameBuffer_showMessage message).
Proof.
  intros Hblend. unfold Console.changePhosphor.
  destruct enabled.
  - destruct (decide (direction = 1)) as [->|Hup].
    + destruct (decide (blend >= 100)).
      * right. split; [lia|]. intros e [<-|[]]. eexists; reflexivity.
      * left. split; [reflexivity|]. split; [lia|].
        eexists. split; [reflexivity|]. lia.
    + destruct (decide (direction = -1)) as [->|Hdown].
      * destruct (decide (blend <= 2)).
        -- right. split; [lia|]. intros e [<-|[]]. eexists; reflexivity.
        -- left. split; [reflexivity|]. split; [lia|].
           eexists. split; [reflexivity|]. lia.
      * right. split; [lia|]. intros e [].
  - right. split; [intros [Hen _]; discriminate|].
    intros e [<-|[]]. eexists; reflexivity.
Qed.

Lemma Console_changePhosphor_steps_witness :
  Console.changePhosphor 1 99 true
  = [Console.Properties_set Console.Display_PPBlend "100";
     Console.FrameBuffer_showMessage "Phosphor blend 100";
     Console.TIASurface_enablePhosphor true (Some 100)] /\
  Console.changePhosphor (-1) 2 true
  = [Console.FrameBuffer_showMessage "Phosphor blend at minimum"].
Proof.
  split.
  - destruct (Console_changePhosphor_steps 1 99 true ltac:(lia))
      as [(_ & _ & b & Hev & _ & Hup & _) | [Hno _]].
    + rewrite Hev, (Hup eq_refl). reflexivity.
    + exfalso. apply Hno. split; [reflexivity|]. left. lia.
  - reflexivity.
Defined.

(** ** The user palette file *)

Section Console_palette_file.
Import Console.

Lemma read_pixel_drop (data : list Z) (m : Z) :
  0 <= m ->
  read_pixel (drop (Z.to_nat (3 * m)) data)
  = (file_pixel data m, drop (Z.to_nat (3 * (m + 1))) data).
Proof.
  intros Hm. unfold read_pixel, file_pixel. f_equal.
  - rewrite !nth_lookup, !lookup_take_lt, !lookup_drop by lia.
    replace (Z.to_nat (3 * m) + 0)%nat with (Z.to_nat (3 * m)) by lia.
    replace (Z.to_nat (3 * m) + 1)%nat with (Z.to_nat (3 * m + 1)) by lia.
    replace (Z.to_nat (3 * m) + 2)%nat with (Z.to_nat (3 * m + 2)) by lia.
    reflexivity.
  - rewrite drop_drop. f_equal. lia.
Qed.

(** The loop over the pixels of one palette: entry [2 (i + j)] receives the
    pixel [m + j] of the file, every other entry keeps its value. *)
Lemma load_pixels_spec (data : list Z) :
  forall (n : nat) (i m : Z) (palette : list Z),
    0 <= i -> 0 <= m -> 2 * (i + Z.of_nat n) <= Z.of_nat (length palette) ->
    exists palette',
      load_pixels n i (drop (Z.to_nat (3 * m)) data) palette
      = (palette', drop (Z.to_nat (3 * (m + Z.of_nat n))) data) /\
      length palette' = length palette /\
      (forall j, 0 <= j < Z.of_nat n ->
         palette' !! Z.to_nat (2 * (i + j)) = Some (file_pixel data (m + j))) /\
      (forall k : nat,
         (forall j, 0 <= j < Z.of_nat n -> k <> Z.to_nat (2 * (i + j))) ->
         palette' !! k = palette !! k).
Proof.
  induction n as [|n IH]; intros i m palette Hi Hm Hlen.
  - exists palette. cbn [load_pixels]. replace (m + Z.of_nat 0) with m by lia.
    split; [reflexivity|]. split; [reflexivity|]. split; [intros j Hj; lia|].
    intros k Hk. reflexivity.
  - cbn [load_pixels]. rewrite (read_pixel_drop data m Hm).
    rewrite Z.shiftl_mul_pow2 by lia. change (2 ^ 1) with 2.
    destruct (IH (i + 1) (m + 1)
                (<[Z.to_nat (i * 2) := file_pixel data m]> palette))
      as (palette' & Hload & Hlen' & Hset & Hkeep);
      [lia | lia | rewrite length_insert; lia |].
    exists palette'. rewrite Hload. rewrite length_insert in Hlen'.
    split; [do 2 f_equal; lia|]. split; [exact Hlen'|]. split.
    + intros j Hj. destruct (decide (j = 0)) as [->|Hj0].
      * rewrite Hkeep by (intros j' Hj'; lia).
        replace (Z.to_nat (2 * (i + 0))) with (Z.to_nat (i * 2)) by lia.
        replace (m + 0) with m by lia.
        apply list_lookup_insert_eq. lia.
      * replace (2 * (i + j)) with (2 * (i + 1 + (j - 1))) by lia.
        replace (m + j) with (m + 1 + (j - 1)) by lia. apply Hset. lia.
    + intros k Hk. rewrite Hkeep.
      * apply list_lookup_insert_ne. specialize (Hk 0 ltac:(lia)).
        replace (2 * (i + 0)) with (i * 2) in Hk by lia. congruence.
      * intros j Hj. specialize (Hk (j + 1) ltac:(lia)).
        replace (2 * (i + (j + 1))) with (2 * (i + 1 + j)) in Hk by lia. exact Hk.
Qed.

(** The loop over the SECAM colours: entry [2 (i + j)] receives the pixel
    [m + j] of the file and entry [2 (i + j) + 1] receives 0. *)
Lemma load_secam_spec (data : list Z) :
  forall (n : nat) (i m : Z) (colors : list Z),
    0 <= i -> 0 <= m -> 2 * (i + Z.of_nat n) <= Z.of_nat (length colors) ->
    exists colors',
      fst (load_secam n i (drop (Z.to_nat (3 * m)) data) colors) = colors' /\
      length colors' = length colors /\
      (forall j, 0 <= j < Z.of_nat n ->
         colors' !! Z.to_nat (2 * (i + j)) = Some (file_pixel data (m + j)) /\
         colors' !! Z.to_nat (2 * (i + j) + 1) = Some 0).
Proof.
  assert (Hkeep : forall (n : nat) (i : Z) (inp colors : list Z) (k : nat),
            0 <= i -> (k < Z.to_nat (2 * i))%nat ->
            fst (load_secam n i inp colors) !! k = colors !! k /\
            length (fst (load_secam n i inp colors)) = length colors).
  { induction n as [|n IHn]; intros i inp colors k Hi Hk; [split; reflexivity|].
    cbn [load_secam]. destruct (read_pixel inp) as [pixel inp'].
    rewrite Z.shiftl_mul_pow2 by lia. change (2 ^ 1) with 2.
    destruct (IHn (i + 1) inp'
                (<[Z.to_nat (i * 2 + 1) := 0]> (<[Z.to_nat (i * 2) := pixel]> colors))
                k ltac:(lia) ltac:(lia)) as [Hl Hlen].
    rewrite Hl, Hlen, !length_insert. split; [|reflexivity].
    rewrite !list_lookup_insert_ne by lia. reflexivity. }
  induction n as [|n IH]; intros i m colors Hi Hm Hlen.
  - eexists. split; [reflexivity|]. split; [reflexivity|]. intros j Hj. lia.
  - cbn [load_secam]. rewrite (read_pixel_drop data m Hm).
    rewrite Z.shiftl_mul_pow2 by lia. change (2 ^ 1) with 2.
    set (colors1 := <[Z.to_nat (i * 2 + 1) := 0]>
                      (<[Z.to_nat (i * 2) := file_pixel data m]> colors)).
    assert (Hlen1 : length colors1 = length colors)
      by (subst colors1; rewrite !length_insert; reflexivity).
    destruct (IH (i + 1) (m + 1) colors1) as (colors' & Hload & Hlen' & Hset);
      [lia | lia | rewrite Hlen1; lia |].
    exists colors'. split; [exact Hload|]. split; [congruence|].
    intros j Hj. destruct (decide (j = 0)) as [->|Hj0].
    + rewrite <- Hload.
      destruct (Hkeep n (i + 1) (drop (Z.to_nat (3 * (m + 1))) data) colors1
                  (Z.to_nat (2 * (i + 0))) ltac:(lia) ltac:(lia)) as [H0 _].
      destruct (Hkeep n (i + 1) (drop (Z.to_nat (3 * (m + 1))) data) colors1
                  (Z.to_nat (2 * (i + 0) + 1)) ltac:(lia) ltac:(lia)) as [H1 _].
      rewrite H0, H1. subst colors1.
      replace (2 * (i + 0)) with (i * 2) by lia. replace (m + 0) with m by lia.
      split.
      * rewrite list_lookup_insert_ne by lia. apply list_lookup_insert_eq. lia.
      * apply list_lookup_insert_eq. rewrite length_insert. lia.
    + replace (2 * (i + j)) with (2 * (i + 1 + (j - 1))) by lia.
      replace (m + j) with (m + 1 + (j - 1)) by lia. apply Hset. lia.
Qed.

Lemma lookup_join_replicate (l : list Z) :
  length l = 16%nat ->
  forall (n k : nat), (k < 16 * n)%nat ->
    mjoin (replicate n l) !! k = l !! (k mod 16)%nat.
Proof.
  intros Hl. induction n as [|n IH]; intros k Hk; [lia|].
  cbn [replicate]. change (mjoin (l :: replicate n l)) with (l ++ mjoin (replicate n l)).
  destruct (decide (k < 16)%nat) as [Hlt|Hge].
  - rewrite lookup_app_l by lia. rewrite Nat.mod_small by lia. reflexivity.
  - rewrite lookup_app_r by lia. rewrite Hl, IH by lia. f_equal.
    replace k with ((k - 16) + 1 * 16)%nat at 2 by lia.
    rewrite Nat.Div0.mod_add. reflexivity.
Qed.

End Console_palette_file.

(** [loadUserPalette] decodes a palette file of at least 792 bytes: pixel k
    of the file (the bytes 3k, 3k+1, 3k+2 as red, green, blue) becomes the
    even entry 2k of the NTSC palette for k below 128, the even entry
    2(k-128) of the PAL palette for the next 128, and the eight SECAM
    colours that follow are repeated through all 256 entries of the SECAM
    palette, with 0 at every odd entry; the odd entries of the NTSC and PAL
    palettes are not written; the user palette counts as defined.  A file
    that cannot be opened, or is shorter than 792 bytes, changes nothing,
    the short file being reported on [cerr]. *)
Theorem Console_loadUserPalette_decodes (con : Console.t) (paletteFile : string)
    (data : list Z) :
  length (Console.userNTSC con) = 256%nat -> length (Console.userPAL con) = 256%nat ->
  Console.loadUserPalette con paletteFile None = (con, []) /\
  (Z.of_nat (length data) < 792 ->
   Console.loadUserPalette con paletteFile (Some data)
   = (con, [Console.Cerr ("ERROR: invalid palette file " +:+ paletteFile)])) /\
  (792 <= Z.of_nat (length data) ->
   exists con',
     Console.loadUserPalette con paletteFile (Some data) = (con', []) /\
     Console.myUserPaletteDefined con' = true /\
     Console.myDisplayFormat con' = Console.myDisplayFormat con /\
     Console.settings_palette con' = Console.settings_palette con /\
     (forall i, 0 <= i < 128 ->
        Console.userNTSC con' !! Z.to_nat (2 * i) = Some (Console.file_pixel data i) /\
        Console.userNTSC con' !! Z.to_nat (2 * i + 1)
        = Console.userNTSC con !! Z.to_nat (2 * i + 1) /\
        Console.userPAL con' !! Z.to_nat (2 * i)
        = Some (Console.file_pixel data (128 + i)) /\
        Console.userPAL con' !! Z.to_nat (2 * i + 1)
        = Console.userPAL con !! Z.to_nat (2 * i + 1)) /\
     (forall k, 0 <= k < 256 ->
        Console.userSECAM con' !! Z.to_nat k
        = Some (if Z.even k then Console.file_pixel data (256 + (k mod 16) / 2)
                else 0))).
Proof.
  intros Hntsc Hpal. split; [reflexivity|]. split.
  - intros Hshort. unfold Console.loadUserPalette.
    rewrite decide_True by lia. reflexivity.
  - intros Hlong. unfold Console.loadUserPalette.
    rewrite decide_False by lia.
    destruct (load_pixels_spec data 128 0 0 (Console.userNTSC con))
      as (ntsc & Hload1 & Hlen1 & Hset1 & Hkeep1); [lia | lia | rewrite Hntsc; lia |].
    change (drop (Z.to_nat (3 * 0)) data) with data in Hload1. rewrite Hload1.
    destruct (load_pixels_spec data 128 0 128 (Console.userPAL con))
      as (palp & Hload2 & Hlen2 & Hset2 & Hkeep2); [lia | lia | rewrite Hpal; lia |].
    change (0 + Z.of_nat 128) with 128 in Hload1 |- *. rewrite Hload2.
    change (128 + Z.of_nat 128) with 256.
    destruct (load_secam_spec data 8 0 256 (replicate 16 0))
      as (colors & Hload3 & Hlen3 & Hset3); [lia | lia | cbn; lia |].
    destruct (Console.load_secam 8 0 (drop (Z.to_nat (3 * 256)) data) (replicate 16 0))
      as [colors0 rest] eqn:Hsec.
    cbn [fst] in Hload3. subst colors0.
    eexists. split; [reflexivity|].
    cbn [Console.myUserPaletteDefined Console.myDisplayFormat Console.settings_palette
         Console.userNTSC Console.userPAL Console.userSECAM].
    split; [reflexivity|]. split; [reflexivity|]. split; [reflexivity|]. split.
    + intros i Hi. split; [|split; [|split]].
      * apply (Hset1 i). lia.
      * apply Hkeep1. intros j Hj. lia.
      * apply (Hset2 i). lia.
      * apply Hkeep2. intros j Hj. lia.
    + intros k Hk. rewrite length_replicate in Hlen3.
      rewrite (lookup_join_replicate colors Hlen3 16 (Z.to_nat k)) by lia.
      assert (Hmod : (Z.to_nat k mod 16)%nat = Z.to_nat (k mod 16)).
      { rewrite <- (Nat2Z.id (Z.to_nat k mod 16)). f_equal.
        rewrite Nat2Z.inj_mod. rewrite Z2Nat.id by lia. reflexivity. }
      rewrite Hmod.
      pose proof (Z.mod_pos_bound k 16 ltac:(lia)) as Hr.
      assert (Heven : Z.even k = Z.even (k mod 16)).
      { rewrite (Z.div_mod k 16) at 1 by lia.
        rewrite Z.even_add, Z.even_mul. change (Z.even 16) with true.
        cbn [orb]. destruct (Z.even (k mod 16)); reflexivity. }
      rewrite Heven.
      pose proof (Z.div_mod (k mod 16) 2 ltac:(lia)) as Hhalf.
      pose proof (Z.mod_pos_bound (k mod 16) 2 ltac:(lia)) as Hbit.
      destruct (Hset3 ((k mod 16) / 2) ltac:(lia)) as [Hev Hodd].
      destruct (Z.even (k mod 16)) eqn:Hparity.
      * apply Z.even_spec in Hparity as [q Hq].
        assert (Hidx : 2 * (0 + k mod 16 / 2) = k mod 16) by lia.
        rewrite Hidx in Hev. exact Hev.
      * assert (Hodd' : Z.odd (k mod 16) = true)
          by (rewrite <- Z.negb_even, Hparity; reflexivity).
        apply Z.odd_spec in Hodd' as [q Hq].
        assert (Hidx : 2 * (0 + k mod 16 / 2) + 1 = k mod 16) by lia.
        rewrite Hidx in Hodd. exact Hodd.
Qed.

Lemma Console_loadUserPalette_decodes_witness :
  let con := Console.mkConsole "NTSC" 1 false Console.ntsc "standard"
               (replicate 256 0) (replicate 256 0) (replicate 256 0) in
  let data := replicate 792 0x80 in
  exists con',
    Console.loadUserPalette con "stella.pal" (Some data) = (con', []) /\
    Console.myUserPaletteDefined con' = true /\
    Console.userNTSC con' !! 254%nat = Some 0x808080 /\
    Console.userSECAM con' !! 255%nat = Some 0.
Proof.
  intros con data.
  destruct (Console_loadUserPalette_decodes con "stella.pal" data)
    as (_ & _ & Hlong); [reflexivity | reflexivity |].
  destruct Hlong as (con' & Hload & Hdef & _ & _ & Hpixels & Hsecam);
    [subst data; rewrite length_replicate; lia|].
  exists con'. split; [exact Hload|]. split; [exact Hdef|]. split.
  - destruct (Hpixels 127 ltac:(lia)) as [Hn _].
    change (Z.to_nat (2 * 127)) with 254%nat in Hn. rewrite Hn.
    subst data. vm_compute. reflexivity.
  - exact (Hsecam 255 ltac:(lia)).
Defined.
